(** * web-automator-js: selector resolution, driver lifecycle, retries and
      artifact names, embedded from the JavaScript sources.

    Sources embedded:
    - src/automator/selenium/parsers/enhancedBrowserParser.js (SeleniumUtils,
      EnhancedBrowserParser)
    - src/automator/selenium/drivers/baseSeleniumDriver.js
    - src/automator/selenium/drivers/chromeSeleniumDriver.js,
      edgeSeleniumDriver.js, firefoxSeleniumDriver.js
    - src/automator/playwright/parsers/basePlaywrightParser.js (PlaywrightUtils,
      BasePlaywrightParser)
    - src/automator/playwright/drivers/playwrightDriver.js *)

From Stdlib Require Import Bool Arith NArith ZArith List Ascii String Lia
  DecimalString RelationClasses.
Import ListNotations.

Local Open Scope string_scope.
Local Open Scope list_scope.

(** String concatenation, kept apart from list append. *)
Infix "+:+" := String.append (at level 60, right associativity).

(* ===================================================================== *)
(** ** JavaScript string primitives used by the sources *)
(* ===================================================================== *)

Module Js.

(** The double-quote character, written by code so that no literal has to
    escape it. *)
Definition dq : string := String (ascii_of_nat 34) EmptyString.

(** A line feed, as a template literal that spans lines holds it. *)
Definition nl : string := String (ascii_of_nat 10) EmptyString.

(** [String.prototype.startsWith]. *)
Definition startsWith (s p : string) : bool := String.prefix p s.

(** [String.prototype.includes]: [needle] occurs at some offset of [s]. *)
Fixpoint includes (s needle : string) : bool :=
  String.prefix needle s
  || match s with
     | EmptyString => false
     | String _ s' => includes s' needle
     end.

(** [s.substring(n)]: everything from offset [n] on. *)
Fixpoint substring (n : nat) (s : string) : string :=
  match n, s with
  | O, _ => s
  | S _, EmptyString => EmptyString
  | S m, String _ s' => substring m s'
  end.

(** [s.split(sep)] for a one-character separator. The result is never
    empty: the empty string splits into one empty piece. *)
Fixpoint split (sep : ascii) (s : string) : list string :=
  match s with
  | EmptyString => [EmptyString]
  | String c s' =>
      if Ascii.eqb c sep then EmptyString :: split sep s'
      else match split sep s' with
           | hd :: tl => String c hd :: tl
           | [] => [String c EmptyString]
           end
  end.

(** [pieces.join(sep)] for a one-character separator. *)
Fixpoint join (sep : ascii) (l : list string) : string :=
  match l with
  | [] => EmptyString
  | [x] => x
  | x :: tl => x +:+ String sep (join sep tl)
  end.

(** An array element read by destructuring and printed by a template
    literal: a missing element is [undefined]. *)
Definition templ (x : option string) : string :=
  match x with
  | Some s => s
  | None => "undefined"
  end.

(** A non-negative integer printed by a template literal. *)
Definition num (n : N) : string := NilEmpty.string_of_uint (N.to_uint n).

Definition numNat (n : nat) : string := NilEmpty.string_of_uint (Nat.to_uint n).

(** [String.prototype.toLowerCase] on ASCII. *)
Definition lower_ascii (c : ascii) : ascii :=
  let n := nat_of_ascii c in
  if Nat.leb 65 n && Nat.leb n 90 then ascii_of_nat (n + 32) else c.

Fixpoint toLowerCase (s : string) : string :=
  match s with
  | EmptyString => EmptyString
  | String c s' => String (lower_ascii c) (toLowerCase s')
  end.

(** Truthiness of a possibly missing string: [undefined], [null] and the
    empty string are falsy. *)
Definition truthy (x : option string) : bool :=
  match x with
  | Some EmptyString => false
  | Some _ => true
  | None => false
  end.

(** [a || b] on possibly missing strings. *)
Definition or_else (a b : option string) : option string :=
  if truthy a then a else b.

(** A JavaScript number in a place where the code expects a count: a whole
    number; or a number that lies strictly between two neighbouring whole
    numbers, given by the lower one and by the text a template literal
    prints for it (2.5 is [Between 2 "2.5"]); or [NaN]. The two infinities,
    under which a counting loop has no bound, are left out. *)
Inductive Number : Type :=
| Whole (n : Z)
| Between (below : Z) (printed : string)
| NotANumber.

(** [i < x] for a loop index [i]. *)
Definition ltNumber (i : nat) (x : Number) : bool :=
  match x with
  | Whole n => Z.ltb (Z.of_nat i) n
  | Between below _ => Z.leb (Z.of_nat i) below
  | NotANumber => false
  end.

(** [i <= x] for a loop index [i]. *)
Definition leNumber (i : nat) (x : Number) : bool :=
  match x with
  | Whole n => Z.leb (Z.of_nat i) n
  | Between below _ => Z.leb (Z.of_nat i) below
  | NotANumber => false
  end.

(** [i < x - 1] for a loop index [i]. *)
Definition ltPredecessor (i : nat) (x : Number) : bool :=
  match x with
  | Whole n => Z.ltb (Z.of_nat i) (n - 1)
  | Between below _ => Z.leb (Z.of_nat i) (below - 1)
  | NotANumber => false
  end.

(** [x || dflt] on a possibly missing number: [undefined], zero and [NaN]
    are falsy. *)
Definition numberOr (x : option Number) (dflt : Number) : Number :=
  match x with
  | None | Some (Whole Z0) | Some NotANumber => dflt
  | Some y => y
  end.

(** A number printed by a template literal; a whole number prints in plain
    decimal, as JavaScript prints the whole numbers below 10^21. *)
Definition showNumber (x : Number) : string :=
  match x with
  | Whole Z0 => "0"
  | Whole (Zpos p) => num (Npos p)
  | Whole (Zneg p) => "-" +:+ num (Npos p)
  | Between _ printed => printed
  | NotANumber => "NaN"
  end.

(** How many whole numbers [i] there are with [1 <= i <= x], and how many
    with [0 <= i < x]: the most a loop that counts up to [x] can run. *)
Definition wholeUpTo (x : Number) : nat :=
  match x with
  | Whole n => Z.to_nat n
  | Between below _ => Z.to_nat below
  | NotANumber => 0
  end.

Definition wholeBelow (x : Number) : nat :=
  match x with
  | Whole n => Z.to_nat n
  | Between below _ => Z.to_nat (below + 1)
  | NotANumber => 0
  end.

End Js.

(* ===================================================================== *)
(** ** Locator descriptors of the WebDriver-protocol engine ([By]) *)
(* ===================================================================== *)

Inductive By : Type :=
| By_xpath (expr : string)
| By_id (id : string)
| By_className (name : string)
| By_css (css : string).

(** The [[attr, value] = selector.split('=')] destructuring followed by
    the template [[${attr}="${value}"]]. *)
Definition attrEqualsCss (pieces : list string) : string :=
  "[" +:+ Js.templ (nth_error pieces 0) +:+ "=" +:+ Js.dq
      +:+ Js.templ (nth_error pieces 1) +:+ Js.dq +:+ "]".

(** The template [//*[contains(text(), "${text}")]]. *)
Definition containsTextXPath (text : string) : string :=
  "//*[contains(text(), " +:+ Js.dq +:+ text +:+ Js.dq +:+ ")]".


(** The two inline resolvers of [BaseSeleniumDriver] (baseSeleniumDriver.js). *)
Module DriverLocators.
Import Js.

(** The selector dispatch at the top of [findElement]. *)
Definition findElement_by (selector : string) : By :=
  if startsWith selector "//" || startsWith selector "(//" then
    By_xpath selector
  else if startsWith selector "#" then
    By_id (substring 1 selector)
  else if startsWith selector "." then
    By_className (substring 1 selector)
  else if includes selector "=" then
    By_css (attrEqualsCss (split "=" selector))
  else
    By_css selector.

(** The selector dispatch at the top of [findElements]. *)
Definition findElements_by (selector : string) : By :=
  if startsWith selector "//" || startsWith selector "(//" then
    By_xpath selector
  else if startsWith selector "#" then
    By_id (substring 1 selector)
  else if startsWith selector "." then
    By_className (substring 1 selector)
  else
    By_css selector.

End DriverLocators.

(* ===================================================================== *)
(** ** Effects: exceptions, the fields of [this], and the calls made to the
       outside (browser engine, file system, timers, logger) *)
(* ===================================================================== *)

(** A JavaScript [Error] with its [message]. *)
Inductive Error : Type := Err (message : string).

Definition message (e : Error) : string := let 'Err m := e in m.

(** How an awaited call or a method settles. *)
Inductive Outcome (A : Type) : Type :=
| Returned (a : A)
| Thrown (e : Error).
Arguments Returned {A} a.
Arguments Thrown {A} e.

Inductive Level : Type := Debug | Info | Warn | ErrorLevel.

Module Eff.
Section WithCalls.

(** [Call A] is a request to the outside that answers with an [A] or
    throws. *)
Variable Call : Type -> Type.

(** What the code did, in program order. *)
Inductive Event : Type :=
| Did {A : Type} (c : Call A)
| Logged (level : Level) (args : list string).

(** The outside world answers a call from the history so far: any
    deterministic engine, page and file system is such a function. *)
Definition Env : Type := forall A : Type, list Event -> Call A -> Outcome A.

(** The fields of [this]. *)
Variable S : Type.

Record World : Type := mkWorld { this : S; trace : list Event }.

Definition M (A : Type) : Type := Env -> World -> Outcome A * World.

Definition ret {A} (a : A) : M A := fun _ w => (Returned a, w).

Definition bind {A B} (m : M A) (f : A -> M B) : M B :=
  fun env w =>
    match m env w with
    | (Returned a, w') => f a env w'
    | (Thrown e, w') => (Thrown e, w')
    end.

Definition throw {A} (e : Error) : M A := fun _ w => (Thrown e, w).

(** [try { m } catch (error) { h error }]. *)
Definition try_catch {A} (m : M A) (h : Error -> M A) : M A :=
  fun env w =>
    match m env w with
    | (Returned a, w') => (Returned a, w')
    | (Thrown e, w') => h e env w'
    end.

(** [await c]: ask the outside, record the call. *)
Definition call {A} (c : Call A) : M A :=
  fun env w =>
    (env A (trace w) c, mkWorld (this w) (trace w ++ [Did c])).

(** A call that cannot fail and answers [a], such as a timer: it is
    recorded and the outside is not asked. *)
Definition settle {A} (c : Call A) (a : A) : M A :=
  fun _ w => (Returned a, mkWorld (this w) (trace w ++ [Did c])).

(** [logger.<level>(...args)]. *)
Definition log (level : Level) (args : list string) : M unit :=
  fun _ w => (Returned tt, mkWorld (this w) (trace w ++ [Logged level args])).

Definition get : M S := fun _ w => (Returned (this w), w).

Definition modify (f : S -> S) : M unit :=
  fun _ w => (Returned tt, mkWorld (f (this w)) (trace w)).

End WithCalls.

Arguments Did {Call A} c.
Arguments Logged {Call} level args.
Arguments mkWorld {Call S} this trace.
Arguments this {Call S} w.
Arguments trace {Call S} w.
Arguments ret {Call S A} a.
Arguments bind {Call S A B} m f.
Arguments throw {Call S A} e.
Arguments try_catch {Call S A} m h.
Arguments call {Call S A} c.
Arguments settle {Call S A} c a.
Arguments log {Call S} level args.
Arguments get {Call S}.
Arguments modify {Call S} f.

End Eff.

Import Eff.

Declare Scope eff_scope.
Delimit Scope eff_scope with eff.
Notation "x <- m ;; k" := (bind m (fun x => k))
  (at level 61, m at next level, right associativity) : eff_scope.
Notation "m ;;; k" := (bind m (fun _ => k))
  (at level 61, right associativity) : eff_scope.
Local Open Scope eff_scope.

(* ===================================================================== *)
(** ** Node's [path] module and the clock, as the drivers use them *)
(* ===================================================================== *)

(** The functions of Node's [path] module that the drivers call. They are
    library code outside the repository and stay abstract: every result
    below holds for any implementation of them. *)
Record PathLib : Type := mkPathLib {
  isAbsolute : string -> bool;
  resolve : string -> string -> string;
  pjoin : string -> string -> string;
  extname : string -> string;
  basename : string -> string -> string
}.

(** The UTC fields of a [Date], as [toISOString] prints them. *)
Record UTCTime : Type := mkUTC {
  year : nat;      (* 0 .. 9999 *)
  month : nat;     (* 1 .. 12 *)
  day : nat;       (* 1 .. 31 *)
  hours : nat;     (* 0 .. 23 *)
  minutes : nat;   (* 0 .. 59 *)
  seconds : nat;   (* 0 .. 59 *)
  millis : nat     (* 0 .. 999 *)
}.

Module Clock.

Definition digit (d : nat) : ascii := ascii_of_nat (48 + d mod 10).

Definition pad2 (n : nat) : string :=
  String (digit (n / 10)) (String (digit n) EmptyString).

Definition pad3 (n : nat) : string := String (digit (n / 100)) (pad2 n).

Definition pad4 (n : nat) : string := String (digit (n / 1000)) (pad3 n).

(** [Date.prototype.toISOString] for years 0 to 9999:
    [YYYY-MM-DDTHH:mm:ss.sssZ]. *)
Definition toISOString (t : UTCTime) : string :=
  pad4 (year t) +:+ "-" +:+ pad2 (month t) +:+ "-" +:+ pad2 (day t) +:+ "T"
  +:+ pad2 (hours t) +:+ ":" +:+ pad2 (minutes t) +:+ ":" +:+ pad2 (seconds t)
  +:+ "." +:+ pad3 (millis t) +:+ "Z".

(** [s.replace(/[:.]/g, '-')]. *)
Fixpoint replaceColonDot (s : string) : string :=
  match s with
  | EmptyString => EmptyString
  | String c s' =>
      String (if Ascii.eqb c ":" || Ascii.eqb c "." then "-"%char else c)
             (replaceColonDot s')
  end.

(** [s.replace(/T/, '_')]: the first [T] only. *)
Fixpoint replaceFirstT (s : string) : string :=
  match s with
  | EmptyString => EmptyString
  | String c s' =>
      if Ascii.eqb c "T" then String "_" s' else String c (replaceFirstT s')
  end.

(** [s.slice(0, -n)]. *)
Definition sliceEnd (n : nat) (s : string) : string :=
  String.substring 0 (String.length s - n) s.

(** The timestamp in the form the file name carries it:
    [YYYY-MM-DD_HH-mm-ss]. *)
Definition stamp (t : UTCTime) : string :=
  pad4 (year t) +:+ "-" +:+ pad2 (month t) +:+ "-"
  +:+ pad2 (day t) +:+ "_" +:+ pad2 (hours t) +:+ "-"
  +:+ pad2 (minutes t) +:+ "-" +:+ pad2 (seconds t).

(** The same calendar second: all fields but the milliseconds agree. *)
Definition sameSecond (a b : UTCTime) : Prop :=
  year a = year b /\ month a = month b /\ day a = day b /\
  hours a = hours b /\ minutes a = minutes b /\ seconds a = seconds b.

(** The field ranges of a [Date] whose year prints with four digits. *)
Definition wellFormed (t : UTCTime) : Prop :=
  year t < 10 * 1000 /\ month t < 100 /\ day t < 100 /\
  hours t < 100 /\ minutes t < 100 /\ seconds t < 100 /\ millis t < 1000.

End Clock.

(** [_generateFilename] of both drivers (the two copies are identical);
    [now] is the value of [new Date()]. *)
Definition _generateFilename (path : PathLib) (now : UTCTime)
    (baseName : string) (includeTimestamp : bool) : string :=
  let filename := baseName in
  if includeTimestamp then
    let timestamp :=
      Clock.sliceEnd 5
        (Clock.replaceFirstT (Clock.replaceColonDot (Clock.toISOString now))) in
    let extension := extname path filename in
    let nameWithoutExt := basename path filename extension in
    nameWithoutExt +:+ "_" +:+ timestamp +:+ extension
  else filename.

(* ===================================================================== *)
(** ** Small conventions shared by the two drivers *)
(* ===================================================================== *)

Record WindowSize : Type := mkWindowSize { width : N; height : N }.

(** A key of the constructor's [options] argument, or the default. *)
Definition orDefault {A} (x : option A) (d : A) : A :=
  match x with Some a => a | None => d end.

Definition boolText (b : bool) : string := if b then "true" else "false".

(** [timeout || this.options.timeout]: [null] and [0] are falsy. *)
Definition timeoutOr (t : option N) (dflt : N) : N :=
  match t with
  | Some (Npos p) => Npos p
  | _ => dflt
  end.

(** [x || dflt] on a possibly missing string. *)
Definition stringOr (x : option string) (dflt : string) : string :=
  if Js.truthy x then Js.templ x else dflt.

Definition nonEmpty (s : string) : bool :=
  match s with EmptyString => false | _ => true end.

Definition NotStarted : Error := Err "Driver not started. Call start() first.".

(** The [{ success: true, selector }] result of an interaction. *)
Record Done : Type := mkDone { success : bool; selector_of : string }.

(* ===================================================================== *)
(** ** Driver A: [BaseSeleniumDriver] and its browser subclasses *)
(* ===================================================================== *)

Module Selenium.

Definition Handle : Type := nat.    (* a live WebDriver session *)
Definition Element : Type := nat.   (* a WebElement reference *)

Inductive PrefValue : Type :=
| PStr (s : string)
| PBool (b : bool)
| PNum (n : N).

(** What [start] hands to the [Builder] before [build()]. *)
Record BuildSpec : Type := mkBuildSpec {
  forBrowser : string;
  arguments : list string;
  preferences : list (string * PrefValue)
}.

Inductive ScriptArg : Type :=
| ArgElement (el : Element)
| ArgString (s : string).

(** The calls the driver makes to selenium-webdriver, [fs] and timers. *)
Inductive Call : Type -> Type :=
| Build (spec : BuildSpec) : Call Handle
| SetTimeouts (d : Handle) (implicit pageLoad script : N) : Call unit
| Quit (d : Handle) : Call unit
| Get (d : Handle) (url : string) : Call unit
| GetCurrentUrl (d : Handle) : Call string
| GetTitle (d : Handle) : Call string
| WaitLocated (d : Handle) (loc : By) (timeoutMs : N) : Call Element
| WaitEnabled (d : Handle) (el : Element) (timeoutMs : N) : Call unit
| WaitVisible (d : Handle) (el : Element) (timeoutMs : N) : Call unit
| WaitNotVisible (d : Handle) (el : Element) (timeoutMs : N) : Call unit
| FindElements (d : Handle) (loc : By) : Call (list Element)
| Click (el : Element) : Call unit
| SendKeys (el : Element) (text : string) : Call unit
| Clear (el : Element) : Call unit
| GetText (el : Element) : Call string
| ExecuteScript (d : Handle) (script : string) (args : list ScriptArg)
    : Call string
| TakeScreenshot (d : Handle) : Call string
| SetRect (d : Handle) (width height x y : N) : Call unit
| Mkdir (dir : string) : Call unit                 (* recursive: true *)
| WriteFile (file data : string) : Call unit
| Sleep (ms : N) : Call unit.

(** A plain object with boolean properties, in insertion order. *)
Definition Flags : Type := list (string * bool).

(** [o[k] = v]. *)
Fixpoint assign (o : Flags) (k : string) (v : bool) : Flags :=
  match o with
  | [] => [(k, v)]
  | (k', v') :: tl =>
      if String.eqb k' k then (k, v) :: tl else (k', v') :: assign tl k v
  end.

(** [{ ...base, ...extra }]; spreading [undefined] adds nothing. *)
Definition spread (base : Flags) (extra : option Flags) : Flags :=
  match extra with
  | None => base
  | Some e => fold_left (fun o kv => assign o (fst kv) (snd kv)) e base
  end.


(** [this.options]. *)
Record Options : Type := mkOptions {
  browser : string;
  headless : bool;
  windowSize : WindowSize;
  timeout : N;
  implicitWait : N;
  userAgent : option string;
  downloadsPath : string;
  outputPath : string;
  disableImages : bool;
  disableJavaScript : bool;
  acceptInsecureCerts : bool;
  chromeSpecific : option Flags;
  edgeSpecific : option Flags;
  firefoxSpecific : option Flags
}.

(** The [options] argument of the constructor: any subset of the keys. *)
Record UserOptions : Type := mkUserOptions {
  u_browser : option string;
  u_headless : option bool;
  u_windowSize : option WindowSize;
  u_timeout : option N;
  u_implicitWait : option N;
  u_userAgent : option (option string);
  u_downloadsPath : option string;
  u_outputPath : option string;
  u_disableImages : option bool;
  u_disableJavaScript : option bool;
  u_acceptInsecureCerts : option bool;
  u_chromeSpecific : option Flags;
  u_edgeSpecific : option Flags;
  u_firefoxSpecific : option Flags
}.

Definition noUserOptions : UserOptions :=
  mkUserOptions None None None None None None None None None None None
                None None None.

Definition DEFAULT_OUTPUT_DIRECTORY : string := "./output".
Definition DEFAULT_DOWNLOADS_DIRECTORY : string := "./downloads".
Definition DEFAULT_SCREENSHOTS_DIRECTORY : string := "screenshots".
Definition DEFAULT_VIDEOS_DIRECTORY : string := "videos".


(** The object literal [{ browser: 'chrome', ..., ...options }]. *)
Definition mergeOptions (u : UserOptions) : Options :=
  {| browser := orDefault (u_browser u) "chrome";
     headless := orDefault (u_headless u) true;
     windowSize := orDefault (u_windowSize u) (mkWindowSize 1920 1080)%N;
     timeout := orDefault (u_timeout u) 30000%N;
     implicitWait := orDefault (u_implicitWait u) 10000%N;
     userAgent := orDefault (u_userAgent u) None;
     downloadsPath := orDefault (u_downloadsPath u) DEFAULT_DOWNLOADS_DIRECTORY;
     outputPath := orDefault (u_outputPath u) DEFAULT_OUTPUT_DIRECTORY;
     disableImages := orDefault (u_disableImages u) false;
     disableJavaScript := orDefault (u_disableJavaScript u) false;
     acceptInsecureCerts := orDefault (u_acceptInsecureCerts u) true;
     chromeSpecific := u_chromeSpecific u;
     edgeSpecific := u_edgeSpecific u;
     firefoxSpecific := u_firefoxSpecific u |}.

(** The fields of a driver instance. *)
Record Driver : Type := mkDriver {
  driver : option Handle;
  options : Options;
  isStarted : bool;
  currentUrl : option string;
  outputDirectoryBasePath : string;
  downloadDirectoryBasePath : string;
  screenshotsDirectory : string;
  videosDirectory : string
}.

Definition set_driver (v : option Handle) (s : Driver) : Driver :=
  mkDriver v (options s) (isStarted s) (currentUrl s)
           (outputDirectoryBasePath s) (downloadDirectoryBasePath s)
           (screenshotsDirectory s) (videosDirectory s).

Definition set_options (v : Options) (s : Driver) : Driver :=
  mkDriver (driver s) v (isStarted s) (currentUrl s)
           (outputDirectoryBasePath s) (downloadDirectoryBasePath s)
           (screenshotsDirectory s) (videosDirectory s).

Definition set_isStarted (v : bool) (s : Driver) : Driver :=
  mkDriver (driver s) (options s) v (currentUrl s)
           (outputDirectoryBasePath s) (downloadDirectoryBasePath s)
           (screenshotsDirectory s) (videosDirectory s).

Definition set_currentUrl (v : option string) (s : Driver) : Driver :=
  mkDriver (driver s) (options s) (isStarted s) v
           (outputDirectoryBasePath s) (downloadDirectoryBasePath s)
           (screenshotsDirectory s) (videosDirectory s).

Definition set_chromeSpecific (v : option Flags) (o : Options) : Options :=
  mkOptions (browser o) (headless o) (windowSize o) (timeout o)
            (implicitWait o) (userAgent o) (downloadsPath o) (outputPath o)
            (disableImages o) (disableJavaScript o) (acceptInsecureCerts o)
            v (edgeSpecific o) (firefoxSpecific o).

Definition set_edgeSpecific (v : option Flags) (o : Options) : Options :=
  mkOptions (browser o) (headless o) (windowSize o) (timeout o)
            (implicitWait o) (userAgent o) (downloadsPath o) (outputPath o)
            (disableImages o) (disableJavaScript o) (acceptInsecureCerts o)
            (chromeSpecific o) v (firefoxSpecific o).

Definition set_firefoxSpecific (v : option Flags) (o : Options) : Options :=
  mkOptions (browser o) (headless o) (windowSize o) (timeout o)
            (implicitWait o) (userAgent o) (downloadsPath o) (outputPath o)
            (disableImages o) (disableJavaScript o) (acceptInsecureCerts o)
            (chromeSpecific o) (edgeSpecific o) v.


Section Methods.

Variable path : PathLib.
(** [path.resolve(__dirname, '../../../../')]. *)
Variable projectRoot : string.

Definition M : Type -> Type := Eff.M Call Driver.

Definition anchored (p : string) : string :=
  if isAbsolute path p then p else resolve path projectRoot p.

(** [constructor(options = {})]. *)
Definition construct (u : UserOptions) : Driver :=
  let o := mergeOptions u in
  {| driver := None;
     options := o;
     isStarted := false;
     currentUrl := None;
     outputDirectoryBasePath := anchored (outputPath o);
     downloadDirectoryBasePath := anchored (downloadsPath o);
     screenshotsDirectory := DEFAULT_SCREENSHOTS_DIRECTORY;
     videosDirectory := DEFAULT_VIDEOS_DIRECTORY |}.

Definition chromiumPrefs (s : Driver) : list (string * PrefValue) :=
  [("download.default_directory", PStr (downloadDirectoryBasePath s));
   ("download.prompt_for_download", PBool false);
   ("download.directory_upgrade", PBool true);
   ("safebrowsing.enabled", PBool true)].

Definition windowSizeArg (o : Options) : string :=
  "--window-size=" +:+ Js.num (width (windowSize o)) +:+ ","
                   +:+ Js.num (height (windowSize o)).

(** The [case 'chrome':] arm of [start]. *)
Definition chromeBuild (s : Driver) : M BuildSpec :=
  let o := options s in
  let args :=
    (if headless o then ["--headless=new"] else [])
    ++ [windowSizeArg o; "--no-sandbox"; "--disable-dev-shm-usage";
        "--disable-gpu"; "--disable-web-security";
        "--allow-running-insecure-content"]
    ++ (if Js.truthy (userAgent o)
        then ["--user-agent=" +:+ Js.templ (userAgent o)] else [])
    ++ (if disableImages o then ["--blink-settings=imagesEnabled=false"] else [])
    ++ (if disableJavaScript o then ["--disable-javascript"] else []) in
  if nonEmpty (downloadsPath o) then
    call (Mkdir (downloadDirectoryBasePath s)) ;;;
    log Info ["Chrome download directory set to: " +:+ downloadDirectoryBasePath s] ;;;
    ret (mkBuildSpec "chrome" args (chromiumPrefs s))
  else ret (mkBuildSpec "chrome" args []).

(** The [case 'firefox':] arm of [start]. *)
Definition firefoxBuild (s : Driver) : M BuildSpec :=
  let o := options s in
  let args :=
    (if headless o then ["--headless"] else [])
    ++ ["--width=" +:+ Js.num (width (windowSize o));
        "--height=" +:+ Js.num (height (windowSize o))] in
  if nonEmpty (downloadsPath o) then
    call (Mkdir (downloadDirectoryBasePath s)) ;;;
    log Info ["Firefox download directory set to: " +:+ downloadDirectoryBasePath s] ;;;
    ret (mkBuildSpec "firefox" args
           [("browser.download.dir", PStr (downloadDirectoryBasePath s));
            ("browser.download.folderList", PNum 2);
            ("browser.download.useDownloadDir", PBool true);
            ("browser.helperApps.neverAsk.saveToDisk",
             PStr "application/pdf,application/zip,text/csv,application/xml,application/octet-stream")])
  else ret (mkBuildSpec "firefox" args []).

(** The [case 'edge':] arm of [start]. *)
Definition edgeBuild (s : Driver) : M BuildSpec :=
  let o := options s in
  let args := (if headless o then ["--headless"] else []) ++ [windowSizeArg o] in
  if nonEmpty (downloadsPath o) then
    call (Mkdir (downloadDirectoryBasePath s)) ;;;
    log Info ["Edge download directory set to: " +:+ downloadDirectoryBasePath s] ;;;
    ret (mkBuildSpec "MicrosoftEdge" args (chromiumPrefs s))
  else ret (mkBuildSpec "MicrosoftEdge" args []).

(** [BaseSeleniumDriver.start]. *)
Definition start : M unit :=
  s <- get ;;
  if isStarted s then
    log Warn ["Driver already started"]
  else
    let o := options s in
    log Info ["Starting " +:+ browser o +:+ " browser (headless: "
              +:+ boolText (headless o) +:+ ")"] ;;;
    try_catch
      (spec <- (let b := Js.toLowerCase (browser o) in
                if String.eqb b "chrome" then chromeBuild s
                else if String.eqb b "firefox" then firefoxBuild s
                else if String.eqb b "edge" then edgeBuild s
                else throw (Err ("Unsupported browser: " +:+ browser o))) ;;
       d <- call (Build spec) ;;
       modify (set_driver (Some d)) ;;;
       call (SetTimeouts d (implicitWait o) (timeout o) (timeout o)) ;;;
       modify (set_isStarted true) ;;;
       log Info ["Browser driver started successfully"])
      (fun error =>
         log ErrorLevel ["Failed to start browser driver:"; message error] ;;;
         throw (Err ("Driver startup failed: " +:+ message error))).

(** [BaseSeleniumDriver.quit]. *)
Definition quit : M unit :=
  s <- get ;;
  match isStarted s, driver s with
  | true, Some d =>
      try_catch
        (call (Quit d) ;;;
         modify (set_driver None) ;;;
         modify (set_isStarted false) ;;;
         modify (set_currentUrl None) ;;;
         log Info ["Browser driver quit successfully"])
        (fun error =>
           log ErrorLevel ["Error quitting driver:"; message error] ;;;
           throw error)
  | _, _ => log Warn ["Driver not started or already quit"]
  end.

(** [BaseSeleniumDriver._ensureStarted]. *)
Definition _ensureStarted : M unit :=
  s <- get ;;
  match isStarted s, driver s with
  | true, Some _ => ret tt
  | _, _ => throw NotStarted
  end.

(** Reading [this.driver] to call a method on it: on [null] the call is a
    [TypeError]. *)
Definition theDriver : M Handle :=
  s <- get ;;
  match driver s with
  | Some d => ret d
  | None => throw (Err "Cannot read properties of null")
  end.

Record NavResult : Type := mkNav { nav_url : string; nav_title : string; nav_success : bool }.

(** [navigateTo(url)]. *)
Definition navigateTo (url : string) : M NavResult :=
  _ensureStarted ;;;
  log Info ["Navigating to: " +:+ url] ;;;
  try_catch
    (d <- theDriver ;;
     call (Get d url) ;;;
     modify (set_currentUrl (Some url)) ;;;
     log Info ["Navigation completed successfully"] ;;;
     u <- call (GetCurrentUrl d) ;;
     t <- call (GetTitle d) ;;
     ret (mkNav u t true))
    (fun error =>
       log ErrorLevel ["Navigation failed: " +:+ message error] ;;;
       throw (Err ("Failed to navigate to " +:+ url +:+ ": " +:+ message error))).

(** [findElement(selector, timeout = null)]. *)
Definition findElement (selector : string) (timeout_ : option N) : M Element :=
  _ensureStarted ;;;
  try_catch
    (s <- get ;;
     let timeoutMs := timeoutOr timeout_ (timeout (options s)) in
     let loc := DriverLocators.findElement_by selector in
     d <- theDriver ;;
     call (WaitLocated d loc timeoutMs))
    (fun error =>
       log ErrorLevel ["Element not found: " +:+ selector; message error] ;;;
       throw (Err ("Element not found: " +:+ selector))).

(** [findElements(selector)]. *)
Definition findElements (selector : string) : M (list Element) :=
  _ensureStarted ;;;
  try_catch
    (let loc := DriverLocators.findElements_by selector in
     d <- theDriver ;;
     call (FindElements d loc))
    (fun error =>
       log ErrorLevel ["Elements not found: " +:+ selector; message error] ;;;
       ret []).


(** [click(selector, timeout = null)]. *)
Definition click (selector : string) (timeout_ : option N) : M Done :=
  _ensureStarted ;;;
  try_catch
    (element <- findElement selector timeout_ ;;
     s <- get ;;
     d <- theDriver ;;
     call (WaitEnabled d element (timeoutOr timeout_ (timeout (options s)))) ;;;
     call (Click element) ;;;
     log Info ["Clicked element: " +:+ selector] ;;;
     ret (mkDone true selector))
    (fun error =>
       log ErrorLevel ["Click failed: " +:+ selector; message error] ;;;
       throw (Err ("Failed to click " +:+ selector +:+ ": " +:+ message error))).

(** [sendKeys(selector, text, timeout = null)]. *)
Definition sendKeys (selector text : string) (timeout_ : option N)
  : M (Done * string) :=
  _ensureStarted ;;;
  try_catch
    (element <- findElement selector timeout_ ;;
     s <- get ;;
     d <- theDriver ;;
     call (WaitEnabled d element (timeoutOr timeout_ (timeout (options s)))) ;;;
     call (SendKeys element text) ;;;
     log Info ["Sent keys to element: " +:+ selector] ;;;
     ret (mkDone true selector, text))
    (fun error =>
       log ErrorLevel ["Send keys failed: " +:+ selector; message error] ;;;
       throw (Err ("Failed to send keys to " +:+ selector +:+ ": "
                   +:+ message error))).

(** [clearText(selector, timeout = null)]. *)
Definition clearText (selector : string) (timeout_ : option N) : M Done :=
  _ensureStarted ;;;
  try_catch
    (element <- findElement selector timeout_ ;;
     call (Clear element) ;;;
     log Info ["Cleared text from element: " +:+ selector] ;;;
     ret (mkDone true selector))
    (fun error =>
       log ErrorLevel ["Clear text failed: " +:+ selector; message error] ;;;
       throw (Err ("Failed to clear text from " +:+ selector +:+ ": "
                   +:+ message error))).

(** [getText(selector, timeout = null)]. *)
Definition getText (selector : string) (timeout_ : option N) : M string :=
  _ensureStarted ;;;
  try_catch
    (element <- findElement selector timeout_ ;;
     call (GetText element))
    (fun error =>
       log ErrorLevel ["Get text failed: " +:+ selector; message error] ;;;
       throw (Err ("Failed to get text from " +:+ selector +:+ ": "
                   +:+ message error))).

(** [executeScript(script, ...args)]. *)
Definition executeScript (script : string) (args : list ScriptArg) : M string :=
  _ensureStarted ;;;
  try_catch
    (d <- theDriver ;; call (ExecuteScript d script args))
    (fun error =>
       log ErrorLevel ["Execute script failed:"; message error] ;;;
       throw (Err ("Failed to execute script: " +:+ message error))).

(** [createScreenshotsDirectory(baseDirectory, screenshotsDirectory,
    createDirectories)]; returns [(screenshotsPath, baseDirectory)]. *)
Definition createScreenshotsDirectory (baseDirectory screenshotsDir : string)
    (createDirectories : bool) : M (string * string) :=
  try_catch
    (let resolvedBaseDirectory := anchored baseDirectory in
     let screenshotsPath := resolve path resolvedBaseDirectory screenshotsDir in
     (if createDirectories then
        call (Mkdir screenshotsPath) ;;;
        log Info ["Screenshots output directory created: " +:+ screenshotsPath]
      else ret tt) ;;;
     ret (screenshotsPath, resolvedBaseDirectory))
    (fun error =>
       log ErrorLevel ["Screenshots directory creation failed:"; message error] ;;;
       throw (Err ("Failed to create screenshots directory: " +:+ message error))).

(** [createVideosDirectory(baseDirectory, videosDirectory,
    createDirectories)]; returns [(videosPath, baseDirectory)]. *)
Definition createVideosDirectory (baseDirectory videosDir : string)
    (createDirectories : bool) : M (string * string) :=
  try_catch
    (let resolvedBaseDirectory := anchored baseDirectory in
     let videosPath := resolve path resolvedBaseDirectory videosDir in
     (if createDirectories then
        call (Mkdir videosPath) ;;;
        log Info ["Videos output directory created: " +:+ videosPath]
      else ret tt) ;;;
     ret (videosPath, resolvedBaseDirectory))
    (fun error =>
       log ErrorLevel ["Video directory creation failed:"; message error] ;;;
       throw (Err ("Failed to create video directory: " +:+ message error))).

(** [takeScreenshot(filename = null, includeTimestamp = true,
    baseDirectory = null, screenshotsDirectory = null)]; [now] is the clock
    reading [_generateFilename] takes. *)
Definition takeScreenshot (now : UTCTime) (filename : option string)
    (includeTimestamp : bool) (baseDirectory screenshotsDir : option string)
  : M string :=
  _ensureStarted ;;;
  try_catch
    (d <- theDriver ;;
     screenshot <- call (TakeScreenshot d) ;;
     if Js.truthy filename then
       s <- get ;;
       let actualBaseDirectory := stringOr baseDirectory (outputDirectoryBasePath s) in
       let actualScreenshotsDirectory := stringOr screenshotsDir (screenshotsDirectory s) in
       paths <- createScreenshotsDirectory actualBaseDirectory
                  actualScreenshotsDirectory true ;;
       let finalFilename :=
         _generateFilename path now (Js.templ filename) includeTimestamp in
       let filepath := pjoin path (fst paths) finalFilename in
       let ext := extname path filepath in
       let finalPath := if nonEmpty ext then filepath else filepath +:+ ".png" in
       call (WriteFile finalPath screenshot) ;;;
       log Info ["Screenshot saved: " +:+ finalPath] ;;;
       ret finalPath
     else ret screenshot)
    (fun error =>
       log ErrorLevel ["Screenshot failed:"; message error] ;;;
       throw (Err ("Failed to take screenshot: " +:+ message error))).

(** [startVideoRecording(filename = 'recording.mp4', baseDirectory = null,
    videosDirectory = null, includeTimestamp = true)]. *)
Definition startVideoRecording (filename : string)
    (baseDirectory videosDir : option string) (includeTimestamp : bool)
  : M unit :=
  s <- get ;;
  let actualBaseDirectory := stringOr baseDirectory (outputDirectoryBasePath s) in
  let actualVideosDirectory := stringOr videosDir (videosDirectory s) in
  createVideosDirectory actualBaseDirectory actualVideosDirectory true ;;;
  throw (Err "Video recording not yet implemented. Use startVideoRecording() when this feature is added.").

(** [stopVideoRecording()]. *)
Definition stopVideoRecording : M string :=
  throw (Err "Video recording not yet implemented. Use stopVideoRecording() when this feature is added.").

(* --------------------------------------------------------------------- *)
(** *** Browser subclasses: [ChromeSeleniumDriver], [EdgeSeleniumDriver],
        [FirefoxSeleniumDriver] *)

Definition chromeDefaults : Flags :=
  [("disableExtensions", true); ("disablePlugins", true);
   ("disableBackgroundTimer", true); ("disableRendererBackgrounding", true);
   ("disableBackgroundNetworking", true)].

Definition edgeDefaults : Flags :=
  [("disableExtensions", true); ("enableLogging", false)].

Definition firefoxDefaults : Flags :=
  [("disableExtensions", true); ("enableLogging", false)].

(** The scripts injected after start-up: the template literals of the three
    subclasses, character for character, line breaks and indentation
    included. *)
Definition chromeStyleScript : string :=
  Js.nl
  +:+ "        var style = document.createElement('style');" +:+ Js.nl
  +:+ "        style.innerHTML = '*{animation-duration:0s !important;animation-delay:0s !important;transition-duration:0s !important;transition-delay:0s !important;}';" +:+ Js.nl
  +:+ "        document.head.appendChild(style);" +:+ Js.nl
  +:+ "      ".

Definition edgeStyleScript : string :=
  Js.nl
  +:+ "        var style = document.createElement('style');" +:+ Js.nl
  +:+ "        style.innerHTML = '*{animation-duration:0s !important;transition-duration:0s !important;}';" +:+ Js.nl
  +:+ "        document.head.appendChild(style);" +:+ Js.nl
  +:+ "      ".

Definition firefoxStyleScript : string :=
  Js.nl
  +:+ "        // Disable animations" +:+ Js.nl
  +:+ "        var style = document.createElement('style');" +:+ Js.nl
  +:+ "        style.innerHTML = '*{animation-duration:0s !important;transition-duration:0s !important;}';" +:+ Js.nl
  +:+ "        document.head.appendChild(style);" +:+ Js.nl
  +:+ "      ".

(** The subclass constructors: [super({ browser: <name>, ...options })]. *)
Definition constructFor (name : string) (u : UserOptions) : Driver :=
  construct
    (mkUserOptions (Some (orDefault (u_browser u) name)) (u_headless u)
       (u_windowSize u) (u_timeout u) (u_implicitWait u) (u_userAgent u)
       (u_downloadsPath u) (u_outputPath u) (u_disableImages u)
       (u_disableJavaScript u) (u_acceptInsecureCerts u) (u_chromeSpecific u)
       (u_edgeSpecific u) (u_firefoxSpecific u)).

(** The viewport step shared by the Chrome and Edge configuration. *)
Definition setViewportUnlessHeadless : M unit :=
  s <- get ;;
  if negb (headless (options s)) then
    d <- theDriver ;;
    call (SetRect d (width (windowSize (options s)))
                    (height (windowSize (options s))) 0%N 0%N)
  else ret tt.

(** [_configureChromePerformance]; [this.logger] is not a field of the
    driver, so the optional call in the handler does nothing. *)
Definition _configureChromePerformance : M unit :=
  try_catch
    (executeScript chromeStyleScript [] ;;; setViewportUnlessHeadless)
    (fun _ => ret tt).

Definition _configureEdgePerformance : M unit :=
  try_catch
    (executeScript edgeStyleScript [] ;;; setViewportUnlessHeadless)
    (fun _ => ret tt).

Definition _configureFirefoxPerformance : M unit :=
  try_catch
    (executeScript firefoxStyleScript [] ;;; ret tt)
    (fun _ => ret tt).

(** [ChromeSeleniumDriver.start]. *)
Definition chrome_start : M unit :=
  modify (fun s =>
    set_options
      (set_chromeSpecific
         (Some (spread chromeDefaults (chromeSpecific (options s))))
         (options s)) s) ;;;
  start ;;;
  s <- get ;;
  if isStarted s then _configureChromePerformance else ret tt.

(** [EdgeSeleniumDriver.start]. *)
Definition edge_start : M unit :=
  modify (fun s =>
    set_options
      (set_edgeSpecific
         (Some (spread edgeDefaults (edgeSpecific (options s))))
         (options s)) s) ;;;
  start ;;;
  s <- get ;;
  if isStarted s then _configureEdgePerformance else ret tt.

(** [FirefoxSeleniumDriver.start]. *)
Definition firefox_start : M unit :=
  modify (fun s =>
    set_options
      (set_firefoxSpecific
         (Some (spread firefoxDefaults (firefoxSpecific (options s))))
         (options s)) s) ;;;
  start ;;;
  s <- get ;;
  if isStarted s then _configureFirefoxPerformance else ret tt.

End Methods.

End Selenium.

(* ===================================================================== *)
(** ** [SeleniumUtils]: the smart selector and the retrying click *)
(* ===================================================================== *)

Module SeleniumUtils.
Import Js.

(** [SeleniumUtils.wait(milliseconds)]: a timer, which always fires. *)
Definition wait {St : Type} (milliseconds : N) : Eff.M Selenium.Call St unit :=
  settle (Selenium.Sleep milliseconds) tt.

(** [SeleniumUtils.getSmartSelector] (enhancedBrowserParser.js). *)
Definition getSmartSelector (selector : string) : By :=
  if startsWith selector "//" || startsWith selector "(//" then
    By_xpath selector
  else if startsWith selector "#" then
    By_id (substring 1 selector)
  else if startsWith selector "." then
    By_className (substring 1 selector)
  else if includes selector "=" && negb (includes selector "[")
          && negb (includes selector " ") then
    By_css (attrEqualsCss (split "=" selector))
  else if startsWith selector "text:" then
    By_xpath (containsTextXPath (substring 5 selector))
  else if startsWith selector "partial-text:" then
    By_xpath (containsTextXPath (substring 13 selector))
  else
    By_css selector.

Inductive Condition : Type :=
| present
| visible
| clickable
| invisible
| unknownCondition (name : string).

Section Static.

(** The methods are static: they touch no field, whatever object state the
    caller has. *)
Variable St : Type.

Definition M : Type -> Type := Eff.M Selenium.Call St.

(** [smartWaitForElement(driver, selector, timeout, condition)]. *)
Definition smartWaitForElement (driver : Selenium.Handle) (selector : string)
    (timeout : N) (condition : Condition) : M Selenium.Element :=
  let loc := getSmartSelector selector in
  match condition with
  | present => call (Selenium.WaitLocated driver loc timeout)
  | visible =>
      element <- call (Selenium.WaitLocated driver loc timeout) ;;
      call (Selenium.WaitVisible driver element timeout) ;;;
      ret element
  | clickable =>
      clickableElement <- call (Selenium.WaitLocated driver loc timeout) ;;
      call (Selenium.WaitEnabled driver clickableElement timeout) ;;;
      ret clickableElement
  | invisible =>
      invisibleElement <- call (Selenium.WaitLocated driver loc timeout) ;;
      call (Selenium.WaitNotVisible driver invisibleElement timeout) ;;;
      ret invisibleElement
  | unknownCondition name =>
      throw (Err ("Unknown wait condition: " +:+ name))
  end.

Definition scrollIntoViewScript : string :=
  "arguments[0].scrollIntoView({block: " +:+ dq +:+ "center" +:+ dq +:+ "});".

(** The [try] block of one iteration of [safeClick]: locate and wait until
    enabled, scroll to the centre, pause, click. *)
Definition clickAttempt (driver : Selenium.Handle) (selector : string) : M bool :=
  element <- smartWaitForElement driver selector 5000%N clickable ;;
  call (Selenium.ExecuteScript driver scrollIntoViewScript
          [Selenium.ArgElement element]) ;;;
  wait 500%N ;;;
  call (Selenium.Click element) ;;;
  log Info ["Successfully clicked element: " +:+ selector] ;;;
  ret true.

Definition attemptWarning (selector : string) (attempt : nat)
    (maxRetries : Number) (error : Error) : string :=
  "Click attempt " +:+ numNat attempt +:+ "/" +:+ showNumber maxRetries
  +:+ " failed for " +:+ selector +:+ ": " +:+ message error.

Definition clickFailure (selector : string) (maxRetries : Number) : Error :=
  Err ("Failed to click " +:+ selector +:+ " after " +:+ showNumber maxRetries
       +:+ " attempts").

(** The [for (let attempt = 1; attempt <= maxRetries; attempt++)] loop of
    [safeClick], entered at [attempt], with the [return false] that follows
    it. [fuel] counts the iterations the loop test can still admit and
    [safeClick] passes all of them: when [fuel] is used up the test fails
    and the function falls out of the loop. *)
Fixpoint safeClickLoop (driver : Selenium.Handle) (selector : string)
    (maxRetries : Number) (retryDelay : N) (fuel attempt : nat) : M bool :=
  match fuel with
  | O => ret false
  | S fuel' =>
      if leNumber attempt maxRetries then
        try_catch
          (clickAttempt driver selector)
          (fun error =>
             log Warn [attemptWarning selector attempt maxRetries error] ;;;
             if ltNumber attempt maxRetries then
               wait retryDelay ;;;
               safeClickLoop driver selector maxRetries retryDelay fuel'
                             (S attempt)
             else throw (clickFailure selector maxRetries))
      else ret false
  end.

(** [safeClick(driver, selector, maxRetries = 3, retryDelay = 1000)]; the
    count is whatever number the caller passes. *)
Definition safeClick (driver : Selenium.Handle) (selector : string)
    (maxRetries : option Number) (retryDelay : option N) : M bool :=
  let maxRetries := orDefault maxRetries (Whole 3) in
  let retryDelay := orDefault retryDelay 1000%N in
  safeClickLoop driver selector maxRetries retryDelay (wholeUpTo maxRetries) 1.

End Static.

End SeleniumUtils.

(* ===================================================================== *)
(** ** [PlaywrightUtils]: the selector analyser of driver B *)
(* ===================================================================== *)

Module PlaywrightUtils.
Import Js.

(** The [{ type, selector, strategy }] object. *)
Record SelectorInfo : Type := mkInfo {
  type_ : string;
  selector : string;
  strategy : string
}.

(** [PlaywrightUtils.getSelectorInfo] (basePlaywrightParser.js). Driver B
    hands selectors to the engine as they are; this analyser only labels
    them, by its own list of rules. *)
Definition getSelectorInfo (selector : string) : SelectorInfo :=
  if startsWith selector "//" || startsWith selector "(//" then
    mkInfo "xpath" selector "xpath"
  else if startsWith selector "text=" then
    mkInfo "text" selector "text"
  else if includes selector "text=" then
    mkInfo "text" selector "partial-text"
  else if startsWith selector "role=" then
    mkInfo "role" selector "role"
  else if startsWith selector "label=" then
    mkInfo "label" selector "label"
  else if startsWith selector "placeholder=" then
    mkInfo "placeholder" selector "placeholder"
  else if startsWith selector "data-testid=" then
    mkInfo "testid"
           ("[data-testid=" +:+ dq +:+ substring 13 selector +:+ dq +:+ "]")
           "testid"
  else
    mkInfo "css" selector "css".

End PlaywrightUtils.

(* ===================================================================== *)
(** ** Driver B: [PlaywrightDriver] *)
(* ===================================================================== *)

Module Playwright.

Definition BrowserHandle : Type := nat.
Definition ContextHandle : Type := nat.
Definition PageHandle : Type := nat.
Definition Element : Type := nat.

Inductive Engine : Type := chromium | firefox | webkit.

(** [launchOptions]; [executablePath] is absent unless assigned. *)
Record LaunchOptions : Type := mkLaunch {
  lo_headless : bool;
  lo_slowMo : N;
  lo_args : list string;
  lo_executablePath : option string
}.

Record ContextOptions : Type := mkContextOptions {
  co_viewport : WindowSize;
  co_ignoreHTTPSErrors : bool;
  co_userAgent : option string;
  co_recordVideo : option (string * WindowSize);
  co_acceptDownloads : bool;
  co_downloadsPath : option string
}.

Record Response : Type := mkResponse { ok : bool; status : nat }.

(** The calls the driver makes to playwright, to the serverless Chromium
    package and to [fs]. *)
Inductive Call : Type -> Type :=
| RequireServerlessChromium : Call (list string)   (* the module; its [args] *)
| ServerlessExecutablePath : Call string
| Launch (engine : Engine) (opts : LaunchOptions) : Call BrowserHandle
| NewContext (b : BrowserHandle) (opts : ContextOptions) : Call ContextHandle
| SetDefaultTimeout (c : ContextHandle) (ms : N) : Call unit
| SetDefaultNavigationTimeout (c : ContextHandle) (ms : N) : Call unit
| NewPage (c : ContextHandle) : Call PageHandle
| RouteAbortImages (p : PageHandle) : Call unit
| AddInitScript (c : ContextHandle) (script : string) : Call unit
| PageClose (p : PageHandle) : Call unit
| ContextClose (c : ContextHandle) : Call unit
| BrowserClose (b : BrowserHandle) : Call unit
| Goto (p : PageHandle) (url : string) (timeoutMs : N) : Call (option Response)
| PageUrl (p : PageHandle) : Call string
| PageTitle (p : PageHandle) : Call string
| WaitForSelector (p : PageHandle) (selector : string) (timeoutMs : N)
    (state : string) : Call (option Element)
| LocatorAll (p : PageHandle) (selector : string) : Call (list Element)
| PageClick (p : PageHandle) (selector : string) (timeoutMs : N) : Call unit
| PageFill (p : PageHandle) (selector text : string) (timeoutMs : N) : Call unit
| TextContent (p : PageHandle) (selector : string) (timeoutMs : N)
    : Call (option string)
| Screenshot (p : PageHandle) (file : option string) : Call string
| VideoPath (p : PageHandle) : Call string
| Evaluate (p : PageHandle) (script : string) (args : list string) : Call string
| Mkdir (dir : string) : Call unit.

(** [this.options]. *)
Record Options : Type := mkOptions {
  browser : string;
  headless : bool;
  windowSize : WindowSize;
  timeout : N;
  navigationTimeout : N;
  userAgent : option string;
  downloadsPath : string;
  outputPath : string;
  disableImages : bool;
  disableJavaScript : bool;
  acceptInsecureCerts : bool;
  recordVideo : bool;
  slowMo : N
}.

Record UserOptions : Type := mkUserOptions {
  u_browser : option string;
  u_headless : option bool;
  u_windowSize : option WindowSize;
  u_timeout : option N;
  u_navigationTimeout : option N;
  u_userAgent : option (option string);
  u_downloadsPath : option string;
  u_outputPath : option string;
  u_disableImages : option bool;
  u_disableJavaScript : option bool;
  u_acceptInsecureCerts : option bool;
  u_recordVideo : option bool;
  u_slowMo : option N
}.

Definition noUserOptions : UserOptions :=
  mkUserOptions None None None None None None None None None None None
                None None.

Definition DEFAULT_OUTPUT_DIRECTORY : string := "./output".
Definition DEFAULT_DOWNLOADS_DIRECTORY : string := "./downloads".
Definition DEFAULT_SCREENSHOTS_DIRECTORY : string := "screenshots".
Definition DEFAULT_VIDEOS_DIRECTORY : string := "videos".

Definition mergeOptions (u : UserOptions) : Options :=
  {| browser := orDefault (u_browser u) "chromium";
     headless := orDefault (u_headless u) true;
     windowSize := orDefault (u_windowSize u) (mkWindowSize 1920 1080)%N;
     timeout := orDefault (u_timeout u) 30000%N;
     navigationTimeout := orDefault (u_navigationTimeout u) 30000%N;
     userAgent := orDefault (u_userAgent u) None;
     downloadsPath := orDefault (u_downloadsPath u) DEFAULT_DOWNLOADS_DIRECTORY;
     outputPath := orDefault (u_outputPath u) DEFAULT_OUTPUT_DIRECTORY;
     disableImages := orDefault (u_disableImages u) false;
     disableJavaScript := orDefault (u_disableJavaScript u) false;
     acceptInsecureCerts := orDefault (u_acceptInsecureCerts u) true;
     recordVideo := orDefault (u_recordVideo u) false;
     slowMo := orDefault (u_slowMo u) 0%N |}.

(** The fields of a driver instance. *)
Record Driver : Type := mkDriver {
  browser_ : option BrowserHandle;
  context : option ContextHandle;
  page : option PageHandle;
  options : Options;
  isStarted : bool;
  currentUrl : option string;
  outputDirectoryBasePath : string;
  downloadDirectoryBasePath : string;
  screenshotsDirectory : string;
  videosDirectory : string
}.

Definition set_browser (v : option BrowserHandle) (s : Driver) : Driver :=
  mkDriver v (context s) (page s) (options s) (isStarted s) (currentUrl s)
           (outputDirectoryBasePath s) (downloadDirectoryBasePath s)
           (screenshotsDirectory s) (videosDirectory s).

Definition set_context (v : option ContextHandle) (s : Driver) : Driver :=
  mkDriver (browser_ s) v (page s) (options s) (isStarted s) (currentUrl s)
           (outputDirectoryBasePath s) (downloadDirectoryBasePath s)
           (screenshotsDirectory s) (videosDirectory s).

Definition set_page (v : option PageHandle) (s : Driver) : Driver :=
  mkDriver (browser_ s) (context s) v (options s) (isStarted s) (currentUrl s)
           (outputDirectoryBasePath s) (downloadDirectoryBasePath s)
           (screenshotsDirectory s) (videosDirectory s).

Definition set_isStarted (v : bool) (s : Driver) : Driver :=
  mkDriver (browser_ s) (context s) (page s) (options s) v (currentUrl s)
           (outputDirectoryBasePath s) (downloadDirectoryBasePath s)
           (screenshotsDirectory s) (videosDirectory s).

Definition set_currentUrl (v : option string) (s : Driver) : Driver :=
  mkDriver (browser_ s) (context s) (page s) (options s) (isStarted s) v
           (outputDirectoryBasePath s) (downloadDirectoryBasePath s)
           (screenshotsDirectory s) (videosDirectory s).

(** ASCII white space, as [String.prototype.trim] removes it. *)
Definition isSpace (c : ascii) : bool :=
  let n := nat_of_ascii c in
  Nat.eqb n 32 || (Nat.leb 9 n && Nat.leb n 13).

(** [s.trim()] is truthy: some character is not white space. *)
Fixpoint trimTruthy (s : string) : bool :=
  match s with
  | EmptyString => false
  | String c s' => negb (isSpace c) || trimTruthy s'
  end.

(** The message [start] throws when the serverless binary is missing. *)
Definition ServerlessBrowserUnavailable : string :=
  "Lambda environment detected but serverless Chromium not available. Install @sparticuz/chromium package.".

Definition chromiumArgs : list string :=
  ["--no-sandbox"; "--disable-dev-shm-usage"; "--disable-gpu";
   "--disable-web-security"; "--allow-running-insecure-content"].

Definition isLaunch {A} (c : Call A) : bool :=
  match c with
  | Launch _ _ => true
  | _ => false
  end.

Section Methods.

Variable path : PathLib.
(** [path.resolve(__dirname, '../../../../')]. *)
Variable projectRoot : string.
(** [process.env]. *)
Variable process_env : string -> option string.

Definition M : Type -> Type := Eff.M Call Driver.

Definition anchored (p : string) : string :=
  if isAbsolute path p then p else resolve path projectRoot p.

(** [constructor(options = {})]. *)
Definition construct (u : UserOptions) : Driver :=
  let o := mergeOptions u in
  {| browser_ := None;
     context := None;
     page := None;
     options := o;
     isStarted := false;
     currentUrl := None;
     outputDirectoryBasePath := anchored (outputPath o);
     downloadDirectoryBasePath := anchored (downloadsPath o);
     screenshotsDirectory := DEFAULT_SCREENSHOTS_DIRECTORY;
     videosDirectory := DEFAULT_VIDEOS_DIRECTORY |}.

(** [createVideosDirectory(baseDirectory, videosDirectory,
    createDirectories)]; returns [(videosPath, baseDirectory)]. *)
Definition createVideosDirectory (baseDirectory videosDir : string)
    (createDirectories : bool) : M (string * string) :=
  try_catch
    (let resolvedBaseDirectory := anchored baseDirectory in
     let videosPath := resolve path resolvedBaseDirectory videosDir in
     (if createDirectories then
        call (Mkdir videosPath) ;;;
        log Info ["Videos output directory created: " +:+ videosPath]
      else ret tt) ;;;
     ret (videosPath, resolvedBaseDirectory))
    (fun error =>
       log ErrorLevel ["Video directory creation failed:"; message error] ;;;
       throw (Err ("Failed to create video directory: " +:+ message error))).

(** [createScreenshotsDirectory(baseDirectory, screenshotsDirectory,
    createDirectories)]; returns [(screenshotsPath, baseDirectory)]. *)
Definition createScreenshotsDirectory (baseDirectory screenshotsDir : string)
    (createDirectories : bool) : M (string * string) :=
  try_catch
    (let resolvedBaseDirectory := anchored baseDirectory in
     let screenshotsPath := resolve path resolvedBaseDirectory screenshotsDir in
     (if createDirectories then
        call (Mkdir screenshotsPath) ;;;
        log Info ["Screenshots output directory created: " +:+ screenshotsPath]
      else ret tt) ;;;
     ret (screenshotsPath, resolvedBaseDirectory))
    (fun error =>
       log ErrorLevel ["Screenshots directory creation failed:"; message error] ;;;
       throw (Err ("Failed to create screenshots directory: " +:+ message error))).

(** The [switch (this.options.browser.toLowerCase())] of [start]; [None]
    is the [default:] arm. *)
Definition engineOf (name : string) : option Engine :=
  let b := Js.toLowerCase name in
  if String.eqb b "chromium" || String.eqb b "chrome" then Some chromium
  else if String.eqb b "firefox" then Some firefox
  else if String.eqb b "webkit" || String.eqb b "safari" then Some webkit
  else None.

Definition selectEngine (o : Options) : M Engine :=
  match engineOf (browser o) with
  | Some e => ret e
  | None => throw (Err ("Unsupported browser: " +:+ browser o))
  end.

(** [this.options.browser === 'chromium' || this.options.browser === 'chrome']. *)
Definition isChromiumName (o : Options) : bool :=
  String.eqb (browser o) "chromium" || String.eqb (browser o) "chrome".

(** [process.env.AWS_LAMBDA_FUNCTION_NAME || process.env.AWS_EXECUTION_ENV],
    tested for truthiness. *)
Definition isLambda : bool :=
  Js.truthy (Js.or_else (process_env "AWS_LAMBDA_FUNCTION_NAME")
                        (process_env "AWS_EXECUTION_ENV")).

(** Environment-aware acquisition: the [if (isLambda) ... else ...] block of
    [start], from the initial [launchOptions]. *)
Definition acquire (o : Options) (launchOptions : LaunchOptions)
  : M LaunchOptions :=
  if isLambda then
    try_catch
      (chromiumArgs_ <- call RequireServerlessChromium ;;
       executablePath <- call ServerlessExecutablePath ;;
       log Info ["Using serverless Chromium for AWS Lambda environment"] ;;;
       ret (mkLaunch (lo_headless launchOptions) (lo_slowMo launchOptions)
                     (lo_args launchOptions ++ chromiumArgs_)
                     (Some executablePath)))
      (fun error =>
         log Warn ["Serverless Chromium not available in Lambda: "
                   +:+ message error] ;;;
         throw (Err ServerlessBrowserUnavailable))
  else
    let executablePath := process_env "PLAYWRIGHT_CHROMIUM_EXECUTABLE_PATH" in
    if Js.truthy executablePath && isChromiumName o then
      log Info ["Using custom Chromium executable: " +:+ Js.templ executablePath] ;;;
      ret (mkLaunch (lo_headless launchOptions) (lo_slowMo launchOptions)
                    (lo_args launchOptions) executablePath)
    else
      log Info ["Using default Playwright browser installation"] ;;;
      ret launchOptions.

(** The context options [start] builds, with the directories it creates. *)
Definition buildContextOptions (s : Driver) : M ContextOptions :=
  let o := options s in
  let ua :=
    match userAgent o with
    | Some u => if trimTruthy u then Some u else None
    | None => None
    end in
  video <- (if recordVideo o then
              videoDirInfo <- createVideosDirectory (outputDirectoryBasePath s)
                                (videosDirectory s) true ;;
              ret (Some (fst videoDirInfo, windowSize o))
            else ret None) ;;
  if nonEmpty (downloadsPath o) then
    call (Mkdir (downloadDirectoryBasePath s)) ;;;
    log Info ["Download directory set to: " +:+ downloadDirectoryBasePath s] ;;;
    ret (mkContextOptions (windowSize o) (acceptInsecureCerts o) ua video
                          true (Some (downloadDirectoryBasePath s)))
  else
    ret (mkContextOptions (windowSize o) (acceptInsecureCerts o) ua video
                          false None).

(** [PlaywrightDriver.start]. *)
Definition start : M unit :=
  s <- get ;;
  if isStarted s then
    log Warn ["Driver already started"]
  else
    let o := options s in
    log Info ["Starting " +:+ browser o +:+ " browser (headless: "
              +:+ boolText (headless o) +:+ ")"] ;;;
    try_catch
      (browserEngine <- selectEngine o ;;
       launchOptions <- acquire o (mkLaunch (headless o) (slowMo o) [] None) ;;
       let launchOptions :=
         if isChromiumName o then
           mkLaunch (lo_headless launchOptions) (lo_slowMo launchOptions)
                    (lo_args launchOptions ++ chromiumArgs)
                    (lo_executablePath launchOptions)
         else launchOptions in
       b <- call (Launch browserEngine launchOptions) ;;
       modify (set_browser (Some b)) ;;;
       contextOptions <- buildContextOptions s ;;
       c <- call (NewContext b contextOptions) ;;
       modify (set_context (Some c)) ;;;
       call (SetDefaultTimeout c (timeout o)) ;;;
       call (SetDefaultNavigationTimeout c (navigationTimeout o)) ;;;
       p <- call (NewPage c) ;;
       modify (set_page (Some p)) ;;;
       (if disableImages o then call (RouteAbortImages p) else ret tt) ;;;
       (if disableJavaScript o
        then call (AddInitScript c "window.addEventListener = () => {};")
        else ret tt) ;;;
       modify (set_isStarted true) ;;;
       log Info ["Browser driver started successfully"])
      (fun error =>
         log ErrorLevel ["Failed to start browser driver:"; message error] ;;;
         throw (Err ("Driver startup failed: " +:+ message error))).

(** [PlaywrightDriver.quit]. *)
Definition quit : M unit :=
  s <- get ;;
  if negb (isStarted s) then
    log Warn ["Driver not started or already quit"]
  else
    try_catch
      (match page s with
       | Some p => call (PageClose p) ;;; modify (set_page None)
       | None => ret tt
       end ;;;
       match context s with
       | Some c => call (ContextClose c) ;;; modify (set_context None)
       | None => ret tt
       end ;;;
       match browser_ s with
       | Some b => call (BrowserClose b) ;;; modify (set_browser None)
       | None => ret tt
       end ;;;
       modify (set_isStarted false) ;;;
       modify (set_currentUrl None) ;;;
       log Info ["Browser driver quit successfully"])
      (fun error =>
         log ErrorLevel ["Error quitting driver:"; message error] ;;;
         throw error).

(** [PlaywrightDriver._ensureStarted]. *)
Definition _ensureStarted : M unit :=
  s <- get ;;
  match isStarted s, page s with
  | true, Some _ => ret tt
  | _, _ => throw NotStarted
  end.

(** Reading [this.page] to call a method on it: on [null] the call is a
    [TypeError]. *)
Definition thePage : M PageHandle :=
  s <- get ;;
  match page s with
  | Some p => ret p
  | None => throw (Err "Cannot read properties of null")
  end.

Record NavResult : Type := mkNav {
  nav_url : string; nav_title : string; nav_success : bool; nav_status : nat
}.

(** [navigateTo(url)]. *)
Definition navigateTo (url : string) : M NavResult :=
  _ensureStarted ;;;
  log Info ["Navigating to: " +:+ url] ;;;
  try_catch
    (s <- get ;;
     p <- thePage ;;
     response <- call (Goto p url (navigationTimeout (options s))) ;;
     modify (set_currentUrl (Some url)) ;;;
     log Info ["Navigation completed successfully"] ;;;
     u <- call (PageUrl p) ;;
     t <- call (PageTitle p) ;;
     match response with
     | Some r => ret (mkNav u t (ok r) (status r))
     | None => throw (Err "Cannot read properties of null")
     end)
    (fun error =>
       log ErrorLevel ["Navigation failed: " +:+ message error] ;;;
       throw (Err ("Failed to navigate to " +:+ url +:+ ": " +:+ message error))).

(** [findElement(selector, timeout = null)]. *)
Definition findElement (selector : string) (timeout_ : option N) : M Element :=
  _ensureStarted ;;;
  try_catch
    (s <- get ;;
     let timeoutMs := timeoutOr timeout_ (timeout (options s)) in
     p <- thePage ;;
     element <- call (WaitForSelector p selector timeoutMs "attached") ;;
     match element with
     | Some el => ret el
     | None => throw (Err ("Element not found: " +:+ selector))
     end)
    (fun error =>
       log ErrorLevel ["Element not found: " +:+ selector; message error] ;;;
       throw (Err ("Element not found: " +:+ selector))).

(** [findElements(selector)]. *)
Definition findElements (selector : string) : M (list Element) :=
  _ensureStarted ;;;
  try_catch
    (p <- thePage ;; call (LocatorAll p selector))
    (fun error =>
       log ErrorLevel ["Elements not found: " +:+ selector; message error] ;;;
       ret []).

(** [click(selector, timeout = null)]. *)
Definition click (selector : string) (timeout_ : option N) : M Done :=
  _ensureStarted ;;;
  try_catch
    (s <- get ;;
     let timeoutMs := timeoutOr timeout_ (timeout (options s)) in
     p <- thePage ;;
     call (PageClick p selector timeoutMs) ;;;
     log Info ["Clicked element: " +:+ selector] ;;;
     ret (mkDone true selector))
    (fun error =>
       log ErrorLevel ["Click failed: " +:+ selector; message error] ;;;
       throw (Err ("Failed to click " +:+ selector +:+ ": " +:+ message error))).

(** [sendKeys(selector, text, timeout = null)]. *)
Definition sendKeys (selector text : string) (timeout_ : option N)
  : M (Done * string) :=
  _ensureStarted ;;;
  try_catch
    (s <- get ;;
     let timeoutMs := timeoutOr timeout_ (timeout (options s)) in
     p <- thePage ;;
     call (PageFill p selector text timeoutMs) ;;;
     log Info ["Sent keys to element: " +:+ selector] ;;;
     ret (mkDone true selector, text))
    (fun error =>
       log ErrorLevel ["Send keys failed: " +:+ selector; message error] ;;;
       throw (Err ("Failed to send keys to " +:+ selector +:+ ": "
                   +:+ message error))).

(** [clearText(selector, timeout = null)]. *)
Definition clearText (selector : string) (timeout_ : option N) : M Done :=
  _ensureStarted ;;;
  try_catch
    (s <- get ;;
     let timeoutMs := timeoutOr timeout_ (timeout (options s)) in
     p <- thePage ;;
     call (PageFill p selector "" timeoutMs) ;;;
     log Info ["Cleared text from element: " +:+ selector] ;;;
     ret (mkDone true selector))
    (fun error =>
       log ErrorLevel ["Clear text failed: " +:+ selector; message error] ;;;
       throw (Err ("Failed to clear text from " +:+ selector +:+ ": "
                   +:+ message error))).

(** [getText(selector, timeout = null)]. *)
Definition getText (selector : string) (timeout_ : option N) : M string :=
  _ensureStarted ;;;
  try_catch
    (s <- get ;;
     let timeoutMs := timeoutOr timeout_ (timeout (options s)) in
     p <- thePage ;;
     text <- call (TextContent p selector timeoutMs) ;;
     ret (stringOr text ""))
    (fun error =>
       log ErrorLevel ["Get text failed: " +:+ selector; message error] ;;;
       throw (Err ("Failed to get text from " +:+ selector +:+ ": "
                   +:+ message error))).

(** [executeScript(script, ...args)]. *)
Definition executeScript (script : string) (args : list string) : M string :=
  _ensureStarted ;;;
  try_catch
    (p <- thePage ;; call (Evaluate p script args))
    (fun error =>
       log ErrorLevel ["Execute script failed:"; message error] ;;;
       throw (Err ("Failed to execute script: " +:+ message error))).

(** [takeScreenshot(filename = null, includeTimestamp = true,
    baseDirectory = null, screenshotsDirectory = null)]; [now] is the clock
    reading [_generateFilename] takes. *)
Definition takeScreenshot (now : UTCTime) (filename : option string)
    (includeTimestamp : bool) (baseDirectory screenshotsDir : option string)
  : M string :=
  _ensureStarted ;;;
  try_catch
    (if Js.truthy filename then
       s <- get ;;
       let actualBaseDirectory := stringOr baseDirectory (outputDirectoryBasePath s) in
       let actualScreenshotsDirectory := stringOr screenshotsDir (screenshotsDirectory s) in
       paths <- createScreenshotsDirectory actualBaseDirectory
                  actualScreenshotsDirectory true ;;
       let finalFilename :=
         _generateFilename path now (Js.templ filename) includeTimestamp in
       let filepath := pjoin path (fst paths) finalFilename in
       let ext := extname path filepath in
       let finalPath := if nonEmpty ext then filepath else filepath +:+ ".png" in
       p <- thePage ;;
       call (Screenshot p (Some finalPath)) ;;;
       log Info ["Screenshot saved: " +:+ finalPath] ;;;
       ret finalPath
     else
       p <- thePage ;; call (Screenshot p None))
    (fun error =>
       log ErrorLevel ["Screenshot failed:"; message error] ;;;
       throw (Err ("Failed to take screenshot: " +:+ message error))).

(** [startVideoRecording(filename = 'recording.webm', baseDirectory = null,
    videosDirectory = null, includeTimestamp = true)]; returns the
    [message] of its result object. *)
Definition startVideoRecording (filename : string)
    (baseDirectory videosDir : option string) (includeTimestamp : bool)
  : M string :=
  _ensureStarted ;;;
  log Warn ["Video recording should be enabled at browser start. Use recordVideo: true in options and restart browser."] ;;;
  s <- get ;;
  if negb (recordVideo (options s)) then
    throw (Err "Video recording not enabled. Set recordVideo: true in options and restart browser.")
  else
    log Info ["Video recording is active (managed by Playwright context)"] ;;;
    ret "Video recording active".

(** [stopVideoRecording()]. *)
Definition stopVideoRecording : M string :=
  _ensureStarted ;;;
  s <- get ;;
  if negb (recordVideo (options s)) then
    throw (Err "Video recording not enabled")
  else
    try_catch
      (p <- thePage ;;
       videoPath <- call (VideoPath p) ;;
       log Info ["Video recording saved: " +:+ videoPath] ;;;
       ret videoPath)
      (fun error =>
         log ErrorLevel ["Failed to get video path:"; message error] ;;;
         throw (Err ("Failed to stop video recording: " +:+ message error))).

End Methods.

End Playwright.

(* ===================================================================== *)
(** ** [SeleniumUtils], continued: typing with retries, probes, alerts *)
(* ===================================================================== *)

Module SeleniumHelpers.
Import Js.

Definition Alert : Type := nat.     (* an open alert, confirm or prompt *)

(** The calls these static methods make to selenium-webdriver and to
    timers. A script and an attribute may answer [null]. *)
Inductive Call : Type -> Type :=
| WaitLocated (d : Selenium.Handle) (loc : By) (timeoutMs : N)
    : Call Selenium.Element
| WaitEnabled (d : Selenium.Handle) (el : Selenium.Element) (timeoutMs : N)
    : Call unit
| WaitVisible (d : Selenium.Handle) (el : Selenium.Element) (timeoutMs : N)
    : Call unit
| WaitNotVisible (d : Selenium.Handle) (el : Selenium.Element) (timeoutMs : N)
    : Call unit
| ExecuteScript (d : Selenium.Handle) (script : string)
    (args : list Selenium.ScriptArg) : Call (option string)
| Clear (el : Selenium.Element) : Call unit
| SendKeys (el : Selenium.Element) (text : string) : Call unit
| GetText (el : Selenium.Element) : Call string
| GetAttribute (el : Selenium.Element) (name : string) : Call (option string)
| IsDisplayed (el : Selenium.Element) : Call bool
| SwitchToAlert (d : Selenium.Handle) : Call Alert
| AlertGetText (a : Alert) : Call string
| AlertAccept (a : Alert) : Call unit
| AlertDismiss (a : Alert) : Call unit
| AlertSendKeys (a : Alert) (text : string) : Call unit
| Sleep (ms : N) : Call unit.

(** [s.replace(/c/g, d)] for single characters [c] and [d]. *)
Fixpoint replaceAll (c d : ascii) (s : string) : string :=
  match s with
  | EmptyString => EmptyString
  | String x s' => String (if Ascii.eqb x c then d else x) (replaceAll c d s')
  end.

(** [Date.prototype.toISOString] for every year from 0 on: a year above
    9999 is printed as a plus sign and six digits. *)
Definition toISOString (t : UTCTime) : string :=
  if Nat.ltb (year t) (10 * 1000) then Clock.toISOString t
  else "+" +:+ String (Clock.digit (year t / (100 * 1000)))
                 (String (Clock.digit (year t / (10 * 1000)))
                    (Clock.toISOString t)).

(** [getTimestamp()]; [now] is the value of [new Date()]. *)
Definition getTimestamp (now : UTCTime) : string :=
  String.substring 0 19
    (replaceAll "." "-" (replaceAll ":" "-" (toISOString now))).

(** [String.prototype.trim] on ASCII white space. *)
Fixpoint trimStart (s : string) : string :=
  match s with
  | EmptyString => EmptyString
  | String c s' => if Playwright.isSpace c then trimStart s' else s
  end.

Fixpoint trimEnd (s : string) : string :=
  match s with
  | EmptyString => EmptyString
  | String c s' =>
      match trimEnd s' with
      | EmptyString => if Playwright.isSpace c then EmptyString
                       else String c EmptyString
      | t => String c t
      end
  end.

Definition trim (s : string) : string := trimEnd (trimStart s).

Section Static.

(** The methods are static: they touch no field, whatever object state the
    caller has. *)
Variable St : Type.

Definition M : Type -> Type := Eff.M Call St.

(** [SeleniumUtils.wait(milliseconds)]: a timer, which always fires. *)
Definition wait (milliseconds : N) : M unit := settle (Sleep milliseconds) tt.

(** [smartWaitForElement(driver, selector, timeout, condition)], over the
    calls of this module. *)
Definition smartWaitForElement (driver : Selenium.Handle) (selector : string)
    (timeout : N) (condition : SeleniumUtils.Condition) : M Selenium.Element :=
  let loc := SeleniumUtils.getSmartSelector selector in
  match condition with
  | SeleniumUtils.present => call (WaitLocated driver loc timeout)
  | SeleniumUtils.visible =>
      element <- call (WaitLocated driver loc timeout) ;;
      call (WaitVisible driver element timeout) ;;;
      ret element
  | SeleniumUtils.clickable =>
      clickableElement <- call (WaitLocated driver loc timeout) ;;
      call (WaitEnabled driver clickableElement timeout) ;;;
      ret clickableElement
  | SeleniumUtils.invisible =>
      invisibleElement <- call (WaitLocated driver loc timeout) ;;
      call (WaitNotVisible driver invisibleElement timeout) ;;;
      ret invisibleElement
  | SeleniumUtils.unknownCondition name =>
      throw (Err ("Unknown wait condition: " +:+ name))
  end.

(** The [try] block of one iteration of [safeSendKeys]: locate and wait
    until enabled, scroll to the centre, clear if asked, type, read the
    value back and compare. *)
Definition sendKeysAttempt (driver : Selenium.Handle) (selector text : string)
    (clearFirst : bool) : M bool :=
  element <- smartWaitForElement driver selector 5000%N SeleniumUtils.clickable ;;
  call (ExecuteScript driver SeleniumUtils.scrollIntoViewScript
          [Selenium.ArgElement element]) ;;;
  (if clearFirst then call (Clear element) ;;; wait 100%N else ret tt) ;;;
  call (SendKeys element text) ;;;
  actualValue <- call (GetAttribute element "value") ;;
  (if truthy actualValue && negb (includes (templ actualValue) text) then
     throw (Err ("Text verification failed. Expected: " +:+ text
                 +:+ ", Actual: " +:+ templ actualValue))
   else ret tt) ;;;
  log Info ["Successfully sent keys to element: " +:+ selector] ;;;
  ret true.

Definition sendKeysWarning (selector : string) (attempt maxRetries : nat)
    (error : Error) : string :=
  "Send keys attempt " +:+ numNat attempt +:+ "/" +:+ numNat maxRetries
  +:+ " failed for " +:+ selector +:+ ": " +:+ message error.

Definition sendKeysFailure (selector : string) (maxRetries : nat) : Error :=
  Err ("Failed to send keys to " +:+ selector +:+ " after "
       +:+ numNat maxRetries +:+ " attempts").

(** The [for (let attempt = 1; attempt <= maxRetries; attempt++)] loop of
    [safeSendKeys], entered at [attempt]; [fuel] bounds the iterations left
    and [safeSendKeys] passes [maxRetries], the most the loop can run. *)
Fixpoint safeSendKeysLoop (driver : Selenium.Handle) (selector text : string)
    (clearFirst : bool) (maxRetries fuel attempt : nat) : M bool :=
  match fuel with
  | O => ret false
  | S fuel' =>
      if Nat.leb attempt maxRetries then
        try_catch
          (sendKeysAttempt driver selector text clearFirst)
          (fun error =>
             log Warn [sendKeysWarning selector attempt maxRetries error] ;;;
             if Nat.ltb attempt maxRetries then
               wait 1000%N ;;;
               safeSendKeysLoop driver selector text clearFirst maxRetries
                                fuel' (S attempt)
             else throw (sendKeysFailure selector maxRetries))
      else ret false
  end.

(** [safeSendKeys(driver, selector, text, clearFirst = true,
    maxRetries = 3)]. *)
Definition safeSendKeys (driver : Selenium.Handle) (selector text : string)
    (clearFirst : option bool) (maxRetries : option nat) : M bool :=
  let clearFirst := orDefault clearFirst true in
  let maxRetries := orDefault maxRetries 3 in
  safeSendKeysLoop driver selector text clearFirst maxRetries maxRetries 1.

Definition textContentScript : string := "return arguments[0].textContent;".

(** [getElementText(driver, selector)]. *)
Definition getElementText (driver : Selenium.Handle) (selector : string)
  : M string :=
  try_catch
    (element <- smartWaitForElement driver selector 5000%N SeleniumUtils.present ;;
     text <- call (GetText element) ;;
     text <- (if negb (nonEmpty text) || String.eqb (trim text) "" then
                text <- call (GetAttribute element "innerHTML") ;;
                if negb (truthy text) then
                  call (ExecuteScript driver textContentScript
                          [Selenium.ArgElement element])
                else ret text
              else ret (Some text)) ;;
     ret (trim (stringOr text "")))
    (fun error =>
       log ErrorLevel ["Failed to get text from " +:+ selector +:+ ": "
                       +:+ message error] ;;;
       ret "").

(** [elementExists(driver, selector, timeout = 5000)]. *)
Definition elementExists (driver : Selenium.Handle) (selector : string)
    (timeout : option N) : M bool :=
  try_catch
    (smartWaitForElement driver selector (orDefault timeout 5000%N)
       SeleniumUtils.present ;;;
     ret true)
    (fun _ => ret false).

(** [isElementVisible(driver, selector)]. *)
Definition isElementVisible (driver : Selenium.Handle) (selector : string)
  : M bool :=
  try_catch
    (element <- smartWaitForElement driver selector 5000%N SeleniumUtils.present ;;
     call (IsDisplayed element))
    (fun _ => ret false).

Definition smoothScrollScript : string :=
  "arguments[0].scrollIntoView({block: " +:+ dq +:+ "center" +:+ dq
  +:+ ", behavior: " +:+ dq +:+ "smooth" +:+ dq +:+ "});".

(** [scrollToElement(driver, selector)]. *)
Definition scrollToElement (driver : Selenium.Handle) (selector : string)
  : M bool :=
  try_catch
    (element <- smartWaitForElement driver selector 5000%N SeleniumUtils.present ;;
     call (ExecuteScript driver smoothScrollScript
             [Selenium.ArgElement element]) ;;;
     wait 500%N ;;;
     ret true)
    (fun error =>
       log ErrorLevel ["Failed to scroll to element " +:+ selector +:+ ": "
                       +:+ message error] ;;;
       ret false).

(** [handleAlert(driver, action = 'accept', text = null)]; [None] is the
    [null] result. *)
Definition handleAlert (driver : Selenium.Handle) (action : option string)
    (text : option string) : M (option string) :=
  let action := orDefault action "accept" in
  try_catch
    (alert <- call (SwitchToAlert driver) ;;
     alertText <- call (AlertGetText alert) ;;
     (let a := toLowerCase action in
      if String.eqb a "accept" then call (AlertAccept alert)
      else if String.eqb a "dismiss" then call (AlertDismiss alert)
      else if String.eqb a "sendkeys" then
        (if truthy text then call (AlertSendKeys alert (templ text))
         else ret tt) ;;;
        call (AlertAccept alert)
      else throw (Err ("Unknown alert action: " +:+ action))) ;;;
     log Info ["Handled alert: " +:+ action +:+ " - " +:+ dq +:+ alertText
               +:+ dq] ;;;
     ret (Some alertText))
    (fun _ => ret None).

End Static.

End SeleniumHelpers.

(* ===================================================================== *)
(** ** [PlaywrightUtils], continued: retrying click, validated fill,
       fallback selectors *)
(* ===================================================================== *)

Module PlaywrightHelpers.
Import Js.

(** The number [dividend / divisor], which need not be whole. *)
Record Quotient : Type := mkQuotient { dividend : N; divisor : nat }.

(** The calls these static methods make to the page and to timers. A
    fill without options carries no timeout. *)
Inductive Call : Type -> Type :=
| Click (p : Playwright.PageHandle) (selector : string) (timeoutMs : N)
    (force : bool) : Call unit
| Fill (p : Playwright.PageHandle) (selector text : string)
    (timeoutMs : option N) : Call unit
| InputValue (p : Playwright.PageHandle) (selector : string) : Call string
| WaitForSelector (p : Playwright.PageHandle) (selector : string)
    (timeoutMs : Quotient) (state : string) : Call (option Playwright.Element)
| Sleep (ms : N) : Call unit.

(** The [{ success, attempts }] result of [smartClick]. *)
Record Clicked : Type := mkClicked { clicked : bool; attempts : nat }.

(** The [{ success, text, validated }] result of [smartFill]. *)
Record Filled : Type := mkFilled {
  filled : bool; text_of : string; validated : bool
}.

(** The [{ element, selector, attemptIndex }] result of
    [findElementWithFallback]. *)
Record Found : Type := mkFound {
  element : Playwright.Element; selector_found : string; attemptIndex : nat
}.

Section Static.

Variable St : Type.

Definition M : Type -> Type := Eff.M Call St.

Definition clickWarning (selector : string) (i : nat) (error : Error) : string :=
  "Click attempt " +:+ numNat (i + 1) +:+ " failed for " +:+ selector
  +:+ ": " +:+ message error.

(** The [for (let i = 0; i < maxRetries; i++)] loop of [smartClick],
    entered at [i]. [fuel] counts the iterations the loop test can still
    admit and [smartClick] passes all of them: when [fuel] is used up the
    test fails and the function falls out of the loop. [None] is the
    [undefined] a function returns when its loop ends without a
    [return]. *)
Fixpoint smartClickLoop (page : Playwright.PageHandle) (selector : string)
    (maxRetries : Number) (retryDelay timeout : N) (force : bool)
    (fuel i : nat) : M (option Clicked) :=
  match fuel with
  | O => ret None
  | S fuel' =>
      if ltNumber i maxRetries then
        try_catch
          (call (Click page selector timeout force) ;;;
           log Info ["Smart click successful: " +:+ selector] ;;;
           ret (Some (mkClicked true (i + 1))))
          (fun error =>
             log Warn [clickWarning selector i error] ;;;
             if ltPredecessor i maxRetries then
               settle (Sleep retryDelay) tt ;;;
               smartClickLoop page selector maxRetries retryDelay timeout
                              force fuel' (S i)
             else throw error)
      else ret None
  end.

(** [smartClick(page, selector, options = {})] with the keys [retries],
    [retryDelay], [timeout] and [force] of [options]; [retries] is whatever
    number the caller passes. *)
Definition smartClick (page : Playwright.PageHandle) (selector : string)
    (retries : option Number) (retryDelay timeout : option N)
    (force : option bool) : M (option Clicked) :=
  let maxRetries := numberOr retries (Whole 3) in
  let retryDelay := timeoutOr retryDelay 1000%N in
  smartClickLoop page selector maxRetries retryDelay
    (timeoutOr timeout 30000%N) (orDefault force false)
    (wholeBelow maxRetries) 0.

(** [smartFill(page, selector, text, options = {})] with the keys [clear],
    [timeout] and [validate] of [options]. *)
Definition smartFill (page : Playwright.PageHandle) (selector text : string)
    (clear : option bool) (timeout : option N) (validate : option bool)
  : M Filled :=
  try_catch
    ((match clear with
      | Some false => ret tt
      | _ => call (Fill page selector "" None)
      end) ;;;
     call (Fill page selector text (Some (timeoutOr timeout 30000%N))) ;;;
     (if orDefault validate false then
        actualValue <- call (InputValue page selector) ;;
        if negb (String.eqb actualValue text) then
          throw (Err ("Text validation failed. Expected: " +:+ dq +:+ text
                      +:+ dq +:+ ", Got: " +:+ dq +:+ actualValue +:+ dq))
        else ret tt
      else ret tt) ;;;
     log Info ["Smart fill successful: " +:+ selector] ;;;
     ret (mkFilled true text (orDefault validate false)))
    (fun error =>
       log ErrorLevel ["Smart fill failed for " +:+ selector +:+ ": "
                       +:+ message error] ;;;
       throw error).

Definition allFailed (n : nat) : Error :=
  Err ("All " +:+ numNat n +:+ " selectors failed to find element").

(** The [for (let i = 0; i < selectors.length; i++)] loop of
    [findElementWithFallback], entered at index [i] with the selectors
    [rest] still to try; [n] is [selectors.length]. [None] is the
    [undefined] a function returns when its loop ends without a
    [return]. *)
Fixpoint fallbackLoop (page : Playwright.PageHandle) (timeout : N) (n : nat)
    (state : string) (rest : list string) (i : nat) : M (option Found) :=
  match rest with
  | [] => ret None
  | selector :: rest' =>
      found <-
        try_catch
          (element <- call (WaitForSelector page selector
                              (mkQuotient timeout n) state) ;;
           match element with
           | Some el =>
               log Info ["Element found with selector " +:+ numNat (i + 1)
                         +:+ "/" +:+ numNat n +:+ ": " +:+ selector] ;;;
               ret (Some (mkFound el selector i))
           | None => ret None
           end)
          (fun error =>
             log Warn ["Selector " +:+ numNat (i + 1) +:+ "/" +:+ numNat n
                       +:+ " failed: " +:+ selector +:+ " - "
                       +:+ message error] ;;;
             if Nat.eqb i (n - 1) then throw (allFailed n) else ret None) ;;
      match found with
      | Some r => ret (Some r)
      | None => fallbackLoop page timeout n state rest' (S i)
      end
  end.

(** [findElementWithFallback(page, selectors, options = {})] with the keys
    [timeout] and [state] of [options]. *)
Definition findElementWithFallback (page : Playwright.PageHandle)
    (selectors : list string) (timeout : option N) (state : option string)
  : M (option Found) :=
  fallbackLoop page (timeoutOr timeout 30000%N) (List.length selectors)
    (stringOr state "visible") selectors 0.

End Static.

End PlaywrightHelpers.

(* ===================================================================== *)
(** ** [EnhancedBrowserParser]: the form analysers *)
(* ===================================================================== *)

Module EnhancedBrowserParser.
Import Js.

(** One entry of [form.fields], as far as the analysers read it. *)
Record Field : Type := mkField { type_ : string; required : bool }.

(** A form as [getAllForms] describes it; [fields] lists the properties of
    [form.fields] in the order [Object.keys] and [Object.entries] enumerate
    them. *)
Record Form : Type := mkForm {
  fields : list (string * Field);
  action : string
}.

(** [_detectFormPurpose(form)] (enhancedBrowserParser.js). *)
Definition _detectFormPurpose (form : Form) : string :=
  let fieldNames := map (fun kv => toLowerCase (fst kv)) (fields form) in
  let formAction := toLowerCase (action form) in
  if existsb (fun name => includes name "password") fieldNames
     && existsb (fun name => includes name "email" || includes name "username"
                             || includes name "login") fieldNames then
    "login"
  else if existsb (fun name => includes name "password") fieldNames
          && existsb (fun name => includes name "confirm"
                                  || includes name "repeat") fieldNames
          && Nat.ltb 3 (List.length fieldNames) then
    "registration"
  else if existsb (fun name => includes name "message"
                               || includes name "comment") fieldNames
          || includes formAction "contact" then
    "contact"
  else if existsb (fun name => includes name "search"
                               || includes name "query") fieldNames
          || includes formAction "search" then
    "search"
  else if existsb (fun name => includes name "card" || includes name "payment"
                               || includes name "billing") fieldNames then
    "payment"
  else if existsb (fun name => includes name "email") fieldNames
          && Nat.leb (List.length fieldNames) 2 then
    "newsletter"
  else
    "general".

(** The [validation] object of [_analyzeFormValidation]. *)
Record Validation : Type := mkValidation {
  hasRequiredFields : bool;
  requiredFields : list string;
  hasPatternValidation : bool;
  patternFields : list string;
  hasLengthValidation : bool;
  lengthFields : list string
}.

(** One turn of the [for (const [fieldName, field] of
    Object.entries(form.fields))] loop: three independent [if]s, each
    setting a flag and pushing the name. *)
Definition validationStep (validation : Validation) (entry : string * Field)
  : Validation :=
  let fieldName := fst entry in
  let field := snd entry in
  let validation :=
    if required field then
      mkValidation true (requiredFields validation ++ [fieldName])
        (hasPatternValidation validation) (patternFields validation)
        (hasLengthValidation validation) (lengthFields validation)
    else validation in
  let validation :=
    if String.eqb (type_ field) "email" || String.eqb (type_ field) "tel"
       || String.eqb (type_ field) "url" then
      mkValidation (hasRequiredFields validation) (requiredFields validation)
        true (patternFields validation ++ [fieldName])
        (hasLengthValidation validation) (lengthFields validation)
    else validation in
  if String.eqb (type_ field) "password"
     || String.eqb (type_ field) "textarea" then
    mkValidation (hasRequiredFields validation) (requiredFields validation)
      (hasPatternValidation validation) (patternFields validation)
      true (lengthFields validation ++ [fieldName])
  else validation.

(** [_analyzeFormValidation(form)]; nothing in its [try] block can throw. *)
Definition _analyzeFormValidation (form : Form) : Validation :=
  fold_left validationStep (fields form)
    (mkValidation false [] false [] false []).

End EnhancedBrowserParser.

(* ===================================================================== *)
(** ** Both drivers, continued: waiting for an element, the download
       directory *)
(* ===================================================================== *)

Module SeleniumWaits.
Import Selenium.

Section Methods.

Variable path : PathLib.
Variable projectRoot : string.

(** [waitForElement(selector, timeout = null)]; the number in the message
    is printed as the whole number of milliseconds it is. *)
Definition waitForElement (selector : string) (timeout_ : option N) : M Done :=
  _ensureStarted ;;;
  s <- get ;;
  let timeoutMs := timeoutOr timeout_ (timeout (options s)) in
  try_catch
    (findElement selector (Some timeoutMs) ;;;
     ret (mkDone true selector))
    (fun _ =>
       throw (Err ("Element not found within " +:+ Js.num timeoutMs +:+ "ms: "
                   +:+ selector))).

(** [waitForVisible(selector, timeout = null)]. *)
Definition waitForVisible (selector : string) (timeout_ : option N) : M Done :=
  _ensureStarted ;;;
  s <- get ;;
  let timeoutMs := timeoutOr timeout_ (timeout (options s)) in
  try_catch
    (element <- findElement selector (Some timeoutMs) ;;
     d <- theDriver ;;
     call (WaitVisible d element timeoutMs) ;;;
     ret (mkDone true selector))
    (fun _ =>
       throw (Err ("Element not visible within " +:+ Js.num timeoutMs
                   +:+ "ms: " +:+ selector))).

(** [waitForClickable(selector, timeout = null)]. *)
Definition waitForClickable (selector : string) (timeout_ : option N) : M Done :=
  _ensureStarted ;;;
  s <- get ;;
  let timeoutMs := timeoutOr timeout_ (timeout (options s)) in
  try_catch
    (element <- findElement selector (Some timeoutMs) ;;
     d <- theDriver ;;
     call (WaitEnabled d element timeoutMs) ;;;
     ret (mkDone true selector))
    (fun _ =>
       throw (Err ("Element not clickable within " +:+ Js.num timeoutMs
                   +:+ "ms: " +:+ selector))).

(** [getDownloadDirectory(downloadsPath = null, createDirectory = true)];
    returns the [downloadPath] of its result object. *)
Definition getDownloadDirectory (downloadsPath : option string)
    (createDirectory : option bool) : M string :=
  try_catch
    (s <- get ;;
     let downloadPath :=
       if Js.truthy downloadsPath
       then anchored path projectRoot (Js.templ downloadsPath)
       else downloadDirectoryBasePath s in
     (if orDefault createDirectory true then
        call (Mkdir downloadPath) ;;;
        log Info ["Download directory ready: " +:+ downloadPath]
      else ret tt) ;;;
     ret downloadPath)
    (fun error =>
       log ErrorLevel ["Download directory creation failed:"; message error] ;;;
       throw (Err ("Failed to setup download directory: " +:+ message error))).

End Methods.

End SeleniumWaits.

Module PlaywrightWaits.
Import Playwright.

Section Methods.

Variable path : PathLib.
Variable projectRoot : string.

(** [waitForElement(selector, timeout = null)]. *)
Definition waitForElement (selector : string) (timeout_ : option N) : M Done :=
  _ensureStarted ;;;
  s <- get ;;
  let timeoutMs := timeoutOr timeout_ (timeout (options s)) in
  try_catch
    (p <- thePage ;;
     call (WaitForSelector p selector timeoutMs "attached") ;;;
     ret (mkDone true selector))
    (fun _ =>
       throw (Err ("Element not found within " +:+ Js.num timeoutMs +:+ "ms: "
                   +:+ selector))).

(** [waitForVisible(selector, timeout = null)]. *)
Definition waitForVisible (selector : string) (timeout_ : option N) : M Done :=
  _ensureStarted ;;;
  s <- get ;;
  let timeoutMs := timeoutOr timeout_ (timeout (options s)) in
  try_catch
    (p <- thePage ;;
     call (WaitForSelector p selector timeoutMs "visible") ;;;
     ret (mkDone true selector))
    (fun _ =>
       throw (Err ("Element not visible within " +:+ Js.num timeoutMs
                   +:+ "ms: " +:+ selector))).

(** [getDownloadDirectory(downloadsPath = null, createDirectory = true)];
    returns the [downloadPath] of its result object. *)
Definition getDownloadDirectory (downloadsPath : option string)
    (createDirectory : option bool) : M string :=
  try_catch
    (s <- get ;;
     let downloadPath :=
       if Js.truthy downloadsPath
       then anchored path projectRoot (Js.templ downloadsPath)
       else downloadDirectoryBasePath s in
     (if orDefault createDirectory true then
        call (Mkdir downloadPath) ;;;
        log Info ["Download directory ready: " +:+ downloadPath]
      else ret tt) ;;;
     ret downloadPath)
    (fun error =>
       log ErrorLevel ["Download directory creation failed:"; message error] ;;;
       throw (Err ("Failed to setup download directory: " +:+ message error))).

End Methods.

End PlaywrightWaits.

(* ===================================================================== *)
(** ** [BasePlaywrightParser]: extracting texts and attributes *)
(* ===================================================================== *)

Module PlaywrightParser.
Import Js.

(** The calls the extractors make through [this.page.locator(selector)]:
    counting the matches and reading from the match at an index. *)
Inductive Call : Type -> Type :=
| Count (p : Playwright.PageHandle) (selector : string) : Call nat
| NthTextContent (p : Playwright.PageHandle) (selector : string) (i : nat)
    : Call (option string)
| NthGetAttribute (p : Playwright.PageHandle) (selector : string) (i : nat)
    (name : string) : Call (option string).

(** The keys of [options] the extractors read. *)
Record Options : Type := mkOptions {
  defaultValue : option (list string);
  trim : option bool;
  throwOnError : option bool
}.

(** [flag !== false]. *)
Definition notFalse (flag : option bool) : bool :=
  match flag with
  | Some false => false
  | _ => true
  end.

Section Methods.

(** [this.page], set by the constructor and never assigned again. *)
Variable page : Playwright.PageHandle.
(** The extractors touch no field, whatever object state there is. *)
Variable St : Type.

Definition M : Type -> Type := Eff.M Call St.

(** The [for (let i = 0; i < count; i++)] loop of [extractTexts], entered
    at [i] with [fuel] iterations left and the texts pushed so far. *)
Fixpoint textsLoop (selector : string) (trimming : bool) (fuel i : nat)
    (texts : list string) : M (list string) :=
  match fuel with
  | O => ret texts
  | S fuel' =>
      text <- call (NthTextContent page selector i) ;;
      let item :=
        if trimming then
          match text with
          | Some t => SeleniumHelpers.trim t
          | None => ""
          end
        else stringOr text "" in
      textsLoop selector trimming fuel' (S i) (texts ++ [item])
  end.

(** [extractTexts(selector, options = {})]. *)
Definition extractTexts (selector : string) (options : Options)
  : M (list string) :=
  try_catch
    (count <- call (Count page selector) ;;
     if Nat.eqb count 0 then ret (orDefault (defaultValue options) [])
     else
       texts <- textsLoop selector (notFalse (trim options)) count 0 [] ;;
       log Info ["Extracted " +:+ numNat (List.length texts)
                 +:+ " text values from: " +:+ selector] ;;;
       ret texts)
    (fun error =>
       log ErrorLevel ["Text extraction failed for " +:+ selector +:+ ": "
                       +:+ message error] ;;;
       if notFalse (throwOnError options) then throw error
       else ret (orDefault (defaultValue options) [])).

(** The loop of [extractAttributes]; a missing attribute is pushed as
    [null]. *)
Fixpoint attributesLoop (selector attributeName : string) (fuel i : nat)
    (attributes : list (option string)) : M (list (option string)) :=
  match fuel with
  | O => ret attributes
  | S fuel' =>
      attribute <- call (NthGetAttribute page selector i attributeName) ;;
      attributesLoop selector attributeName fuel' (S i)
                     (attributes ++ [attribute])
  end.

(** [attributes.filter(attr => attr !== null)]. *)
Fixpoint withoutNulls (attributes : list (option string)) : list string :=
  match attributes with
  | [] => []
  | Some a :: tl => a :: withoutNulls tl
  | None :: tl => withoutNulls tl
  end.

(** [extractAttributes(selector, attributeName, options = {})]. *)
Definition extractAttributes (selector attributeName : string)
    (options : Options) : M (list string) :=
  try_catch
    (count <- call (Count page selector) ;;
     if Nat.eqb count 0 then ret (orDefault (defaultValue options) [])
     else
       attributes <- attributesLoop selector attributeName count 0 [] ;;
       log Info ["Extracted " +:+ numNat (List.length attributes) +:+ " "
                 +:+ attributeName +:+ " attributes from: " +:+ selector] ;;;
       ret (withoutNulls attributes))
    (fun error =>
       log ErrorLevel ["Attribute extraction failed for " +:+ selector +:+ "."
                       +:+ attributeName +:+ ": " +:+ message error] ;;;
       if notFalse (throwOnError options) then throw error
       else ret (orDefault (defaultValue options) [])).

End Methods.

End PlaywrightParser.

(* ===================================================================== *)
(** ** [PlaywrightUtils.fillForm] *)
(* ===================================================================== *)

Module PlaywrightForms.
Import Js.

(** A [value] of the form data: a text, a flag, or a list of files. *)
Inductive Value : Type :=
| VText (s : string)
| VFlag (b : bool)
| VFiles (files : list string).

(** Truthiness of a value: the empty string and [false] are falsy, an
    array is truthy. *)
Definition valueTruthy (v : Value) : bool :=
  match v with
  | VText s => nonEmpty s
  | VFlag b => b
  | VFiles _ => true
  end.

(** One [{ selector, value, type }] entry of [formData]. *)
Record FieldData : Type := mkFieldData {
  fd_selector : option string;
  fd_value : Value;
  fd_type : option string
}.

(** The calls [fillForm] makes to the page. *)
Inductive Call : Type -> Type :=
| Fill (p : Playwright.PageHandle) (selector : string) (value : Value)
    (timeoutMs : N) : Call unit
| SelectOption (p : Playwright.PageHandle) (selector : string) (value : Value)
    (timeoutMs : N) : Call unit
| Check (p : Playwright.PageHandle) (selector : string) (timeoutMs : N)
    : Call unit
| Uncheck (p : Playwright.PageHandle) (selector : string) (timeoutMs : N)
    : Call unit
| SetInputFiles (p : Playwright.PageHandle) (selector : string) (value : Value)
    (timeoutMs : N) : Call unit.

(** The [{ success: true, type, value }] entry of [results]. *)
Record FieldResult : Type := mkFieldResult { fr_type : string; fr_value : Value }.

(** The [{ success: true, results, fieldsCount }] result. *)
Record FormResult : Type := mkFormResult {
  results : list (string * FieldResult);
  fieldsCount : nat
}.

Section Static.

Variable St : Type.

Definition M : Type -> Type := Eff.M Call St.

Definition selectorOf (fieldName : string) (fieldData : FieldData) : string :=
  stringOr (fd_selector fieldData) ("[name=" +:+ dq +:+ fieldName +:+ dq +:+ "]").

Definition typeOf (fieldData : FieldData) : string :=
  stringOr (fd_type fieldData) "text".

(** The body of the loop up to the end of the [switch]. *)
Definition fillField (page : Playwright.PageHandle) (timeout : N)
    (fieldName : string) (fieldData : FieldData) : M unit :=
  let selector := selectorOf fieldName fieldData in
  let value := fd_value fieldData in
  let type := typeOf fieldData in
  log Info ["Filling form field: " +:+ fieldName] ;;;
  if String.eqb type "text" || String.eqb type "email"
     || String.eqb type "password" then
    call (Fill page selector value timeout)
  else if String.eqb type "select" then
    call (SelectOption page selector value timeout)
  else if String.eqb type "checkbox" then
    if valueTruthy value then call (Check page selector timeout)
    else call (Uncheck page selector timeout)
  else if String.eqb type "radio" then
    call (Check page selector timeout)
  else if String.eqb type "file" then
    call (SetInputFiles page selector value timeout)
  else
    throw (Err ("Unknown field type: " +:+ type)).

(** The [for (const [fieldName, fieldData] of Object.entries(formData))]
    loop over the entries still to fill. The property names of an object
    are distinct, so each [results[fieldName] = ...] adds an entry. *)
Fixpoint fillLoop (page : Playwright.PageHandle) (timeout : N)
    (rest : list (string * FieldData))
    (results : list (string * FieldResult))
  : M (list (string * FieldResult)) :=
  match rest with
  | [] => ret results
  | (fieldName, fieldData) :: rest' =>
      fillField page timeout fieldName fieldData ;;;
      fillLoop page timeout rest'
        (results ++ [(fieldName,
                      mkFieldResult (typeOf fieldData) (fd_value fieldData))])
  end.

(** [fillForm(page, formData, options = {})] with the key [timeout] of
    [options]; [formData] lists the entries in the order [Object.entries]
    enumerates them. *)
Definition fillForm (page : Playwright.PageHandle)
    (formData : list (string * FieldData)) (timeout : option N)
  : M FormResult :=
  let timeout := timeoutOr timeout 30000%N in
  try_catch
    (results <- fillLoop page timeout formData [] ;;
     log Info ["Form filling completed. Fields: "
               +:+ numNat (List.length formData)] ;;;
     ret (mkFormResult results (List.length formData)))
    (fun error =>
       log ErrorLevel ["Form filling failed: " +:+ message error] ;;;
       throw error).

End Static.

End PlaywrightForms.

(* ===================================================================== *)
(** ** Call sequences: what a caller can do with a driver instance *)
(* ===================================================================== *)

(** Drop the result of a method, as a caller that awaits it only for its
    effect. *)
Definition void {Call : Type -> Type} {St A : Type} (m : Eff.M Call St A)
  : Eff.M Call St unit :=
  bind m (fun _ => ret tt).

(** Run methods one after another on the same instance; the caller catches
    whatever each one throws and goes on. *)
Fixpoint runAll {Call : Type -> Type} {St : Type}
    (ms : list (Eff.M Call St unit)) (env : Eff.Env Call)
    (w : Eff.World Call St) : Eff.World Call St :=
  match ms with
  | [] => w
  | m :: tl => runAll tl env (snd (m env w))
  end.

Module SeleniumOps.
Import Selenium.

(** Which class the instance was constructed from. *)
Inductive Family : Type := Base | Chrome | Edge | Firefox.

Inductive Op : Type :=
| Start
| Quit_
| NavigateTo (url : string)
| FindElement (selector : string) (timeout_ : option N)
| FindElements_ (selector : string)
| Click_ (selector : string) (timeout_ : option N)
| SendKeys_ (selector text : string) (timeout_ : option N)
| ClearText (selector : string) (timeout_ : option N)
| GetText_ (selector : string) (timeout_ : option N)
| ExecuteScript_ (script : string) (args : list ScriptArg)
| TakeScreenshot_ (now : UTCTime) (filename : option string)
    (includeTimestamp : bool) (baseDirectory screenshotsDir : option string)
| StartVideoRecording (filename : string)
    (baseDirectory videosDir : option string) (includeTimestamp : bool)
| StopVideoRecording.

(** The operations the lifecycle invariant speaks about: everything but
    [start] and [quit]. *)
Definition isInteraction (op : Op) : bool :=
  match op with
  | Start | Quit_ => false
  | _ => true
  end.

Definition isVideoStub (op : Op) : bool :=
  match op with
  | StartVideoRecording _ _ _ _ | StopVideoRecording => true
  | _ => false
  end.

Section Run.
Variable path : PathLib.
Variable projectRoot : string.

(** [start] is the one method the subclasses override. *)
Definition startOf (f : Family) : M unit :=
  match f with
  | Base => start
  | Chrome => chrome_start
  | Edge => edge_start
  | Firefox => firefox_start
  end.

Definition run (f : Family) (op : Op) : M unit :=
  match op with
  | Start => startOf f
  | Quit_ => quit
  | NavigateTo url => void (navigateTo url)
  | FindElement sel t => void (findElement sel t)
  | FindElements_ sel => void (findElements sel)
  | Click_ sel t => void (click sel t)
  | SendKeys_ sel text t => void (sendKeys sel text t)
  | ClearText sel t => void (clearText sel t)
  | GetText_ sel t => void (getText sel t)
  | ExecuteScript_ script args => void (executeScript script args)
  | TakeScreenshot_ now fn ts base shots =>
      void (takeScreenshot path projectRoot now fn ts base shots)
  | StartVideoRecording fn base vids ts =>
      startVideoRecording path projectRoot fn base vids ts
  | StopVideoRecording => void stopVideoRecording
  end.

End Run.
End SeleniumOps.

Module PlaywrightOps.
Import Playwright.

Inductive Op : Type :=
| Start
| Quit_
| NavigateTo (url : string)
| FindElement (selector : string) (timeout_ : option N)
| FindElements_ (selector : string)
| Click_ (selector : string) (timeout_ : option N)
| SendKeys_ (selector text : string) (timeout_ : option N)
| ClearText (selector : string) (timeout_ : option N)
| GetText_ (selector : string) (timeout_ : option N)
| ExecuteScript_ (script : string) (args : list string)
| TakeScreenshot_ (now : UTCTime) (filename : option string)
    (includeTimestamp : bool) (baseDirectory screenshotsDir : option string)
| StartVideoRecording (filename : string)
    (baseDirectory videosDir : option string) (includeTimestamp : bool)
| StopVideoRecording.

Definition isInteraction (op : Op) : bool :=
  match op with
  | Start | Quit_ => false
  | _ => true
  end.

Section Run.
Variable path : PathLib.
Variable projectRoot : string.
Variable process_env : string -> option string.

Definition run (op : Op) : M unit :=
  match op with
  | Start => start path projectRoot process_env
  | Quit_ => quit
  | NavigateTo url => void (navigateTo url)
  | FindElement sel t => void (findElement sel t)
  | FindElements_ sel => void (findElements sel)
  | Click_ sel t => void (click sel t)
  | SendKeys_ sel text t => void (sendKeys sel text t)
  | ClearText sel t => void (clearText sel t)
  | GetText_ sel t => void (getText sel t)
  | ExecuteScript_ script args => void (executeScript script args)
  | TakeScreenshot_ now fn ts base shots =>
      void (takeScreenshot path projectRoot now fn ts base shots)
  | StartVideoRecording fn base vids ts =>
      void (startVideoRecording fn base vids ts)
  | StopVideoRecording => void stopVideoRecording
  end.

End Run.
End PlaywrightOps.

(* ===================================================================== *)
(** ** The resolver as the specification words it (section 4.1) *)
(* ===================================================================== *)

Module Spec.
Import Js.

(** Follows the specification's rule list, in its order, to be compared with
    [SeleniumUtils.getSmartSelector]: XPath, ID, class name, the text
    prefixes (exact and partial alike), bare [attr=value], native CSS. *)
Definition resolve (raw : string) : By :=
  if startsWith raw "//" || startsWith raw "(//" then By_xpath raw
  else if startsWith raw "#" then By_id (substring 1 raw)
  else if startsWith raw "." then By_className (substring 1 raw)
  else if startsWith raw "text:" then
    By_xpath (containsTextXPath (substring 5 raw))
  else if startsWith raw "partial-text:" then
    By_xpath (containsTextXPath (substring 13 raw))
  else if includes raw "=" && negb (includes raw "[")
          && negb (includes raw " ") then
    By_css (attrEqualsCss (split "=" raw))
  else By_css raw.

(** A string the text rule matches. *)
Definition textRule (raw : string) : bool :=
  startsWith raw "text:" || startsWith raw "partial-text:".

(** A string the bare [attr=value] rule matches. *)
Definition attrRule (raw : string) : bool :=
  includes raw "=" && negb (includes raw "[") && negb (includes raw " ").

End Spec.

(* ===================================================================== *)
(** ** Concrete surroundings, to run the model *)
(* ===================================================================== *)

Module Sample.

(** The suffix of [s] that starts at its last dot, if it has one. *)
Fixpoint fromLastDot (s : string) : option string :=
  match s with
  | EmptyString => None
  | String c s' =>
      match fromLastDot s' with
      | Some e => Some e
      | None => if Ascii.eqb c "." then Some s else None
      end
  end.

Definition sampleExtname (s : string) : string :=
  match s with
  | EmptyString => EmptyString
  | String _ s' => orDefault (fromLastDot s') EmptyString
  end.

(** [s] without its last [n] characters. *)
Definition dropEnd (n : nat) (s : string) : string :=
  String.substring 0 (String.length s - n) s.

Definition sampleBasename (s ext : string) : string :=
  if String.eqb (dropEnd (String.length ext) s +:+ ext) s
     && negb (String.eqb s ext)
  then dropEnd (String.length ext) s else s.

(** A [PathLib] that agrees with Node's POSIX [path] on file names without
    slashes and on directories that need no normalising; it only serves to
    run the model on examples. *)
Definition path : PathLib :=
  {| isAbsolute := fun p => Js.startsWith p "/";
     resolve := fun a b => if Js.startsWith b "/" then b else a +:+ "/" +:+ b;
     pjoin := fun a b => a +:+ "/" +:+ b;
     extname := sampleExtname;
     basename := sampleBasename |}.

Definition projectRoot : string := "/app".

(** No environment variable is set. *)
Definition noEnv : string -> option string := fun _ => None.

(** A serverless sandbox: the function-name marker is set. *)
Definition lambdaEnv : string -> option string :=
  fun k => if String.eqb k "AWS_LAMBDA_FUNCTION_NAME" then Some "handler" else None.

(** No sandbox, and a Chromium executable configured. *)
Definition customEnv : string -> option string :=
  fun k => if String.eqb k "PLAYWRIGHT_CHROMIUM_EXECUTABLE_PATH"
           then Some "/usr/bin/chromium" else None.

(** Surroundings in which every call fails: no browser, no page, no disk. *)
Definition deadEnv {Call : Type -> Type} : Eff.Env Call :=
  fun _ _ _ => Thrown (Err "unavailable").

(** A WebDriver world in which every call succeeds; the page holds the
    elements 7 and 8. *)
Definition calmSelenium : Eff.Env Selenium.Call :=
  fun A _ c =>
    match c in Selenium.Call T return Outcome T with
    | Selenium.Build _ => Returned 1
    | Selenium.SetTimeouts _ _ _ _ => Returned tt
    | Selenium.Quit _ => Returned tt
    | Selenium.Get _ _ => Returned tt
    | Selenium.GetCurrentUrl _ => Returned "https://example.com/"
    | Selenium.GetTitle _ => Returned "Example Domain"
    | Selenium.WaitLocated _ _ _ => Returned 7
    | Selenium.WaitEnabled _ _ _ => Returned tt
    | Selenium.WaitVisible _ _ _ => Returned tt
    | Selenium.WaitNotVisible _ _ _ => Returned tt
    | Selenium.FindElements _ _ => Returned [7; 8]
    | Selenium.Click _ => Returned tt
    | Selenium.SendKeys _ _ => Returned tt
    | Selenium.Clear _ => Returned tt
    | Selenium.GetText _ => Returned "Example Domain"
    | Selenium.ExecuteScript _ _ _ => Returned ""
    | Selenium.TakeScreenshot _ => Returned "iVBORw0KGgo="
    | Selenium.SetRect _ _ _ _ _ => Returned tt
    | Selenium.Mkdir _ => Returned tt
    | Selenium.WriteFile _ _ => Returned tt
    | Selenium.Sleep _ => Returned tt
    end.

(** A freshly constructed base WebDriver driver, default options. *)
Definition freshSelenium : Eff.World Selenium.Call Selenium.Driver :=
  mkWorld (Selenium.construct path projectRoot Selenium.noUserOptions) [].

(** The same driver with a live session attached. *)
Definition startedSelenium : Eff.World Selenium.Call Selenium.Driver :=
  mkWorld (Selenium.set_isStarted true
             (Selenium.set_driver (Some 1) (this freshSelenium))) [].

(** A freshly constructed Chrome driver, default options. *)
Definition freshChrome : Eff.World Selenium.Call Selenium.Driver :=
  mkWorld (Selenium.constructFor path projectRoot "chrome" Selenium.noUserOptions) [].

(** The Chrome driver after a first, successful [start]. *)
Definition startedChrome : Eff.World Selenium.Call Selenium.Driver :=
  snd (Selenium.chrome_start calmSelenium freshChrome).

(** A freshly constructed DevTools driver, default options. *)
Definition freshPlaywright : Eff.World Playwright.Call Playwright.Driver :=
  mkWorld (Playwright.construct path projectRoot Playwright.noUserOptions) [].

(** The same driver with browser, context and page attached. *)
Definition startedPlaywright : Eff.World Playwright.Call Playwright.Driver :=
  mkWorld (Playwright.set_isStarted true
             (Playwright.set_page (Some 3)
                (Playwright.set_context (Some 2)
                   (Playwright.set_browser (Some 1) (this freshPlaywright))))) [].

(** Two instants of the same second, and one a second later. *)
Definition t0 : UTCTime := mkUTC 2024 1 15 10 30 45 123.
Definition t0' : UTCTime := mkUTC 2024 1 15 10 30 45 987.
Definition t1 : UTCTime := mkUTC 2024 1 15 10 30 46 123.

End Sample.

(** More surroundings: engines that fail at one particular step. *)
Module Scenes.

(** A DevTools engine whose page closes and whose every other call fails:
    the context cannot be closed. *)
Definition stuckContext : Eff.Env Playwright.Call :=
  fun A _ c =>
    match c in Playwright.Call T return Outcome T with
    | Playwright.PageClose _ => Returned tt
    | _ => Thrown (Err "context busy")
    end.

(** A WebDriver world with a read-only disk: the browser answers, making a
    directory fails. *)
Definition readOnlyDiskSelenium : Eff.Env Selenium.Call :=
  fun A tr c =>
    match c in Selenium.Call T return Outcome T with
    | Selenium.Mkdir _ => Thrown (Err "EROFS: read-only file system")
    | c' => Sample.calmSelenium _ tr c'
    end.

(** A WebDriver world in which a session opens and then cannot be
    configured. *)
Definition brokenTimeouts : Eff.Env Selenium.Call :=
  fun A tr c =>
    match c in Selenium.Call T return Outcome T with
    | Selenium.SetTimeouts _ _ _ _ => Thrown (Err "session not created")
    | c' => Sample.calmSelenium _ tr c'
    end.

(** A WebDriver world in which the element is found, enabled and scrolled
    to, and every click on it is refused. *)
Definition refusedClick : Eff.Env Selenium.Call :=
  fun A tr c =>
    match c in Selenium.Call T return Outcome T with
    | Selenium.Click _ => Thrown (Err "element click intercepted")
    | c' => Sample.calmSelenium _ tr c'
    end.

(** A WebDriver driver constructed with a browser name. *)
Definition seleniumFor (name : string) : Eff.World Selenium.Call Selenium.Driver :=
  mkWorld (Selenium.constructFor Sample.path Sample.projectRoot name
             Selenium.noUserOptions) [].

(** A DevTools driver constructed for a browser name. *)
Definition playwrightFor (name : string)
  : Eff.World Playwright.Call Playwright.Driver :=
  mkWorld (Playwright.construct Sample.path Sample.projectRoot
             (Playwright.mkUserOptions (Some name) None None None None None
                None None None None None None None)) [].

(** A page on which every WebDriver call succeeds and the field located,
    element 7, reports [value] when its value is read back. *)
Definition reportingField (value : option string) : Eff.Env SeleniumHelpers.Call :=
  fun A _ c =>
    match c in SeleniumHelpers.Call T return Outcome T with
    | SeleniumHelpers.WaitLocated _ _ _ => Returned 7
    | SeleniumHelpers.WaitEnabled _ _ _ => Returned tt
    | SeleniumHelpers.WaitVisible _ _ _ => Returned tt
    | SeleniumHelpers.WaitNotVisible _ _ _ => Returned tt
    | SeleniumHelpers.ExecuteScript _ _ _ => Returned None
    | SeleniumHelpers.Clear _ => Returned tt
    | SeleniumHelpers.SendKeys _ _ => Returned tt
    | SeleniumHelpers.GetText _ => Returned ""
    | SeleniumHelpers.GetAttribute _ _ => Returned value
    | SeleniumHelpers.IsDisplayed _ => Returned true
    | SeleniumHelpers.SwitchToAlert _ => Returned 9
    | SeleniumHelpers.AlertGetText _ => Returned "Delete the file?"
    | SeleniumHelpers.AlertAccept _ => Returned tt
    | SeleniumHelpers.AlertDismiss _ => Returned tt
    | SeleniumHelpers.AlertSendKeys _ _ => Returned tt
    | SeleniumHelpers.Sleep _ => Returned tt
    end.

(** A page on which filling succeeds and the field reports [value] when
    its value is read back; every other call fails. *)
Definition filledPage (value : string) : Eff.Env PlaywrightHelpers.Call :=
  fun A _ c =>
    match c in PlaywrightHelpers.Call T return Outcome T with
    | PlaywrightHelpers.Fill _ _ _ _ => Returned tt
    | PlaywrightHelpers.InputValue _ _ => Returned value
    | _ => Thrown (Err "unavailable")
    end.

(** A DevTools engine that launches a browser, on a disk that works, and
    fails at everything else: no context can be made. *)
Definition noContext : Eff.Env Playwright.Call :=
  fun A _ c =>
    match c in Playwright.Call T return Outcome T with
    | Playwright.Launch _ _ => Returned 1
    | Playwright.Mkdir _ => Returned tt
    | _ => Thrown (Err "no memory")
    end.

(** A page that does whatever a form asks of it. *)
Definition willingForm : Eff.Env PlaywrightForms.Call :=
  fun A _ c =>
    match c in PlaywrightForms.Call T return Outcome T with
    | PlaywrightForms.Fill _ _ _ _ => Returned tt
    | PlaywrightForms.SelectOption _ _ _ _ => Returned tt
    | PlaywrightForms.Check _ _ _ => Returned tt
    | PlaywrightForms.Uncheck _ _ _ => Returned tt
    | PlaywrightForms.SetInputFiles _ _ _ _ => Returned tt
    end.

(** A page with two list items, the second of which has no text, or
    cannot be read. *)
Definition twoItems (second : Outcome (option string))
  : Eff.Env PlaywrightParser.Call :=
  fun A _ c =>
    match c in PlaywrightParser.Call T return Outcome T with
    | PlaywrightParser.Count _ _ => Returned 2
    | PlaywrightParser.NthTextContent _ _ i =>
        if Nat.eqb i 0 then Returned (Some "  milk ") else second
    | PlaywrightParser.NthGetAttribute _ _ _ _ => Returned None
    end.

End Scenes.

(* ===================================================================== *)
(** ** Observations on traces and fields, for the statements below *)
(* ===================================================================== *)

(** An event that opens no WebDriver session. *)
Definition noBuild (e : Eff.Event Selenium.Call) : bool :=
  match e with
  | Did (Selenium.Build _) => false
  | _ => true
  end.

(** An event that launches no browser. *)
Definition noLaunch (e : Eff.Event Playwright.Call) : bool :=
  match e with
  | Did (Playwright.Launch _ _) => false
  | _ => true
  end.

(** What [findElements] hands back for an answer of the engine: the
    elements found, or nothing when the engine threw. *)
Definition orEmpty {A} (o : Outcome (list A)) : list A :=
  match o with
  | Returned l => l
  | Thrown _ => []
  end.

(** What [findElements] logs for an answer of the engine: nothing when it
    answered, the error line when it threw. *)
Definition scanLog {Call : Type -> Type} {A : Type} (selector : string)
    (o : Outcome A) : list (Eff.Event Call) :=
  match o with
  | Returned _ => []
  | Thrown e =>
      [Logged ErrorLevel ["Elements not found: " +:+ selector; message e]]
  end.

(** The calls of one attempt of [safeClick] at the element [el], in program
    order: locate, wait until enabled, scroll to the centre, pause, click. *)
Definition attemptCalls (d : Selenium.Handle) (sel : string)
    (el : Selenium.Element) : list (Eff.Event Selenium.Call) :=
  [Did (Selenium.WaitLocated d (SeleniumUtils.getSmartSelector sel) 5000%N);
   Did (Selenium.WaitEnabled d el 5000%N);
   Did (Selenium.ExecuteScript d SeleniumUtils.scrollIntoViewScript
          [Selenium.ArgElement el]);
   Did (Selenium.Sleep 500%N);
   Did (Selenium.Click el)].

(** What a failed attempt did: the calls of an attempt up to the one that
    threw, which is the locating wait, the wait until enabled, the scroll
    or the click. *)
Definition failedAttempt (d : Selenium.Handle) (sel : string)
    (t : list (Eff.Event Selenium.Call)) : Prop :=
  exists el k,
    (k = 1 \/ k = 2 \/ k = 3 \/ k = 5) /\ t = firstn k (attemptCalls d sel el).

(** The events of failed attempts in a row, the first of them numbered
    [attempt]; each is given by its calls and by what it threw. An attempt
    leaves its calls, then its warning, then the pause when its number is
    still below the count. *)
Fixpoint failedRun (sel : string) (maxRetries : Js.Number) (delay : N)
    (attempt : nat) (blocks : list (list (Eff.Event Selenium.Call) * Error))
  : list (Eff.Event Selenium.Call) :=
  match blocks with
  | [] => []
  | b :: rest =>
      fst b
      ++ Logged Warn [SeleniumUtils.attemptWarning sel attempt maxRetries (snd b)]
      :: (if Js.ltNumber attempt maxRetries
          then [Did (Selenium.Sleep delay)] else [])
      ++ failedRun sel maxRetries delay (S attempt) rest
  end.

(** The count is a whole number of at least one. *)
Definition countsAttempts (x : Js.Number) : bool :=
  match x with
  | Js.Whole n => Z.leb 1 n
  | _ => false
  end.

(** How [safeClick] settles when every attempt has failed. *)
Definition exhausted (sel : string) (count : Js.Number) : Outcome bool :=
  if countsAttempts count
  then Thrown (Err ("Failed to click " +:+ sel +:+ " after "
                    +:+ Js.showNumber count +:+ " attempts"))
  else Returned false.

(** [m] keeps the relation [R] between the fields before and after, and
    only ever adds to the trace, however it settles. *)
Definition keeps {Call : Type -> Type} {St : Type} (R : St -> St -> Prop)
    {A : Type} (m : Eff.M Call St A) : Prop :=
  forall env w,
    R (this w) (this (snd (m env w))) /\
    exists new, trace (snd (m env w)) = trace w ++ new.

(** The relation that asks nothing of the fields: [keeps anyFields m] only
    says that [m] adds to the trace. *)
Definition anyFields {St : Type} (s s' : St) : Prop := True.

(** The keys of a plain object, in insertion order. *)
Definition keysOf (o : Selenium.Flags) : list string := map fst o.

(** One step of a spread: [o[k] = v] for an entry [(k, v)]. *)
Definition put (o : Selenium.Flags) (kv : string * bool) : Selenium.Flags :=
  Selenium.assign o (fst kv) (snd kv).

(** A record that extends [d]: it starts with the keys of [d], in their
    order, and holds no key twice. *)
Definition extends (d m : Selenium.Flags) : Prop :=
  NoDup (keysOf m) /\
  exists m1 m2, m = m1 ++ m2 /\ keysOf m1 = keysOf d.

(** The options once the [start] of a class has written its entry: the
    entry of that class holds its defaults overridden by what it held, and
    every other entry is as it was. The base class writes none. *)
Definition afterStart (f : SeleniumOps.Family) (o : Selenium.Options)
  : Selenium.Options :=
  match f with
  | SeleniumOps.Base => o
  | SeleniumOps.Chrome =>
      Selenium.set_chromeSpecific
        (Some (Selenium.spread Selenium.chromeDefaults (Selenium.chromeSpecific o))) o
  | SeleniumOps.Edge =>
      Selenium.set_edgeSpecific
        (Some (Selenium.spread Selenium.edgeDefaults (Selenium.edgeSpecific o))) o
  | SeleniumOps.Firefox =>
      Selenium.set_firefoxSpecific
        (Some (Selenium.spread Selenium.firefoxDefaults (Selenium.firefoxSpecific o))) o
  end.

(** The operation is [start]. *)
Definition isStart (op : SeleniumOps.Op) : bool :=
  match op with
  | SeleniumOps.Start => true
  | _ => false
  end.

(** The options record is the same before and after. *)
Definition sameOptions (s s' : Selenium.Driver) : Prop :=
  Selenium.options s' = Selenium.options s.

(** The options record of the DevTools driver is the same before and after. *)
Definition sameOptionsB (s s' : Playwright.Driver) : Prop :=
  Playwright.options s' = Playwright.options s.

(** The serverless binary cannot be had: loading the package fails, or
    asking it for the executable fails. *)
Definition serverlessUnavailable (env : Eff.Env Playwright.Call) : Prop :=
  (forall tr, exists e, env _ tr Playwright.RequireServerlessChromium = Thrown e)
  \/ (forall tr, exists e, env _ tr Playwright.ServerlessExecutablePath = Thrown e).

(** The executable path explicitly configured for the browser the driver
    names: the environment offers one, for a browser named [chromium] or
    [chrome], in [PLAYWRIGHT_CHROMIUM_EXECUTABLE_PATH]. *)
Definition configuredExecutable (penv : string -> option string)
    (o : Playwright.Options) : option string :=
  if Playwright.isChromiumName o
  then penv "PLAYWRIGHT_CHROMIUM_EXECUTABLE_PATH" else None.

(** The launch options [start] arrives at outside a sandbox: the configured
    executable when there is one, no executable path otherwise, which lets
    the engine use its own installation. *)
Definition localLaunch (penv : string -> option string)
    (o : Playwright.Options) : Playwright.LaunchOptions :=
  Playwright.mkLaunch (Playwright.headless o) (Playwright.slowMo o)
    (if Playwright.isChromiumName o then Playwright.chromiumArgs else [])
    (if Js.truthy (configuredExecutable penv o)
     then configuredExecutable penv o else None).

(** The line [start] logs about the choice it made outside a sandbox. *)
Definition localChoice (penv : string -> option string)
    (o : Playwright.Options) : string :=
  if Js.truthy (configuredExecutable penv o)
  then "Using custom Chromium executable: "
       +:+ Js.templ (configuredExecutable penv o)
  else "Using default Playwright browser installation".

(** The first line [start] logs. *)
Definition startingLine (o : Playwright.Options) : string :=
  "Starting " +:+ Playwright.browser o +:+ " browser (headless: "
  +:+ boolText (Playwright.headless o) +:+ ")".

(** Some field name of the form, lower-cased, contains [needle]. *)
Definition someFieldName (form : EnhancedBrowserParser.Form) (needle : string)
  : bool :=
  existsb (fun name => Js.includes name needle)
    (map (fun kv => Js.toLowerCase (fst kv)) (EnhancedBrowserParser.fields form)).

(** The fields whose entry satisfies [p], by name and in the order of the
    form. *)
Definition fieldsWhere (p : EnhancedBrowserParser.Field -> bool)
    (form : EnhancedBrowserParser.Form) : list string :=
  map fst (filter (fun kv => p (snd kv)) (EnhancedBrowserParser.fields form)).

(** The input types the validation analyser takes to carry a pattern, and
    those it takes to carry a length limit. *)
Definition patternType (f : EnhancedBrowserParser.Field) : bool :=
  String.eqb (EnhancedBrowserParser.type_ f) "email"
  || String.eqb (EnhancedBrowserParser.type_ f) "tel"
  || String.eqb (EnhancedBrowserParser.type_ f) "url".

Definition lengthType (f : EnhancedBrowserParser.Field) : bool :=
  String.eqb (EnhancedBrowserParser.type_ f) "password"
  || String.eqb (EnhancedBrowserParser.type_ f) "textarea".

(** The driver with its three browser-specific option entries replaced. *)
Definition withFlags (c e f : option Selenium.Flags) (s : Selenium.Driver)
  : Selenium.Driver :=
  Selenium.set_options
    (Selenium.set_chromeSpecific c
       (Selenium.set_edgeSpecific e
          (Selenium.set_firefoxSpecific f (Selenium.options s)))) s.

(** [m] is blind to the three browser-specific entries: started from the
    same fields and the same history, it settles the same way and leaves the
    same history and the same fields, whatever the entries hold; only the
    entries themselves may end up different. *)
Definition blind {A : Type} (m : Eff.M Selenium.Call Selenium.Driver A) : Prop :=
  forall env s tr, exists out s' tr', forall c e f, exists c' e' f',
    m env (mkWorld (withFlags c e f s) tr)
    = (out, mkWorld (withFlags c' e' f' s') tr').

(** The session of the WebDriver driver, handle and started flag, is the
    same before and after. *)
Definition sameSession (s s' : Selenium.Driver) : Prop :=
  (Selenium.driver s', Selenium.isStarted s')
  = (Selenium.driver s, Selenium.isStarted s).

(** The session of the DevTools driver, its three handles and the started
    flag, is the same before and after. *)
Definition sameSessionB (s s' : Playwright.Driver) : Prop :=
  (Playwright.browser_ s', Playwright.context s', Playwright.page s',
   Playwright.isStarted s')
  = (Playwright.browser_ s, Playwright.context s, Playwright.page s,
     Playwright.isStarted s).

(** A driver that counts as started holds a session handle. *)
Definition hasSessionIfStarted (s : Selenium.Driver) : Prop :=
  Selenium.isStarted s = true -> Selenium.driver s <> None.

(** A warning line, on any interface. *)
Definition isWarn {Call : Type -> Type} (e : Eff.Event Call) : bool :=
  match e with
  | Logged Warn _ => true
  | _ => false
  end.

(** The pauses taken right after a warning, in order, on any interface;
    [pauseOf] tells a pause from other events. *)
Fixpoint pausesAfterWarnings {Call : Type -> Type}
    (pauseOf : Eff.Event Call -> option N) (tr : list (Eff.Event Call))
  : list N :=
  match tr with
  | [] => []
  | e :: tl =>
      match isWarn e, tl with
      | true, next :: _ =>
          match pauseOf next with
          | Some ms => ms :: pausesAfterWarnings pauseOf tl
          | None => pausesAfterWarnings pauseOf tl
          end
      | _, _ => pausesAfterWarnings pauseOf tl
      end
  end.

(** Events of the WebDriver utilities: locating, typing, clearing,
    pausing, closing an alert. *)
Definition locatesH (e : Eff.Event SeleniumHelpers.Call) : bool :=
  match e with
  | Did (SeleniumHelpers.WaitLocated _ _ _) => true
  | _ => false
  end.




Definition closesAlert (e : Eff.Event SeleniumHelpers.Call) : bool :=
  match e with
  | Did (SeleniumHelpers.AlertAccept _) => true
  | Did (SeleniumHelpers.AlertDismiss _) => true
  | _ => false
  end.

(** Events of the DevTools utilities: clicking, pausing, waiting for a
    selector. *)
Definition clicksP (e : Eff.Event PlaywrightHelpers.Call) : bool :=
  match e with
  | Did (PlaywrightHelpers.Click _ _ _ _) => true
  | _ => false
  end.

Definition pauseP (e : Eff.Event PlaywrightHelpers.Call) : option N :=
  match e with
  | Did (PlaywrightHelpers.Sleep ms) => Some ms
  | _ => None
  end.



(** Reading a field's value back. *)
Definition readsValue (e : Eff.Event PlaywrightHelpers.Call) : bool :=
  match e with
  | Did (PlaywrightHelpers.InputValue _ _) => true
  | _ => false
  end.

(** The four directory fields of the WebDriver driver are the same before
    and after. *)
Definition sameDirectories (s s' : Selenium.Driver) : Prop :=
  (Selenium.outputDirectoryBasePath s', Selenium.downloadDirectoryBasePath s',
   Selenium.screenshotsDirectory s', Selenium.videosDirectory s')
  = (Selenium.outputDirectoryBasePath s, Selenium.downloadDirectoryBasePath s,
     Selenium.screenshotsDirectory s, Selenium.videosDirectory s).

(** The four directory fields of the DevTools driver are the same before
    and after. *)
Definition sameDirectoriesB (s s' : Playwright.Driver) : Prop :=
  (Playwright.outputDirectoryBasePath s',
   Playwright.downloadDirectoryBasePath s',
   Playwright.screenshotsDirectory s', Playwright.videosDirectory s')
  = (Playwright.outputDirectoryBasePath s,
     Playwright.downloadDirectoryBasePath s,
     Playwright.screenshotsDirectory s, Playwright.videosDirectory s).

(** An info line, on any interface. *)
Definition isInfo {Call : Type -> Type} (e : Eff.Event Call) : bool :=
  match e with
  | Logged Info _ => true
  | _ => false
  end.





(* ===================================================================== *)
(** * Properties *)
(* ===================================================================== *)

(** ** Strings *)

Lemma prefix_char (c d : ascii) (s : string) :
  String.prefix (String c EmptyString) (String d s) = Ascii.eqb c d.
Proof.
  simpl. destruct (ascii_dec c d) as [->|n].
  - rewrite Ascii.eqb_refl. now destruct s.
  - symmetry. now apply Ascii.eqb_neq.
Qed.

Lemma includes_char_cons (c d : ascii) (s : string) :
  Js.includes (String d s) (String c EmptyString)
  = Ascii.eqb c d || Js.includes s (String c EmptyString).
Proof. cbn [Js.includes]. now rewrite prefix_char. Qed.

Lemma includes_char_nil (c : ascii) :
  Js.includes EmptyString (String c EmptyString) = false.
Proof. reflexivity. Qed.

Lemma includes_char_app (c : ascii) (a b : string) :
  Js.includes (a +:+ b) (String c EmptyString)
  = Js.includes a (String c EmptyString) || Js.includes b (String c EmptyString).
Proof.
  induction a as [|d a IH]; [reflexivity|].
  change (String d a +:+ b) with (String d (a +:+ b)).
  rewrite !includes_char_cons, IH. now rewrite orb_assoc.
Qed.

Lemma split_nonempty (sep : ascii) (s : string) : Js.split sep s <> [].
Proof.
  destruct s as [|c s]; simpl; [discriminate|].
  destruct (Ascii.eqb c sep); [discriminate|].
  destruct (Js.split sep s); discriminate.
Qed.

(** Joining the pieces gives the string back. *)
Lemma join_split (sep : ascii) (s : string) : Js.join sep (Js.split sep s) = s.
Proof.
  induction s as [|c s IH]; [reflexivity|].
  simpl. destruct (Ascii.eqb c sep) eqn:E.
  - apply Ascii.eqb_eq in E. subst c.
    destruct (Js.split sep s) eqn:Es; [now apply split_nonempty in Es|].
    change (Js.join sep (EmptyString :: s0 :: l))
      with (String sep (Js.join sep (s0 :: l))).
    now rewrite IH.
  - destruct (Js.split sep s) as [|hd tl] eqn:Es; [now apply split_nonempty in Es|].
    destruct tl as [|x tl].
    + simpl in *. now rewrite IH.
    + change (Js.join sep (String c hd :: x :: tl))
        with (String c (hd +:+ String sep (Js.join sep (x :: tl)))).
      f_equal. exact IH.
Qed.

(** No piece contains the separator. *)
Lemma split_pieces_clean (sep : ascii) (s : string) :
  Forall (fun p => Js.includes p (String sep EmptyString) = false)
         (Js.split sep s).
Proof.
  induction s as [|c s IH]; simpl.
  - constructor; [reflexivity|constructor].
  - destruct (Ascii.eqb c sep) eqn:E.
    + constructor; [reflexivity|exact IH].
    + destruct (Js.split sep s) as [|h t] eqn:Es.
      * constructor; [|constructor].
        rewrite includes_char_cons, includes_char_nil, Ascii.eqb_sym, E.
        reflexivity.
      * inversion IH; subst. constructor; [|assumption].
        rewrite includes_char_cons, Ascii.eqb_sym, E. simpl. assumption.
Qed.

(** A string that contains the separator splits into at least two pieces. *)
Lemma split_two (sep : ascii) (s : string) :
  Js.includes s (String sep EmptyString) = true ->
  exists a v r, Js.split sep s = a :: v :: r.
Proof.
  induction s as [|c s IH]; intros H.
  - discriminate.
  - rewrite includes_char_cons in H. simpl.
    destruct (Ascii.eqb c sep) eqn:E.
    + destruct (Js.split sep s) as [|h t] eqn:Es; [now apply split_nonempty in Es|].
      now exists EmptyString, h, t.
    + rewrite Ascii.eqb_sym, E in H. simpl in H.
      destruct (IH H) as (a & v & r & Hs). rewrite Hs.
      now exists (String c a), v, r.
Qed.

(** Putting a bracket in front moves the first [=] one place to the right. *)
Lemma bracket_shift (a x y : string) :
  "[" +:+ a +:+ "=" +:+ x <> a +:+ "=" +:+ y.
Proof.
  revert x y. induction a as [|c a IH]; intros x y H.
  - discriminate.
  - change ("[" +:+ String c a +:+ "=" +:+ x)
      with (String "[" (String c (a +:+ "=" +:+ x))) in H.
    change (String c a +:+ "=" +:+ y) with (String c (a +:+ "=" +:+ y)) in H.
    inversion H; subst. apply (IH x y). assumption.
Qed.

(** ** The inline resolvers of the WebDriver driver *)

(** Whenever a selector splits at [=], the attribute-equality CSS built from
    its first two pieces differs from the selector itself. *)
Lemma attrEqualsCss_differs (selector attr value : string) (rest : list string) :
  Js.split "=" selector = attr :: value :: rest ->
  attrEqualsCss (Js.split "=" selector) <> selector.
Proof.
  intros Hs Heq. rewrite Hs in Heq. unfold attrEqualsCss in Heq. simpl in Heq.
  pose proof (join_split "=" selector) as Hj. rewrite Hs in Hj.
  change (Js.join "=" (attr :: value :: rest))
    with (attr +:+ "=" +:+ Js.join "=" (value :: rest)) in Hj.
  rewrite <- Hj in Heq.
  exact (bracket_shift attr _ _ Heq).
Qed.

(** C10. In the WebDriver driver, a selector that passes the XPath, [#] and
    [.] checks and contains [=] is resolved by [findElement] as
    attribute-equality CSS built from the text before the first [=] and the
    text between the first and the second [=] (whatever follows is dropped,
    and brackets or spaces do not exclude it), while [findElements] passes
    the same selector through as raw CSS; the two locators are never the
    same, and when the selector holds a bracket or a space the smart
    selector of [SeleniumUtils] does not agree with [findElement] either. *)
Theorem findElement_findElements_diverge (selector : string) :
  Js.startsWith selector "//" = false ->
  Js.startsWith selector "(//" = false ->
  Js.startsWith selector "#" = false ->
  Js.startsWith selector "." = false ->
  Js.includes selector "=" = true ->
  exists attr value rest,
    Js.split "=" selector = attr :: value :: rest /\
    Js.includes attr "=" = false /\
    Js.includes value "=" = false /\
    selector = attr +:+ "=" +:+ Js.join "=" (value :: rest) /\
    DriverLocators.findElement_by selector
    = By_css ("[" +:+ attr +:+ "=" +:+ Js.dq +:+ value +:+ Js.dq +:+ "]") /\
    DriverLocators.findElements_by selector = By_css selector /\
    DriverLocators.findElement_by selector
    <> DriverLocators.findElements_by selector /\
    (Js.includes selector "[" = true \/ Js.includes selector " " = true ->
     SeleniumUtils.getSmartSelector selector
     <> DriverLocators.findElement_by selector).
Proof.
  intros H1 H2 H3 H4 H5.
  destruct (split_two "=" selector H5) as (attr & value & rest & Hs).
  exists attr, value, rest.
  pose proof (split_pieces_clean "=" selector) as Hc. rewrite Hs in Hc.
  inversion Hc as [|? ? Ha Hc']; subst. inversion Hc' as [|? ? Hv _]; subst.
  pose proof (attrEqualsCss_differs selector attr value rest Hs) as Hd.
  assert (Hfe : DriverLocators.findElement_by selector
                = By_css (attrEqualsCss (Js.split "=" selector))).
  { unfold DriverLocators.findElement_by. now rewrite H1, H2, H3, H4, H5. }
  assert (Hfs : DriverLocators.findElements_by selector = By_css selector).
  { unfold DriverLocators.findElements_by. now rewrite H1, H2, H3, H4. }
  repeat split; try assumption.
  - pose proof (join_split "=" selector) as Hj. now rewrite Hs in Hj.
  - rewrite Hfe, Hs. reflexivity.
  - rewrite Hfe, Hfs. intros E. inversion E. contradiction.
  - intros Hbs. rewrite Hfe. unfold SeleniumUtils.getSmartSelector.
    rewrite H1, H2, H3, H4, H5. simpl.
    assert (Hg : negb (Js.includes selector "[")
                 && negb (Js.includes selector " ") = false).
    { destruct Hbs as [-> | ->]; [reflexivity|]. now rewrite andb_false_r. }
    rewrite Hg.
    destruct (Js.startsWith selector "text:"); [discriminate|].
    destruct (Js.startsWith selector "partial-text:"); [discriminate|].
    intros E. inversion E as [E']. symmetry in E'. contradiction.
Qed.

(** C10 at the bare selector [name=value]. *)
Lemma findElement_findElements_diverge_witness :
  exists attr value rest,
    Js.split "=" "name=value" = attr :: value :: rest /\
    Js.includes attr "=" = false /\
    Js.includes value "=" = false /\
    "name=value" = attr +:+ "=" +:+ Js.join "=" (value :: rest) /\
    DriverLocators.findElement_by "name=value"
    = By_css ("[" +:+ attr +:+ "=" +:+ Js.dq +:+ value +:+ Js.dq +:+ "]") /\
    DriverLocators.findElements_by "name=value" = By_css "name=value" /\
    DriverLocators.findElement_by "name=value"
    <> DriverLocators.findElements_by "name=value" /\
    (Js.includes "name=value" "[" = true \/ Js.includes "name=value" " " = true ->
     SeleniumUtils.getSmartSelector "name=value"
     <> DriverLocators.findElement_by "name=value").
Proof.
  apply (findElement_findElements_diverge "name=value"); reflexivity.
Defined.

Example findElement_drops_after_second_eq :
  DriverLocators.findElement_by "a=b=c"
  = By_css ("[a=" +:+ Js.dq +:+ "b" +:+ Js.dq +:+ "]").
Proof. reflexivity. Qed.

Example findElement_takes_bracketed :
  DriverLocators.findElement_by "input[name=q]"
  = By_css ("[input[name=" +:+ Js.dq +:+ "q]" +:+ Js.dq +:+ "]").
Proof. reflexivity. Qed.

Example findElements_passes_bare_attr :
  DriverLocators.findElements_by "name=value" = By_css "name=value".
Proof. reflexivity. Qed.

(** ** The smart selector against the specification's rule order *)

Lemma attrRule_app (p v : string) :
  Js.includes p "=" = false ->
  Js.includes p "[" = false ->
  Js.includes p " " = false ->
  Spec.attrRule (p +:+ v) = Spec.attrRule v.
Proof.
  intros He Hb Hs. unfold Spec.attrRule.
  rewrite !includes_char_app, He, Hb, Hs. reflexivity.
Qed.

(** Splitting after a prefix that holds no separator: the prefix stays on
    the first piece. *)
Lemma split_app_clean (sep : ascii) (p v : string) :
  Js.includes p (String sep EmptyString) = false ->
  exists hd tl, Js.split sep v = hd :: tl /\
                Js.split sep (p +:+ v) = (p +:+ hd) :: tl.
Proof.
  induction p as [|c p IH]; intros Hp.
  - destruct (Js.split sep v) as [|hd tl] eqn:E; [now apply split_nonempty in E|].
    now exists hd, tl.
  - rewrite includes_char_cons in Hp. apply orb_false_iff in Hp as [Hc Hp].
    destruct (IH Hp) as (hd & tl & Hv & Hpv). exists hd, tl. split; [exact Hv|].
    change (String c p +:+ v) with (String c (p +:+ v)). simpl.
    rewrite Ascii.eqb_sym, Hc, Hpv. reflexivity.
Qed.

(** A string that starts with a non-empty prefix starts with its first
    character. *)
Lemma startsWith_head (raw p : string) (c : ascii) :
  Js.startsWith raw (String c p) = true -> exists r, raw = String c r.
Proof.
  unfold Js.startsWith. destruct raw as [|d raw]; simpl; [discriminate|].
  destruct (ascii_dec c d); [subst d; eauto|discriminate].
Qed.

(** Two prefixes with different first characters exclude each other. *)
Lemma startsWith_exclusive (raw p q : string) (c d : ascii) :
  c <> d ->
  Js.startsWith raw (String c p) = true ->
  Js.startsWith raw (String d q) = false.
Proof.
  intros Hcd Hp. destruct (startsWith_head _ _ _ Hp) as [r ->].
  unfold Js.startsWith. simpl. destruct (ascii_dec d c); [congruence|reflexivity].
Qed.

(** A string caught by one of the first three rules matches no text prefix. *)
Lemma early_rules_exclude_text (raw : string) :
  (Js.startsWith raw "//" || Js.startsWith raw "(//") = true
  \/ Js.startsWith raw "#" = true \/ Js.startsWith raw "." = true ->
  Spec.textRule raw = false.
Proof.
  unfold Spec.textRule. intros H. apply orb_false_iff.
  destruct H as [H|[H|H]].
  - apply orb_true_iff in H as [H|H];
      split; eapply startsWith_exclusive; try exact H; discriminate.
  - split; eapply startsWith_exclusive; try exact H; discriminate.
  - split; eapply startsWith_exclusive; try exact H; discriminate.
Qed.

(** The code and the specification's order give the same locator exactly on
    the strings that do not match both the text rule and the bare
    [attr=value] rule. *)
Lemma getSmartSelector_vs_spec (raw : string) :
  SeleniumUtils.getSmartSelector raw = Spec.resolve raw
  <-> Spec.textRule raw && Spec.attrRule raw = false.
Proof.
  unfold SeleniumUtils.getSmartSelector, Spec.resolve.
  destruct (Js.startsWith raw "//" || Js.startsWith raw "(//") eqn:Hx.
  { rewrite early_rules_exclude_text by auto. split; reflexivity. }
  destruct (Js.startsWith raw "#") eqn:Hh.
  { rewrite early_rules_exclude_text by auto. split; reflexivity. }
  destruct (Js.startsWith raw ".") eqn:Hd.
  { rewrite early_rules_exclude_text by auto. split; reflexivity. }
  unfold Spec.textRule, Spec.attrRule.
  destruct (Js.includes raw "=" && negb (Js.includes raw "[")
            && negb (Js.includes raw " ")) eqn:Ha.
  - destruct (Js.startsWith raw "text:") eqn:Ht;
      [split; discriminate|].
    destruct (Js.startsWith raw "partial-text:") eqn:Hp;
      [split; discriminate|].
    split; reflexivity.
  - rewrite andb_false_r. split; reflexivity.
Qed.

(** C1. The rules of the smart selector do not apply in the order the
    specification lists: on [text:a=b], which matches both the text rule
    and the bare [attr=value] rule, the code answers with the
    attribute-equality CSS [[text:a="b"]] where the listed order gives the
    contains-based text XPath. *)
Theorem getSmartSelector_text_with_equals :
  Spec.textRule "text:a=b" = true /\
  Spec.attrRule "text:a=b" = true /\
  SeleniumUtils.getSmartSelector "text:a=b"
  = By_css ("[text:a=" +:+ Js.dq +:+ "b" +:+ Js.dq +:+ "]") /\
  Spec.resolve "text:a=b"
  = By_xpath ("//*[contains(text(), " +:+ Js.dq +:+ "a=b" +:+ Js.dq +:+ ")]") /\
  SeleniumUtils.getSmartSelector "text:a=b" <> Spec.resolve "text:a=b".
Proof.
  assert (Hboth : Spec.textRule "text:a=b" && Spec.attrRule "text:a=b" = true)
    by reflexivity.
  split; [reflexivity|]. split; [reflexivity|].
  split; [reflexivity|]. split; [reflexivity|].
  intros Heq. apply getSmartSelector_vs_spec in Heq.
  rewrite Heq in Hboth. discriminate.
Qed.

Example smart_id : SeleniumUtils.getSmartSelector "#foo" = By_id "foo".
Proof. reflexivity. Qed.

Example smart_class : SeleniumUtils.getSmartSelector ".bar" = By_className "bar".
Proof. reflexivity. Qed.

Example smart_xpath :
  SeleniumUtils.getSmartSelector "//div[@id='x']" = By_xpath "//div[@id='x']".
Proof. reflexivity. Qed.

Example smart_testid :
  SeleniumUtils.getSmartSelector "data-testid=login"
  = By_css ("[data-testid=" +:+ Js.dq +:+ "login" +:+ Js.dq +:+ "]").
Proof. reflexivity. Qed.

Example smart_text :
  SeleniumUtils.getSmartSelector "text:Sign in"
  = By_xpath ("//*[contains(text(), " +:+ Js.dq +:+ "Sign in" +:+ Js.dq +:+ ")]").
Proof. reflexivity. Qed.

Example smart_css : SeleniumUtils.getSmartSelector "div > a" = By_css "div > a".
Proof. reflexivity. Qed.

Example selectorInfo_id :
  PlaywrightUtils.getSelectorInfo "#foo" = PlaywrightUtils.mkInfo "css" "#foo" "css".
Proof. reflexivity. Qed.

Example selectorInfo_role :
  PlaywrightUtils.getSelectorInfo "role=button"
  = PlaywrightUtils.mkInfo "role" "role=button" "role".
Proof. reflexivity. Qed.

(** ** The two text prefixes *)

(** Both text prefixes give the same contains-based XPath for every value
    the bare [attr=value] rule does not catch, and different locators for
    every value it does catch. *)
Lemma text_prefixes_agree_iff (value : string) :
  SeleniumUtils.getSmartSelector ("text:" +:+ value)
  = SeleniumUtils.getSmartSelector ("partial-text:" +:+ value)
  <-> Spec.attrRule value = false.
Proof.
  assert (Ht : Spec.attrRule ("text:" +:+ value) = Spec.attrRule value)
    by (now apply attrRule_app).
  assert (Hp : Spec.attrRule ("partial-text:" +:+ value) = Spec.attrRule value)
    by (now apply attrRule_app).
  unfold Spec.attrRule in Ht, Hp.
  unfold SeleniumUtils.getSmartSelector.
  change (Js.startsWith ("text:" +:+ value) "//") with false.
  change (Js.startsWith ("text:" +:+ value) "(//") with false.
  change (Js.startsWith ("text:" +:+ value) "#") with false.
  change (Js.startsWith ("text:" +:+ value) ".") with false.
  change (Js.startsWith ("partial-text:" +:+ value) "//") with false.
  change (Js.startsWith ("partial-text:" +:+ value) "(//") with false.
  change (Js.startsWith ("partial-text:" +:+ value) "#") with false.
  change (Js.startsWith ("partial-text:" +:+ value) ".") with false.
  cbn [orb]. rewrite Ht, Hp. unfold Spec.attrRule.
  destruct (Js.includes value "=" && negb (Js.includes value "[")
            && negb (Js.includes value " ")) eqn:Ha.
  - split; [|discriminate]. intros E. exfalso.
    destruct (split_app_clean "=" "text:" value eq_refl) as (h1 & t1 & Hv1 & H1).
    destruct (split_app_clean "=" "partial-text:" value eq_refl)
      as (h2 & t2 & Hv2 & H2).
    rewrite H1, H2 in E. unfold attrEqualsCss in E. simpl in E. discriminate.
  - split; [reflexivity|intros _].
    change (Js.startsWith ("text:" +:+ value) "text:")
      with (String.prefix "" value).
    change (Js.startsWith ("partial-text:" +:+ value) "text:") with false.
    change (Js.startsWith ("partial-text:" +:+ value) "partial-text:")
      with (String.prefix "" value).
    assert (Hn : String.prefix "" value = true) by (now destruct value).
    rewrite Hn. reflexivity.
Qed.

(** C8. The two text prefixes do not resolve alike for every value: for the
    value [a=b] the code answers [text:a=b] with the CSS [[text:a="b"]] and
    [partial-text:a=b] with the CSS [[partial-text:a="b"]], two different
    locators and neither of them the contains-based XPath. *)
Theorem text_prefixes_differ_on_equals :
  Spec.attrRule "a=b" = true /\
  SeleniumUtils.getSmartSelector ("text:" +:+ "a=b")
  = By_css ("[text:a=" +:+ Js.dq +:+ "b" +:+ Js.dq +:+ "]") /\
  SeleniumUtils.getSmartSelector ("partial-text:" +:+ "a=b")
  = By_css ("[partial-text:a=" +:+ Js.dq +:+ "b" +:+ Js.dq +:+ "]") /\
  SeleniumUtils.getSmartSelector ("text:" +:+ "a=b")
  <> SeleniumUtils.getSmartSelector ("partial-text:" +:+ "a=b").
Proof.
  split; [reflexivity|]. split; [reflexivity|]. split; [reflexivity|].
  discriminate.
Qed.

Example text_prefixes_same_xpath :
  SeleniumUtils.getSmartSelector "text:Log in"
  = SeleniumUtils.getSmartSelector "partial-text:Log in".
Proof. reflexivity. Qed.

(** ** Artifact file names *)

Lemma digit_plain (d : nat) :
  Ascii.eqb (Clock.digit d) ":" = false /\
  Ascii.eqb (Clock.digit d) "." = false /\
  Ascii.eqb (Clock.digit d) "T" = false.
Proof.
  unfold Clock.digit. pose proof (Nat.mod_upper_bound d 10) as H.
  remember (d mod 10) as k eqn:Ek. clear Ek.
  do 10 (destruct k as [|k]; [repeat split; reflexivity|]).
  exfalso. lia.
Qed.

Lemma digit_inj (a b : nat) :
  Clock.digit a = Clock.digit b -> a mod 10 = b mod 10.
Proof.
  unfold Clock.digit. intros H.
  pose proof (Nat.mod_upper_bound a 10) as Ha.
  pose proof (Nat.mod_upper_bound b 10) as Hb.
  apply (f_equal nat_of_ascii) in H.
  rewrite !nat_ascii_embedding in H by lia. lia.
Qed.

(** The two replacements and the slice turn the ISO string into the stamp:
    colons and the dot become dashes, the [T] an underscore, and the
    milliseconds with the [Z] are cut off. *)
Lemma timestamp_is_stamp (t : UTCTime) :
  Clock.sliceEnd 5
    (Clock.replaceFirstT (Clock.replaceColonDot (Clock.toISOString t)))
  = Clock.stamp t.
Proof.
  unfold Clock.toISOString, Clock.stamp, Clock.pad4, Clock.pad3, Clock.pad2.
  cbn [String.append Clock.replaceColonDot].
  repeat match goal with
         | |- context [Ascii.eqb (Clock.digit ?d) ":"] =>
             rewrite (proj1 (digit_plain d))
         | |- context [Ascii.eqb (Clock.digit ?d) "."] =>
             rewrite (proj1 (proj2 (digit_plain d)))
         end.
  cbn [Ascii.eqb Bool.eqb orb Clock.replaceFirstT].
  repeat match goal with
         | |- context [Ascii.eqb (Clock.digit ?d) "T"] =>
             rewrite (proj2 (proj2 (digit_plain d)))
         end.
  cbn [Ascii.eqb Bool.eqb Clock.replaceFirstT].
  reflexivity.
Qed.

Lemma append_inv_head (x a b : string) : x +:+ a = x +:+ b -> a = b.
Proof.
  induction x as [|c x IH]; simpl; intros H; [exact H|].
  inversion H. auto.
Qed.

(** Fixed-width decimal fields determine the number they print. *)
Lemma two_digits (n : nat) :
  n < 100 -> n = n mod 10 + 10 * ((n / 10) mod 10).
Proof.
  intros H. rewrite <- (Nat.Div0.mod_mul_r n 10 10).
  symmetry. apply Nat.mod_small. exact H.
Qed.

Lemma four_digits (n : nat) :
  n < 10 * 1000 ->
  n = n mod 10 + 10 * ((n / 10) mod 10)
      + 100 * ((n / 100) mod 10 + 10 * ((n / 1000) mod 10)).
Proof.
  intros H.
  assert (E : n = n mod 100 + 100 * ((n / 100) mod 100)).
  { rewrite <- (Nat.Div0.mod_mul_r n 100 100). symmetry.
    apply Nat.mod_small. lia. }
  rewrite E at 1. f_equal.
  - change 100 with (10 * 10) at 1. apply Nat.Div0.mod_mul_r.
  - f_equal. change 100 with (10 * 10) at 2. rewrite Nat.Div0.mod_mul_r.
    rewrite Nat.Div0.div_div. reflexivity.
Qed.

Lemma two_digits_inj (a b : nat) :
  a < 100 -> b < 100 ->
  (a / 10) mod 10 = (b / 10) mod 10 -> a mod 10 = b mod 10 -> a = b.
Proof.
  intros Ha Hb H1 H0. rewrite (two_digits a Ha), (two_digits b Hb).
  now rewrite H1, H0.
Qed.

Lemma four_digits_inj (a b : nat) :
  a < 10 * 1000 -> b < 10 * 1000 ->
  (a / 1000) mod 10 = (b / 1000) mod 10 ->
  (a / 100) mod 10 = (b / 100) mod 10 ->
  (a / 10) mod 10 = (b / 10) mod 10 ->
  a mod 10 = b mod 10 -> a = b.
Proof.
  intros Ha Hb H3 H2 H1 H0. rewrite (four_digits a Ha), (four_digits b Hb).
  now rewrite H3, H2, H1, H0.
Qed.

Lemma generateFilename_stamped (path : PathLib) (now : UTCTime) (baseName : string) :
  _generateFilename path now baseName true
  = basename path baseName (extname path baseName) +:+ "_"
    +:+ Clock.stamp now +:+ extname path baseName.
Proof. unfold _generateFilename. now rewrite timestamp_is_stamp. Qed.

Lemma stamp_sameSecond (a b : UTCTime) :
  Clock.sameSecond a b -> Clock.stamp a = Clock.stamp b.
Proof.
  intros (Hy & Hmo & Hd & Hh & Hmi & Hs). unfold Clock.stamp.
  now rewrite Hy, Hmo, Hd, Hh, Hmi, Hs.
Qed.

Lemma stamp_inj (a b : UTCTime) (e : string) :
  Clock.wellFormed a -> Clock.wellFormed b ->
  Clock.stamp a +:+ e = Clock.stamp b +:+ e -> Clock.sameSecond a b.
Proof.
  intros (Ay & Amo & Ad & Ah & Ami & As & _) (By_ & Bmo & Bd & Bh & Bmi & Bs & _) H.
  unfold Clock.stamp, Clock.pad4, Clock.pad3, Clock.pad2 in H.
  cbn [String.append] in H.
  repeat match goal with
         | E : String _ _ = String _ _ |- _ => injection E; clear E; intros
         end.
  repeat match goal with
         | E : Clock.digit _ = Clock.digit _ |- _ => apply digit_inj in E
         end.
  repeat split;
    first [ apply four_digits_inj; assumption | apply two_digits_inj; assumption ].
Qed.

(** C7. With time-stamping disabled the base name comes back unchanged,
    whatever the instant, so repeated captures to one name give one file
    name; with time-stamping enabled the name is the base name without its
    extension, an underscore, the instant as [YYYY-MM-DD_HH-mm-ss] (the ISO
    string with colons and dot turned into dashes, cut to whole seconds),
    and the original extension; and for one base name two stamped names
    coincide exactly when the two instants lie in the same second. *)
Theorem generateFilename_naming (path : PathLib) (baseName : string)
    (a b : UTCTime) :
  Clock.wellFormed a -> Clock.wellFormed b ->
  _generateFilename path a baseName false = baseName /\
  _generateFilename path a baseName false = _generateFilename path b baseName false /\
  _generateFilename path a baseName true
  = basename path baseName (extname path baseName) +:+ "_"
    +:+ Clock.stamp a +:+ extname path baseName /\
  (_generateFilename path a baseName true = _generateFilename path b baseName true
   <-> Clock.sameSecond a b).
Proof.
  intros Ha Hb. split; [reflexivity|]. split; [reflexivity|].
  split; [apply generateFilename_stamped|].
  rewrite !generateFilename_stamped. split.
  - intros H. apply append_inv_head in H.
    apply (append_inv_head "_") in H.
    exact (stamp_inj a b (extname path baseName) Ha Hb H).
  - intros H. now rewrite (stamp_sameSecond a b H).
Qed.

(** C7 on [shot.png], at two instants of one second. *)
Lemma generateFilename_naming_witness :
  Clock.wellFormed Sample.t0 /\ Clock.wellFormed Sample.t0' /\
  _generateFilename Sample.path Sample.t0 "shot.png" false = "shot.png" /\
  _generateFilename Sample.path Sample.t0 "shot.png" false
  = _generateFilename Sample.path Sample.t0' "shot.png" false /\
  _generateFilename Sample.path Sample.t0 "shot.png" true
  = basename Sample.path "shot.png" (extname Sample.path "shot.png") +:+ "_"
    +:+ Clock.stamp Sample.t0 +:+ extname Sample.path "shot.png" /\
  (_generateFilename Sample.path Sample.t0 "shot.png" true
   = _generateFilename Sample.path Sample.t0' "shot.png" true
   <-> Clock.sameSecond Sample.t0 Sample.t0').
Proof.
  assert (H0 : Clock.wellFormed Sample.t0) by (unfold Clock.wellFormed; simpl; lia).
  assert (H1 : Clock.wellFormed Sample.t0') by (unfold Clock.wellFormed; simpl; lia).
  split; [exact H0|]. split; [exact H1|].
  exact (generateFilename_naming Sample.path "shot.png" Sample.t0 Sample.t0' H0 H1).
Defined.

Example generateFilename_example :
  _generateFilename Sample.path Sample.t0 "shot.png" true
  = "shot_2024-01-15_10-30-45.png".
Proof. reflexivity. Qed.

Example generateFilename_same_second :
  _generateFilename Sample.path Sample.t0' "shot.png" true
  = "shot_2024-01-15_10-30-45.png".
Proof. reflexivity. Qed.

Example generateFilename_next_second :
  _generateFilename Sample.path Sample.t1 "shot.png" true
  = "shot_2024-01-15_10-30-46.png".
Proof. reflexivity. Qed.

Example toISOString_example :
  Clock.toISOString Sample.t0 = "2024-01-15T10:30:45.123Z".
Proof. reflexivity. Qed.

(** ** Running the model *)

(** Unfolds the monadic plumbing so that a method applied to a world
    computes. *)
Ltac eff :=
  unfold void, Selenium.M, Playwright.M, SeleniumUtils.M in *;
  cbv beta iota zeta delta [Eff.bind Eff.ret Eff.throw Eff.try_catch Eff.get
                            Eff.modify Eff.log Eff.call Eff.settle
                            SeleniumUtils.wait] in *;
  cbn [Eff.this Eff.trace fst snd] in *.

(** ** The lifecycle guard *)

Lemma Selenium_ensureStarted_throws (env : Eff.Env Selenium.Call)
    (w : Eff.World Selenium.Call Selenium.Driver) :
  Selenium.isStarted (this w) = false ->
  Selenium._ensureStarted env w = (Thrown NotStarted, w).
Proof. intros H. unfold Selenium._ensureStarted. eff. now rewrite H. Qed.

Lemma Playwright_ensureStarted_throws (env : Eff.Env Playwright.Call)
    (w : Eff.World Playwright.Call Playwright.Driver) :
  Playwright.isStarted (this w) = false ->
  Playwright._ensureStarted env w = (Thrown NotStarted, w).
Proof. intros H. unfold Playwright._ensureStarted. eff. now rewrite H. Qed.

(** On the WebDriver driver every interaction other than the two video
    stubs fails fast when the driver is not started: it throws the
    not-started error, calls nothing, logs nothing and changes no field.
    This holds for the base class and for the three subclasses. *)
Lemma Selenium_fail_fast (path : PathLib) (root : string)
    (f : SeleniumOps.Family) (op : SeleniumOps.Op)
    (env : Eff.Env Selenium.Call) (w : Eff.World Selenium.Call Selenium.Driver) :
  SeleniumOps.isInteraction op = true ->
  SeleniumOps.isVideoStub op = false ->
  Selenium.isStarted (this w) = false ->
  SeleniumOps.run path root f op env w = (Thrown NotStarted, w).
Proof.
  intros Hi Hv Hs. pose proof (Selenium_ensureStarted_throws env w Hs) as G.
  destruct op; try discriminate; cbn [SeleniumOps.run]; unfold void;
    match goal with
    | |- bind ?m _ env w = _ =>
        let m' := eval hnf in m in
        change m with m'
    end;
    unfold bind at 1; unfold bind at 1; now rewrite G.
Qed.

(** On the DevTools driver every interaction, video recording included,
    fails fast when the driver is not started. *)
Lemma Playwright_fail_fast (path : PathLib) (root : string)
    (penv : string -> option string) (op : PlaywrightOps.Op)
    (env : Eff.Env Playwright.Call)
    (w : Eff.World Playwright.Call Playwright.Driver) :
  PlaywrightOps.isInteraction op = true ->
  Playwright.isStarted (this w) = false ->
  PlaywrightOps.run path root penv op env w = (Thrown NotStarted, w).
Proof.
  intros Hi Hs. pose proof (Playwright_ensureStarted_throws env w Hs) as G.
  destruct op; try discriminate; cbn [PlaywrightOps.run]; unfold void;
    match goal with
    | |- bind ?m _ env w = _ =>
        let m' := eval hnf in m in
        change m with m'
    end;
    unfold bind at 1; unfold bind at 1; now rewrite G.
Qed.

(** C2. The lifecycle guard is missing from [startVideoRecording] of the
    WebDriver driver: on a freshly constructed driver, which is not
    started, the call first asks the file system to create the videos
    directory and then throws an error that is not the not-started error;
    the same call on a freshly constructed DevTools driver throws the
    not-started error at once and does nothing. *)
Theorem startVideoRecording_runs_before_start
    (path : PathLib) (root : string) (penv : string -> option string)
    (u : Selenium.UserOptions) (u' : Playwright.UserOptions)
    (envS : Eff.Env Selenium.Call) (envP : Eff.Env Playwright.Call)
    (filename : string) (includeTimestamp : bool) :
  let wS := mkWorld (Selenium.construct path root u) [] in
  let wP := mkWorld (Playwright.construct path root u') [] in
  let videos :=
    resolve path
      (Selenium.anchored path root (Selenium.anchored path root
         (Selenium.outputPath (Selenium.mergeOptions u))))
      Selenium.DEFAULT_VIDEOS_DIRECTORY in
  Selenium.isStarted (this wS) = false /\
  (exists e w',
     Selenium.startVideoRecording path root filename None None
       includeTimestamp envS wS = (Thrown e, w') /\
     e <> NotStarted /\
     exists rest, trace w' = Did (Selenium.Mkdir videos) :: rest) /\
  Playwright.startVideoRecording filename None None includeTimestamp envP wP
  = (Thrown NotStarted, wP).
Proof.
  cbv zeta. split; [reflexivity|]. split.
  - unfold Selenium.startVideoRecording, Selenium.createVideosDirectory. eff.
    cbn [stringOr Js.truthy Selenium.outputDirectoryBasePath
         Selenium.videosDirectory Selenium.construct app].
    match goal with
    | |- context [envS unit ?t ?c] => destruct (envS unit t c) as [[]|e0]
    end.
    + eexists; eexists. split; [reflexivity|]. split; [discriminate|].
      eexists. reflexivity.
    + eexists; eexists. split; [reflexivity|]. split; [discriminate|].
      eexists. reflexivity.
  - unfold Playwright.startVideoRecording.
    unfold bind at 1. unfold bind at 1.
    now rewrite Playwright_ensureStarted_throws.
Qed.

Example startVideoRecording_fresh_selenium :
  Selenium.startVideoRecording Sample.path Sample.projectRoot "recording.mp4"
    None None true Sample.calmSelenium Sample.freshSelenium
  = (Thrown (Err "Video recording not yet implemented. Use startVideoRecording() when this feature is added."),
     mkWorld (this Sample.freshSelenium)
       [Did (Selenium.Mkdir "/app/./output/videos");
        Logged Info ["Videos output directory created: /app/./output/videos"]]).
Proof. reflexivity. Qed.

Example stopVideoRecording_fresh_selenium :
  Selenium.stopVideoRecording Sample.calmSelenium Sample.freshSelenium
  = (Thrown (Err "Video recording not yet implemented. Use stopVideoRecording() when this feature is added."),
     Sample.freshSelenium).
Proof. reflexivity. Qed.

Example click_fresh_selenium :
  Selenium.click "#go" None Sample.calmSelenium Sample.freshSelenium
  = (Thrown NotStarted, Sample.freshSelenium).
Proof. reflexivity. Qed.

(** ** Plural and singular lookups *)

(** C4. On a driver that passes the lifecycle guard (started, and holding
    its session or page) and for every selector, [findElements] never
    throws: it asks the engine once and returns the elements found, or,
    when the engine throws, logs the error and returns the empty list, with
    every field unchanged; and [findElement], when the engine's wait finds
    no element (it throws, or on the DevTools driver answers with no
    element), throws the not-found error naming the selector. On a driver
    the guard refuses, both throw the not-started error before they look
    for anything: that is the lifecycle guard, not a failure to locate. *)
Theorem findElements_returns_findElement_throws
    (envS : Eff.Env Selenium.Call) (envP : Eff.Env Playwright.Call)
    (wS : Eff.World Selenium.Call Selenium.Driver)
    (wP : Eff.World Playwright.Call Playwright.Driver)
    (selector : string) (timeout_ : option N) :
  (forall d,
     Selenium.isStarted (this wS) = true ->
     Selenium.driver (this wS) = Some d ->
     let scan := Selenium.FindElements d (DriverLocators.findElements_by selector) in
     Selenium.findElements selector envS wS
     = (Returned (orEmpty (envS _ (trace wS) scan)),
        mkWorld (this wS)
          (trace wS ++ Did scan :: scanLog selector (envS _ (trace wS) scan)))
     /\
     (forall eS,
        envS _ (trace wS)
          (Selenium.WaitLocated d (DriverLocators.findElement_by selector)
             (timeoutOr timeout_ (Selenium.timeout (Selenium.options (this wS)))))
        = Thrown eS ->
        exists wS',
          Selenium.findElement selector timeout_ envS wS
          = (Thrown (Err ("Element not found: " +:+ selector)), wS')
          /\ this wS' = this wS))
  /\
  (forall p,
     Playwright.isStarted (this wP) = true ->
     Playwright.page (this wP) = Some p ->
     let scan := Playwright.LocatorAll p selector in
     Playwright.findElements selector envP wP
     = (Returned (orEmpty (envP _ (trace wP) scan)),
        mkWorld (this wP)
          (trace wP ++ Did scan :: scanLog selector (envP _ (trace wP) scan)))
     /\
     ((forall el,
         envP _ (trace wP)
           (Playwright.WaitForSelector p selector
              (timeoutOr timeout_ (Playwright.timeout (Playwright.options (this wP))))
              "attached")
         <> Returned (Some el)) ->
      exists wP',
        Playwright.findElement selector timeout_ envP wP
        = (Thrown (Err ("Element not found: " +:+ selector)), wP')
        /\ this wP' = this wP))
  /\
  (Selenium.isStarted (this wS) = false \/ Selenium.driver (this wS) = None ->
   Selenium.findElements selector envS wS = (Thrown NotStarted, wS)
   /\ Selenium.findElement selector timeout_ envS wS = (Thrown NotStarted, wS))
  /\
  (Playwright.isStarted (this wP) = false \/ Playwright.page (this wP) = None ->
   Playwright.findElements selector envP wP = (Thrown NotStarted, wP)
   /\ Playwright.findElement selector timeout_ envP wP = (Thrown NotStarted, wP)).
Proof.
  split; [|split; [|split]].
  - intros d Hs Hd scan. subst scan. split.
    + unfold Selenium.findElements, Selenium._ensureStarted, Selenium.theDriver.
      repeat (eff; rewrite ?Hs, ?Hd).
      destruct (envS _ (trace wS) (Selenium.FindElements d _));
        cbn [orEmpty scanLog]; rewrite <- ?app_assoc; reflexivity.
    + intros eS Hn.
      unfold Selenium.findElement, Selenium._ensureStarted, Selenium.theDriver.
      repeat (eff; rewrite ?Hs, ?Hd). rewrite Hn. eexists; split; reflexivity.
  - intros p Hs Hp scan. subst scan. split.
    + unfold Playwright.findElements, Playwright._ensureStarted, Playwright.thePage.
      repeat (eff; rewrite ?Hs, ?Hp).
      destruct (envP _ (trace wP) (Playwright.LocatorAll p _));
        cbn [orEmpty scanLog]; rewrite <- ?app_assoc; reflexivity.
    + intros Hn.
      unfold Playwright.findElement, Playwright._ensureStarted, Playwright.thePage.
      repeat (eff; rewrite ?Hs, ?Hp).
      destruct (envP _ (trace wP) (Playwright.WaitForSelector p _ _ _))
        as [[el|]|e] eqn:E.
      * exfalso. now apply (Hn el).
      * eexists; split; reflexivity.
      * eexists; split; reflexivity.
  - intros H.
    unfold Selenium.findElements, Selenium.findElement, Selenium._ensureStarted.
    eff. destruct wS as [s tr]; cbn [this trace] in *.
    destruct H as [H|H]; rewrite H; [|destruct (Selenium.isStarted s)];
      split; reflexivity.
  - intros H.
    unfold Playwright.findElements, Playwright.findElement,
           Playwright._ensureStarted.
    eff. destruct wP as [s tr]; cbn [this trace] in *.
    destruct H as [H|H]; rewrite H; [|destruct (Playwright.isStarted s)];
      split; reflexivity.
Qed.

(** C4 on started drivers whose engine finds nothing, and on a freshly
    constructed one. *)
Lemma findElements_returns_findElement_throws_witness :
  (Selenium.findElements "div" Sample.deadEnv Sample.startedSelenium
   = (Returned [],
      mkWorld (this Sample.startedSelenium)
        [Did (Selenium.FindElements 1 (By_css "div"));
         Logged ErrorLevel ["Elements not found: div"; "unavailable"]]))
  /\
  (exists wS',
     Selenium.findElement "div" None Sample.deadEnv Sample.startedSelenium
     = (Thrown (Err ("Element not found: " +:+ "div")), wS')
     /\ this wS' = this Sample.startedSelenium)
  /\
  (Playwright.findElements "div" Sample.deadEnv Sample.startedPlaywright
   = (Returned [],
      mkWorld (this Sample.startedPlaywright)
        [Did (Playwright.LocatorAll 3 "div");
         Logged ErrorLevel ["Elements not found: div"; "unavailable"]]))
  /\
  (exists wP',
     Playwright.findElement "div" None Sample.deadEnv Sample.startedPlaywright
     = (Thrown (Err ("Element not found: " +:+ "div")), wP')
     /\ this wP' = this Sample.startedPlaywright)
  /\
  Selenium.findElements "div" Sample.calmSelenium Sample.freshSelenium
  = (Thrown NotStarted, Sample.freshSelenium).
Proof.
  destruct (findElements_returns_findElement_throws Sample.deadEnv Sample.deadEnv
              Sample.startedSelenium Sample.startedPlaywright "div" None)
    as (HA & HB & _).
  destruct (HA 1 eq_refl eq_refl) as (HA1 & HA2).
  destruct (HB 3 eq_refl eq_refl) as (HB1 & HB2).
  split; [exact HA1|].
  split; [exact (HA2 (Err "unavailable") eq_refl)|].
  split; [exact HB1|].
  split; [apply HB2; intros el; discriminate|].
  destruct (findElements_returns_findElement_throws Sample.calmSelenium
              Sample.deadEnv Sample.freshSelenium Sample.freshPlaywright
              "div" None) as (_ & _ & HC & _).
  exact (proj1 (HC (or_introl eq_refl))).
Defined.

Example findElements_started_selenium :
  fst (Selenium.findElements ".item" Sample.calmSelenium Sample.startedSelenium)
  = Returned [7; 8].
Proof. reflexivity. Qed.

(** ** The retrying click *)

Lemma leNumber_upTo (a : nat) (x : Js.Number) :
  1 <= a -> Js.leNumber a x = Nat.leb a (Js.wholeUpTo x).
Proof.
  intros Ha. destruct x as [n|below printed|]; cbn [Js.leNumber Js.wholeUpTo].
  - destruct (Z.leb_spec (Z.of_nat a) n), (Nat.leb_spec a (Z.to_nat n));
      try reflexivity; lia.
  - destruct (Z.leb_spec (Z.of_nat a) below), (Nat.leb_spec a (Z.to_nat below));
      try reflexivity; lia.
  - destruct a; [lia|reflexivity].
Qed.

Lemma ltNumber_whole (a : nat) (n : Z) :
  Js.ltNumber a (Js.Whole n) = Nat.ltb a (Z.to_nat n).
Proof.
  cbn [Js.ltNumber].
  destruct (Z.ltb_spec (Z.of_nat a) n), (Nat.ltb_spec a (Z.to_nat n));
    try reflexivity; lia.
Qed.

(** A failed attempt touches no field and leaves the calls of an attempt up
    to the one that threw. *)
Lemma clickAttempt_failed (St : Type) (d : Selenium.Handle) (sel : string)
    (env : Eff.Env Selenium.Call) (w0 w1 : Eff.World Selenium.Call St)
    (e : Error) :
  SeleniumUtils.clickAttempt St d sel env w0 = (Thrown e, w1) ->
  exists t, w1 = mkWorld (this w0) (trace w0 ++ t) /\ failedAttempt d sel t.
Proof.
  unfold SeleniumUtils.clickAttempt, SeleniumUtils.smartWaitForElement.
  intros H. eff.
  destruct (env _ (trace w0)
              (Selenium.WaitLocated d (SeleniumUtils.getSmartSelector sel) 5000%N))
    as [el|e1] eqn:E1; eff.
  - destruct (env _ (trace w0 ++ [Did (Selenium.WaitLocated d
                       (SeleniumUtils.getSmartSelector sel) 5000%N)])
                (Selenium.WaitEnabled d el 5000%N)) as [u|e2] eqn:E2; eff.
    + match type of H with
      | context [env ?A ?tr (Selenium.ExecuteScript d ?sc ?args)] =>
          destruct (env A tr (Selenium.ExecuteScript d sc args)) as [r|e3] eqn:E3
      end; eff.
      * match type of H with
        | context [env ?A ?tr (Selenium.Click el)] =>
            destruct (env A tr (Selenium.Click el)) as [u'|e4] eqn:E4
        end; eff; [discriminate|].
        inversion H; subst; clear H.
        exists (attemptCalls d sel el). split.
        -- rewrite <- !app_assoc. reflexivity.
        -- exists el, 5. split; [tauto|reflexivity].
      * inversion H; subst; clear H.
        exists (firstn 3 (attemptCalls d sel el)). split.
        -- rewrite <- !app_assoc. reflexivity.
        -- exists el, 3. split; [tauto|reflexivity].
    + inversion H; subst; clear H.
      exists (firstn 2 (attemptCalls d sel el)). split.
      * rewrite <- !app_assoc. reflexivity.
      * exists el, 2. split; [tauto|reflexivity].
  - inversion H; subst; clear H.
    exists (firstn 1 (attemptCalls d sel 0)). split.
    + reflexivity.
    + exists 0, 1. split; [tauto|reflexivity].
Qed.

(** The loop entered at [attempt] with [fuel] iterations left, when every
    attempt fails in a way [P] describes: it makes all of them; under a
    whole count the last one throws, under any other the loop runs out and
    the method returns [false]. *)
Lemma safeClickLoop_fails (St : Type) (d : Selenium.Handle) (sel : string)
    (x : Js.Number) (delay : N) (env : Eff.Env Selenium.Call)
    (P : list (Eff.Event Selenium.Call) * Error -> Prop) :
  (forall w0 : Eff.World Selenium.Call St, exists e t,
      SeleniumUtils.clickAttempt St d sel env w0
      = (Thrown e, mkWorld (this w0) (trace w0 ++ t)) /\ P (t, e)) ->
  forall fuel attempt (w : Eff.World Selenium.Call St),
    1 <= attempt -> attempt + fuel = S (Js.wholeUpTo x) ->
    exists blocks,
      List.length blocks = fuel /\ Forall P blocks /\
      SeleniumUtils.safeClickLoop St d sel x delay fuel attempt env w
      = ((if match x with Js.Whole _ => Nat.ltb 0 fuel | _ => false end
          then Thrown (SeleniumUtils.clickFailure sel x) else Returned false),
         mkWorld (this w) (trace w ++ failedRun sel x delay attempt blocks)).
Proof.
  intros fails. induction fuel as [|fuel IH]; intros attempt w Ha Hsum.
  - exists []. cbn [SeleniumUtils.safeClickLoop failedRun List.length].
    rewrite app_nil_r. destruct w. split; [reflexivity|].
    split; [constructor|]. destruct x; reflexivity.
  - cbn [SeleniumUtils.safeClickLoop].
    rewrite (leNumber_upTo attempt x Ha).
    assert (Hle : Nat.leb attempt (Js.wholeUpTo x) = true)
      by (apply Nat.leb_le; lia).
    rewrite Hle. destruct (fails w) as (e & t & Hatt & HP).
    unfold try_catch at 1. rewrite Hatt.
    unfold bind at 1. unfold log at 1. cbn [this trace].
    destruct x as [n|below printed|].
    + rewrite ltNumber_whole. cbn [Js.wholeUpTo] in *.
      destruct fuel as [|fuel].
      * assert (Hlt : Nat.ltb attempt (Z.to_nat n) = false)
          by (apply Nat.ltb_ge; lia).
        rewrite Hlt. unfold throw. exists [(t, e)].
        split; [reflexivity|]. split; [repeat constructor; exact HP|].
        cbn [failedRun fst snd Nat.ltb Nat.leb]. rewrite ltNumber_whole, Hlt.
        cbn [app]. rewrite <- !app_assoc. reflexivity.
      * assert (Hlt : Nat.ltb attempt (Z.to_nat n) = true)
          by (apply Nat.ltb_lt; lia).
        rewrite Hlt. unfold bind at 1. unfold SeleniumUtils.wait at 1.
        unfold settle at 1. cbn [this trace].
        match goal with
        | |- context [SeleniumUtils.safeClickLoop St d sel ?x delay (S fuel)
                        (S attempt) env ?w2] =>
            destruct (IH (S attempt) w2 ltac:(lia) ltac:(lia))
              as (blocks & Hlen & HF & Hrun)
        end.
        rewrite Hrun. exists ((t, e) :: blocks).
        split; [cbn [List.length]; now rewrite Hlen|].
        split; [constructor; assumption|].
        cbn [failedRun fst snd this trace Nat.ltb Nat.leb].
        rewrite ltNumber_whole, Hlt. cbn [app].
        rewrite <- !app_assoc. reflexivity.
    + cbn [Js.ltNumber]. cbn [Js.wholeUpTo] in *.
      assert (Hlt : Z.leb (Z.of_nat attempt) below = true)
        by (apply Z.leb_le; lia).
      rewrite Hlt. unfold bind at 1. unfold SeleniumUtils.wait at 1.
      unfold settle at 1. cbn [this trace].
      match goal with
      | |- context [SeleniumUtils.safeClickLoop St d sel ?x delay fuel
                      (S attempt) env ?w2] =>
          destruct (IH (S attempt) w2 ltac:(lia) ltac:(lia))
            as (blocks & Hlen & HF & Hrun)
      end.
      rewrite Hrun. exists ((t, e) :: blocks).
      split; [cbn [List.length]; now rewrite Hlen|].
      split; [constructor; assumption|].
      cbn [failedRun fst snd this trace Js.ltNumber]. rewrite Hlt. cbn [app].
      rewrite <- !app_assoc. reflexivity.
    + cbn [Js.wholeUpTo] in Hsum. lia.
Qed.


Lemma Forall_eq_repeat {A} (c : A) (l : list A) :
  Forall (fun b => b = c) l -> l = repeat c (List.length l).
Proof.
  induction 1 as [|b l Hb _ IH]; [reflexivity|].
  cbn [List.length repeat]. now rewrite Hb, <- IH.
Qed.

(** C5, amended. Against a selector at which no attempt ever succeeds,
    [safeClick] with a count [n] that is a whole number of at least one
    (three when none is given) makes exactly [n] attempts and then throws
    the error that names the selector and the count. Each attempt locates
    the element anew, waits until it is enabled, scrolls it to the centre of
    the viewport, pauses 500 ms and clicks, as far as the engine lets it
    go, and logs its warning; the configured delay (1000 ms when none is
    given) is taken after every warning but the last. No field is touched.
    With a count below one the method attempts nothing and returns
    [false]; in general, with a count that is not a whole number of at
    least one (zero, a negative or fractional number, [NaN]) it throws
    nothing, makes one attempt for each whole number from 1 up to the
    count, pauses after each, and returns [false]. The second part takes
    the case of an element that is found and scrolled to but refuses every
    click: there every attempt runs all five calls, in that order. *)
Theorem safeClick_exhausts (St : Type) (d : Selenium.Handle) (sel : string)
    (maxRetries : option Js.Number) (retryDelay : option N)
    (env : Eff.Env Selenium.Call) (w : Eff.World Selenium.Call St) :
  let count := orDefault maxRetries (Js.Whole 3) in
  let delay := orDefault retryDelay 1000%N in
  ((forall w0, exists e w1,
       SeleniumUtils.clickAttempt St d sel env w0 = (Thrown e, w1)) ->
   exists blocks,
     List.length blocks = Js.wholeUpTo count /\
     Forall (fun b => failedAttempt d sel (fst b)) blocks /\
     SeleniumUtils.safeClick St d sel maxRetries retryDelay env w
     = (exhausted sel count,
        mkWorld (this w) (trace w ++ failedRun sel count delay 1 blocks)))
  /\
  (forall el refusal,
     (forall tr,
        env _ tr (Selenium.WaitLocated d (SeleniumUtils.getSmartSelector sel)
                    5000%N)
        = Returned el) ->
     (forall tr, env _ tr (Selenium.WaitEnabled d el 5000%N) = Returned tt) ->
     (forall tr, exists r,
        env _ tr (Selenium.ExecuteScript d SeleniumUtils.scrollIntoViewScript
                    [Selenium.ArgElement el])
        = Returned r) ->
     (forall tr, env _ tr (Selenium.Click el) = Thrown refusal) ->
     SeleniumUtils.safeClick St d sel maxRetries retryDelay env w
     = (exhausted sel count,
        mkWorld (this w)
          (trace w
           ++ failedRun sel count delay 1
                (repeat (attemptCalls d sel el, refusal)
                   (Js.wholeUpTo count))))).
Proof.
  cbv zeta.
  assert (Hout : forall x,
             (if match x with
                 | Js.Whole _ => Nat.ltb 0 (Js.wholeUpTo x)
                 | _ => false
                 end
              then Thrown (SeleniumUtils.clickFailure sel x)
              else Returned false)
             = exhausted sel x).
  { intros [n|below printed|]; try reflexivity.
    unfold exhausted, countsAttempts. cbn [Js.wholeUpTo].
    destruct (Nat.ltb_spec 0 (Z.to_nat n)), (Z.leb_spec 1 n);
      try reflexivity; lia. }
  split.
  - intros never.
    destruct (safeClickLoop_fails St d sel (orDefault maxRetries (Js.Whole 3))
                (orDefault retryDelay 1000%N) env
                (fun b => failedAttempt d sel (fst b)))
      with (fuel := Js.wholeUpTo (orDefault maxRetries (Js.Whole 3)))
           (attempt := 1) (w := w)
      as (blocks & Hlen & HF & Hrun); [|lia|lia|].
    + intros w0. destruct (never w0) as (e & w1 & Hatt).
      destruct (clickAttempt_failed St d sel env w0 w1 e Hatt) as (t & -> & Ht).
      now exists e, t.
    + exists blocks. split; [exact Hlen|]. split; [exact HF|].
      unfold SeleniumUtils.safeClick. now rewrite Hrun, Hout.
  - intros el refusal Hloc Hen Hscroll Hclick.
    destruct (safeClickLoop_fails St d sel (orDefault maxRetries (Js.Whole 3))
                (orDefault retryDelay 1000%N) env
                (fun b => b = (attemptCalls d sel el, refusal)))
      with (fuel := Js.wholeUpTo (orDefault maxRetries (Js.Whole 3)))
           (attempt := 1) (w := w)
      as (blocks & Hlen & HF & Hrun); [|lia|lia|].
    + intros w0. exists refusal, (attemptCalls d sel el).
      split; [|reflexivity].
      unfold SeleniumUtils.clickAttempt, SeleniumUtils.smartWaitForElement.
      eff. rewrite Hloc. eff. rewrite Hen. eff.
      match goal with
      | |- context [env ?A ?tr (Selenium.ExecuteScript d ?sc ?args)] =>
          destruct (Hscroll tr) as [r Hr]; rewrite Hr
      end.
      eff. rewrite Hclick. rewrite <- !app_assoc. reflexivity.
    + unfold SeleniumUtils.safeClick. rewrite Hrun, Hout.
      rewrite (Forall_eq_repeat _ blocks HF), Hlen. reflexivity.
Qed.

(** C5, amended, with the default count and delay: against an engine that
    never answers, and against a page that refuses the click. *)
Lemma safeClick_exhausts_witness :
  (exists blocks,
     List.length blocks = 3 /\
     Forall (fun b => failedAttempt 1 "#buy" (fst b)) blocks /\
     SeleniumUtils.safeClick unit 1 "#buy" None None Sample.deadEnv
       (mkWorld tt [])
     = (Thrown (Err "Failed to click #buy after 3 attempts"),
        mkWorld tt ([] ++ failedRun "#buy" (Js.Whole 3) 1000%N 1 blocks)))
  /\
  SeleniumUtils.safeClick unit 1 "#buy" None None Scenes.refusedClick
    (mkWorld tt [])
  = (Thrown (Err "Failed to click #buy after 3 attempts"),
     mkWorld tt
       ([] ++ failedRun "#buy" (Js.Whole 3) 1000%N 1
                (repeat (attemptCalls 1 "#buy" 7,
                         Err "element click intercepted") 3))).
Proof.
  split.
  - apply (proj1 (safeClick_exhausts unit 1 "#buy" None None Sample.deadEnv
                    (mkWorld tt []))).
    intros w0. eexists; eexists. reflexivity.
  - apply (proj2 (safeClick_exhausts unit 1 "#buy" None None
                    Scenes.refusedClick (mkWorld tt []))
             7 (Err "element click intercepted")).
    + reflexivity.
    + reflexivity.
    + intros tr. eexists. reflexivity.
    + reflexivity.
Defined.

(** C5 as stated fails for a count below one: against a page on which
    nothing can be clicked the method then makes no attempt, logs nothing,
    throws nothing and returns [false]. *)
Lemma safeClick_returns_false :
  SeleniumUtils.safeClick unit 1 "#buy" (Some (Js.Whole 0)) None Sample.deadEnv
    (mkWorld tt [])
  = (Returned false, mkWorld tt [])
  /\
  SeleniumUtils.safeClick unit 1 "#buy" (Some (Js.Whole (-1))) None
    Sample.deadEnv (mkWorld tt [])
  = (Returned false, mkWorld tt []).
Proof. split; reflexivity. Qed.

(** With a count of 2.5 the method makes two attempts, pauses after each,
    falls out of its loop and returns [false]. *)
Example safeClick_fractional_count :
  SeleniumUtils.safeClick unit 1 "#buy" (Some (Js.Between 2 "2.5")) None
    Sample.deadEnv (mkWorld tt [])
  = (Returned false,
     mkWorld tt
       [Did (Selenium.WaitLocated 1 (By_id "buy") 5000%N);
        Logged Warn ["Click attempt 1/2.5 failed for #buy: unavailable"];
        Did (Selenium.Sleep 1000%N);
        Did (Selenium.WaitLocated 1 (By_id "buy") 5000%N);
        Logged Warn ["Click attempt 2/2.5 failed for #buy: unavailable"];
        Did (Selenium.Sleep 1000%N)]).
Proof. reflexivity. Qed.

Example safeClick_dead_trace :
  SeleniumUtils.safeClick unit 1 "#buy" (Some (Js.Whole 2)) (Some 250%N)
    Sample.deadEnv (mkWorld tt [])
  = (Thrown (Err "Failed to click #buy after 2 attempts"),
     mkWorld tt
       [Did (Selenium.WaitLocated 1 (By_id "buy") 5000%N);
        Logged Warn ["Click attempt 1/2 failed for #buy: unavailable"];
        Did (Selenium.Sleep 250%N);
        Did (Selenium.WaitLocated 1 (By_id "buy") 5000%N);
        Logged Warn ["Click attempt 2/2 failed for #buy: unavailable"]]).
Proof. reflexivity. Qed.

Example safeClick_refused_trace :
  SeleniumUtils.safeClick unit 1 "#buy" (Some (Js.Whole 2)) (Some 250%N)
    Scenes.refusedClick (mkWorld tt [])
  = (Thrown (Err "Failed to click #buy after 2 attempts"),
     mkWorld tt
       [Did (Selenium.WaitLocated 1 (By_id "buy") 5000%N);
        Did (Selenium.WaitEnabled 1 7 5000%N);
        Did (Selenium.ExecuteScript 1 SeleniumUtils.scrollIntoViewScript
               [Selenium.ArgElement 7]);
        Did (Selenium.Sleep 500%N);
        Did (Selenium.Click 7);
        Logged Warn ["Click attempt 1/2 failed for #buy: element click intercepted"];
        Did (Selenium.Sleep 250%N);
        Did (Selenium.WaitLocated 1 (By_id "buy") 5000%N);
        Did (Selenium.WaitEnabled 1 7 5000%N);
        Did (Selenium.ExecuteScript 1 SeleniumUtils.scrollIntoViewScript
               [Selenium.ArgElement 7]);
        Did (Selenium.Sleep 500%N);
        Did (Selenium.Click 7);
        Logged Warn ["Click attempt 2/2 failed for #buy: element click intercepted"]]).
Proof. reflexivity. Qed.

Example safeClick_calm :
  SeleniumUtils.safeClick unit 1 "#buy" None None Sample.calmSelenium
    (mkWorld tt [])
  = (Returned true,
     mkWorld tt
       [Did (Selenium.WaitLocated 1 (By_id "buy") 5000%N);
        Did (Selenium.WaitEnabled 1 7 5000%N);
        Did (Selenium.ExecuteScript 1 SeleniumUtils.scrollIntoViewScript
               [Selenium.ArgElement 7]);
        Did (Selenium.Sleep 500%N);
        Did (Selenium.Click 7);
        Logged Info ["Successfully clicked element: #buy"]]).
Proof. reflexivity. Qed.

(** ** Frames: what a method leaves alone *)

Section Frame.

Variable Call : Type -> Type.
Variable St : Type.

(** A relation between the fields before and after, closed under doing
    nothing and under doing two things in a row. *)
Variable R : St -> St -> Prop.
Context {R_refl : Reflexive R} {R_trans : Transitive R}.

Lemma keeps_ret {A} (a : A) : keeps R (@ret Call St A a).
Proof. intros env w. split; [reflexivity|]. exists []. cbn. now rewrite app_nil_r. Qed.

Lemma keeps_throw {A} (e : Error) : keeps R (@throw Call St A e).
Proof. intros env w. split; [reflexivity|]. exists []. cbn. now rewrite app_nil_r. Qed.

Lemma keeps_get : keeps R (@get Call St).
Proof. intros env w. split; [reflexivity|]. exists []. cbn. now rewrite app_nil_r. Qed.

Lemma keeps_call {A} (c : Call A) : keeps R (call c).
Proof. intros env w. split; [reflexivity|]. now exists [Did c]. Qed.

Lemma keeps_settle {A} (c : Call A) (a : A) : keeps R (settle c a).
Proof. intros env w. split; [reflexivity|]. now exists [Did c]. Qed.

Lemma keeps_log (l : Level) (args : list string) : keeps R (@log Call St l args).
Proof. intros env w. split; [reflexivity|]. now exists [Logged l args]. Qed.

Lemma keeps_modify (f : St -> St) :
  (forall s, R s (f s)) -> keeps R (@modify Call St f).
Proof.
  intros Hf env w. split; [apply Hf|]. exists []. cbn. now rewrite app_nil_r.
Qed.

Lemma keeps_bind {A B} (m : Eff.M Call St A) (k : A -> Eff.M Call St B) :
  keeps R m -> (forall a, keeps R (k a)) -> keeps R (bind m k).
Proof.
  intros Hm Hk env w. unfold bind.
  destruct (Hm env w) as [Hr [new Hn]].
  destruct (m env w) as [[a|e] w1]; cbn [snd] in *.
  - destruct (Hk a env w1) as [Hr' [new' Hn']]. split.
    + etransitivity; eassumption.
    + exists (new ++ new'). now rewrite Hn', Hn, app_assoc.
  - split; [assumption|now exists new].
Qed.

Lemma keeps_try {A} (m : Eff.M Call St A) (h : Error -> Eff.M Call St A) :
  keeps R m -> (forall e, keeps R (h e)) -> keeps R (try_catch m h).
Proof.
  intros Hm Hh env w. unfold try_catch.
  destruct (Hm env w) as [Hr [new Hn]].
  destruct (m env w) as [[a|e] w1]; cbn [snd] in *.
  - split; [assumption|now exists new].
  - destruct (Hh e env w1) as [Hr' [new' Hn']]. split.
    + etransitivity; eassumption.
    + exists (new ++ new'). now rewrite Hn', Hn, app_assoc.
Qed.

Lemma keeps_void {A} (m : Eff.M Call St A) : keeps R m -> keeps R (void m).
Proof. intros Hm. apply keeps_bind; [exact Hm|intros; apply keeps_ret]. Qed.

(** A caller running methods that keep [R] one after another keeps R [R]. *)
Lemma keeps_runAll (ms : list (Eff.M Call St unit)) :
  Forall (keeps R) ms ->
  forall env w, R (this w) (this (runAll ms env w)).
Proof.
  induction 1 as [|m ms Hm _ IH]; intros env w; cbn [runAll].
  - reflexivity.
  - etransitivity; [apply (Hm env w)|apply IH].
Qed.

End Frame.

(** Breaks a method into its steps and closes each by the frame lemmas. *)
Ltac frame_step :=
  first
    [ apply keeps_bind; try typeclasses eauto; [|intros ?]
    | apply keeps_try; try typeclasses eauto; [|intros ?]
    | apply keeps_void; try typeclasses eauto
    | apply keeps_ret; typeclasses eauto
    | apply keeps_throw; typeclasses eauto
    | apply keeps_get; typeclasses eauto
    | apply keeps_call; typeclasses eauto
    | apply keeps_settle; typeclasses eauto
    | apply keeps_log; typeclasses eauto
    | apply keeps_modify; try typeclasses eauto; intros ?; reflexivity
    | match goal with
      | |- keeps _ (if ?b then _ else _) => destruct b
      | |- keeps _ (match ?x with _ => _ end) => destruct x
      | |- keeps _ (let _ := _ in _) => cbv zeta
      end ].

Ltac frame := repeat frame_step.

(** ** The options record across the life of a driver *)

#[local] Instance sameOptions_refl : Reflexive sameOptions.
Proof. intros s. reflexivity. Qed.

#[local] Instance sameOptions_trans : Transitive sameOptions.
Proof. intros a b c H1 H2. unfold sameOptions in *. congruence. Qed.

#[local] Instance sameOptionsB_refl : Reflexive sameOptionsB.
Proof. intros s. reflexivity. Qed.

#[local] Instance sameOptionsB_trans : Transitive sameOptionsB.
Proof. intros a b c H1 H2. unfold sameOptionsB in *. congruence. Qed.

Lemma Selenium_start_keeps_options : keeps sameOptions Selenium.start.
Proof.
  unfold Selenium.start, Selenium.chromeBuild, Selenium.firefoxBuild,
         Selenium.edgeBuild.
  frame.
Qed.

Lemma Selenium_executeScript_keeps_options (script : string)
    (args : list Selenium.ScriptArg) :
  keeps sameOptions (Selenium.executeScript script args).
Proof.
  unfold Selenium.executeScript, Selenium._ensureStarted, Selenium.theDriver.
  frame.
Qed.

(** Every method of the base WebDriver driver leaves the options as they
    were. *)
Lemma Selenium_base_keeps_options (path : PathLib) (root : string)
    (op : SeleniumOps.Op) :
  keeps sameOptions (SeleniumOps.run path root SeleniumOps.Base op).
Proof.
  destruct op; cbn [SeleniumOps.run SeleniumOps.startOf];
    try apply Selenium_start_keeps_options;
    unfold Selenium.quit, Selenium.navigateTo, Selenium.click, Selenium.sendKeys,
           Selenium.clearText, Selenium.getText, Selenium.findElement,
           Selenium.findElements, Selenium.executeScript,
           Selenium.takeScreenshot, Selenium.startVideoRecording,
           Selenium.stopVideoRecording, Selenium.createScreenshotsDirectory,
           Selenium.createVideosDirectory, Selenium._ensureStarted,
           Selenium.theDriver;
    frame.
Qed.

(** Every method of the DevTools driver leaves the options as they were. *)
Lemma Playwright_keeps_options (path : PathLib) (root : string)
    (penv : string -> option string) (op : PlaywrightOps.Op) :
  keeps sameOptionsB (PlaywrightOps.run path root penv op).
Proof.
  destruct op; cbn [PlaywrightOps.run];
    unfold Playwright.start, Playwright.selectEngine, Playwright.acquire,
           Playwright.buildContextOptions, Playwright.quit,
           Playwright.navigateTo, Playwright.click, Playwright.sendKeys,
           Playwright.clearText, Playwright.getText, Playwright.findElement,
           Playwright.findElements, Playwright.executeScript,
           Playwright.takeScreenshot, Playwright.startVideoRecording,
           Playwright.stopVideoRecording, Playwright.createScreenshotsDirectory,
           Playwright.createVideosDirectory, Playwright._ensureStarted,
           Playwright.thePage;
    frame.
Qed.

(** What [ChromeSeleniumDriver.start] leaves in the options, however the
    start goes: the Chrome entry holds the defaults overridden by what was
    there, and the rest is as before. *)
Lemma chrome_start_options (env : Eff.Env Selenium.Call)
    (w : Eff.World Selenium.Call Selenium.Driver) :
  Selenium.options (this (snd (Selenium.chrome_start env w)))
  = Selenium.set_chromeSpecific
      (Some (Selenium.spread Selenium.chromeDefaults
               (Selenium.chromeSpecific (Selenium.options (this w)))))
      (Selenium.options (this w)).
Proof.
  unfold Selenium.chrome_start. unfold bind at 1. unfold modify at 1.
  match goal with
  | |- Selenium.options (this (snd (?k env ?w1))) = _ =>
      assert (H : keeps sameOptions k)
  end.
  { unfold Selenium._configureChromePerformance,
           Selenium.setViewportUnlessHeadless, Selenium.theDriver.
    repeat first [ apply Selenium_start_keeps_options
                 | apply Selenium_executeScript_keeps_options
                 | frame_step ]. }
  match goal with
  | |- Selenium.options (this (snd (?k env ?w1))) = _ =>
      destruct (H env w1) as [Hr _]
  end.
  exact Hr.
Qed.

(** C9 as stated fails on the Chrome subclass: the options record does
    change after construction. [start] of a freshly constructed Chrome
    driver adds the Chrome entry. *)
Lemma chrome_start_mutates_options :
  Selenium.options
    (this (runAll [SeleniumOps.run Sample.path Sample.projectRoot
                     SeleniumOps.Chrome SeleniumOps.Start]
             Sample.calmSelenium Sample.freshChrome))
  <> Selenium.options (this Sample.freshChrome)
  /\ Selenium.chromeSpecific (Selenium.options (this Sample.freshChrome)) = None
  /\ Selenium.chromeSpecific
       (Selenium.options
          (this (runAll [SeleniumOps.run Sample.path Sample.projectRoot
                           SeleniumOps.Chrome SeleniumOps.Start]
                   Sample.calmSelenium Sample.freshChrome)))
     = Some Selenium.chromeDefaults.
Proof.
  split; [|split; reflexivity].
  cbn [runAll SeleniumOps.run SeleniumOps.startOf].
  rewrite chrome_start_options. discriminate.
Qed.

(** Spreading twice. *)

Lemma assign_absent (o : Selenium.Flags) (k : string) (v : bool) :
  ~ In k (keysOf o) -> Selenium.assign o k v = o ++ [(k, v)].
Proof.
  induction o as [|[k' v'] o IH]; intros H; cbn [Selenium.assign app].
  - reflexivity.
  - destruct (String.eqb k' k) eqn:E.
    + apply String.eqb_eq in E. subst. exfalso. apply H. now left.
    + rewrite IH; [reflexivity|]. intros Hin. apply H. now right.
Qed.

Lemma assign_behind (pre o : Selenium.Flags) (k : string) (v : bool) :
  ~ In k (keysOf pre) ->
  Selenium.assign (pre ++ o) k v = pre ++ Selenium.assign o k v.
Proof.
  induction pre as [|[k' v'] pre IH]; intros H; cbn [Selenium.assign app].
  - reflexivity.
  - destruct (String.eqb k' k) eqn:E.
    + apply String.eqb_eq in E. subst. exfalso. apply H. now left.
    + rewrite IH; [reflexivity|]. intros Hin. apply H. now right.
Qed.

Lemma assign_within (o rest : Selenium.Flags) (k : string) (v : bool) :
  In k (keysOf o) ->
  Selenium.assign (o ++ rest) k v = Selenium.assign o k v ++ rest
  /\ keysOf (Selenium.assign o k v) = keysOf o.
Proof.
  induction o as [|[k' v'] o IH]; intros H; [contradiction|].
  cbn [Selenium.assign app]. destruct (String.eqb k' k) eqn:E.
  - apply String.eqb_eq in E. subst. split; reflexivity.
  - destruct H as [H|H]; [cbn in H; subst; now rewrite String.eqb_refl in E|].
    destruct (IH H) as [I1 I2]. rewrite I1. split; [reflexivity|].
    unfold keysOf in *. cbn [map fst]. now rewrite I2.
Qed.

(** Written over a record with the same keys in the same order, key by key,
    the entries replace it. *)
Lemma put_in_place (a : Selenium.Flags) :
  forall pre b,
    keysOf a = keysOf b -> NoDup (keysOf pre ++ keysOf a) ->
    fold_left put a (pre ++ b) = pre ++ a.
Proof.
  induction a as [|[k v] a IH]; intros pre b Hk Hnd; destruct b as [|[k0 v0] b];
    try discriminate.
  - reflexivity.
  - cbn [keysOf map fst] in Hk. injection Hk as Hk0 Hk. subst k0.
    cbn [fold_left put fst snd].
    assert (Hpre : ~ In k (keysOf pre)).
    { intros Hin. apply NoDup_remove_2 in Hnd. apply Hnd.
      apply in_or_app. now left. }
    change (put (pre ++ (k, v0) :: b) (k, v))
      with (Selenium.assign (pre ++ (k, v0) :: b) k v).
    rewrite (assign_behind pre _ k v Hpre). cbn [Selenium.assign].
    rewrite String.eqb_refl.
    replace (pre ++ (k, v) :: b) with ((pre ++ [(k, v)]) ++ b)
      by now rewrite <- app_assoc.
    rewrite (IH (pre ++ [(k, v)]) b Hk).
    + now rewrite <- app_assoc.
    + unfold keysOf in *. rewrite map_app, <- app_assoc. exact Hnd.
Qed.

(** Written over a record that has none of their keys, the entries are
    appended. *)
Lemma put_behind (a : Selenium.Flags) :
  forall acc, NoDup (keysOf acc ++ keysOf a) -> fold_left put a acc = acc ++ a.
Proof.
  induction a as [|[k v] a IH]; intros acc Hnd.
  - now rewrite app_nil_r.
  - cbn [fold_left put fst snd].
    assert (Hacc : ~ In k (keysOf acc)).
    { intros Hin. apply NoDup_remove_2 in Hnd. apply Hnd.
      apply in_or_app. now left. }
    change (put acc (k, v)) with (Selenium.assign acc k v).
    rewrite (assign_absent acc k v Hacc).
    rewrite IH; [now rewrite <- app_assoc|].
    unfold keysOf in *. rewrite map_app, <- app_assoc. exact Hnd.
Qed.

Lemma assign_extends (d m : Selenium.Flags) (k : string) (v : bool) :
  extends d m -> extends d (Selenium.assign m k v).
Proof.
  intros (Hnd & m1 & m2 & -> & Hk).
  destruct (in_dec string_dec k (keysOf m1)) as [H1|H1].
  - destruct (assign_within m1 m2 k v H1) as [E1 E2]. rewrite E1. split.
    + unfold keysOf in *. rewrite map_app in Hnd. rewrite map_app.
      now rewrite E2.
    + exists (Selenium.assign m1 k v), m2. split; [reflexivity|]. congruence.
  - rewrite (assign_behind m1 m2 k v H1).
    destruct (in_dec string_dec k (keysOf m2)) as [H2|H2].
    + destruct (assign_within m2 [] k v H2) as [_ E2]. split.
      * unfold keysOf in *. rewrite map_app in Hnd. rewrite map_app.
        now rewrite E2.
      * exists m1, (Selenium.assign m2 k v). now split.
    + rewrite (assign_absent m2 k v H2). split.
      * rewrite app_assoc. unfold keysOf in *. rewrite map_app. cbn [map fst].
        apply NoDup_app; [exact Hnd|repeat constructor; intros []|].
        intros x Hx [Hy|[]]. subst x. rewrite map_app in Hx.
        apply in_app_or in Hx. tauto.
      * exists m1, (m2 ++ [(k, v)]). now split.
Qed.

Lemma spread_extends (d : Selenium.Flags) (e : option Selenium.Flags) :
  NoDup (keysOf d) -> extends d (Selenium.spread d e).
Proof.
  intros Hd.
  assert (H0 : extends d d).
  { split; [exact Hd|]. exists d, []. now rewrite app_nil_r. }
  destruct e as [e|]; [|exact H0]. cbn [Selenium.spread].
  revert H0. generalize d at 2 4 as acc. induction e as [|[k v] e IH]; intros acc H.
  - exact H.
  - cbn [fold_left fst snd]. apply IH. now apply assign_extends.
Qed.

(** Spreading the defaults under a record that came from spreading them
    gives that record back. *)
Lemma spread_twice (d : Selenium.Flags) (e : option Selenium.Flags) :
  NoDup (keysOf d) ->
  Selenium.spread d (Some (Selenium.spread d e)) = Selenium.spread d e.
Proof.
  intros Hd. destruct (spread_extends d e Hd) as (Hnd & m1 & m2 & Hm & Hk).
  rewrite Hm in *. cbn [Selenium.spread].
  change (fold_left put (m1 ++ m2) d = m1 ++ m2).
  rewrite fold_left_app.
  assert (Hnd' : NoDup (keysOf m1 ++ keysOf m2))
    by (unfold keysOf in *; now rewrite <- map_app).
  assert (Hm1 : NoDup (keysOf m1)) by now apply NoDup_app_remove_r in Hnd'.
  pose proof (put_in_place m1 [] d Hk Hm1) as P. cbn [app] in P. rewrite P.
  now apply put_behind.
Qed.

(** A second [start] writes what the first one wrote. *)
Lemma afterStart_twice (f : SeleniumOps.Family) (o : Selenium.Options) :
  afterStart f (afterStart f o) = afterStart f o.
Proof.
  destruct f; cbn [afterStart]; [reflexivity| | |];
    destruct o; cbn [Selenium.set_chromeSpecific Selenium.set_edgeSpecific
                     Selenium.set_firefoxSpecific Selenium.chromeSpecific
                     Selenium.edgeSpecific Selenium.firefoxSpecific
                     Selenium.browser Selenium.headless Selenium.windowSize
                     Selenium.timeout Selenium.implicitWait Selenium.userAgent
                     Selenium.downloadsPath Selenium.outputPath
                     Selenium.disableImages Selenium.disableJavaScript
                     Selenium.acceptInsecureCerts];
    rewrite spread_twice; try reflexivity;
    repeat constructor; cbn; intuition discriminate.
Qed.

(** What the [start] of each class leaves in the options, however the
    start goes. *)
Lemma startOf_options (f : SeleniumOps.Family) (env : Eff.Env Selenium.Call)
    (w : Eff.World Selenium.Call Selenium.Driver) :
  Selenium.options (this (snd (SeleniumOps.startOf f env w)))
  = afterStart f (Selenium.options (this w)).
Proof.
  destruct f; cbn [SeleniumOps.startOf afterStart].
  - exact (proj1 (Selenium_start_keeps_options env w)).
  - apply chrome_start_options.
  - unfold Selenium.edge_start. unfold bind at 1. unfold modify at 1.
    match goal with
    | |- Selenium.options (this (snd (?k env ?w1))) = _ =>
        assert (H : keeps sameOptions k)
    end.
    { unfold Selenium._configureEdgePerformance,
             Selenium.setViewportUnlessHeadless, Selenium.theDriver.
      repeat first [ apply Selenium_start_keeps_options
                   | apply Selenium_executeScript_keeps_options
                   | frame_step ]. }
    match goal with
    | |- Selenium.options (this (snd (?k env ?w1))) = _ =>
        destruct (H env w1) as [Hr _]
    end.
    exact Hr.
  - unfold Selenium.firefox_start. unfold bind at 1. unfold modify at 1.
    match goal with
    | |- Selenium.options (this (snd (?k env ?w1))) = _ =>
        assert (H : keeps sameOptions k)
    end.
    { unfold Selenium._configureFirefoxPerformance.
      repeat first [ apply Selenium_start_keeps_options
                   | apply Selenium_executeScript_keeps_options
                   | frame_step ]. }
    match goal with
    | |- Selenium.options (this (snd (?k env ?w1))) = _ =>
        destruct (H env w1) as [Hr _]
    end.
    exact Hr.
Qed.

(** One call on an instance of class [f]. *)
Lemma run_options (path : PathLib) (root : string) (f : SeleniumOps.Family)
    (op : SeleniumOps.Op) (env : Eff.Env Selenium.Call)
    (w : Eff.World Selenium.Call Selenium.Driver) :
  Selenium.options (this (snd (SeleniumOps.run path root f op env w)))
  = if isStart op then afterStart f (Selenium.options (this w))
    else Selenium.options (this w).
Proof.
  destruct op; cbn [isStart];
    try (change (SeleniumOps.run path root f ?o)
           with (SeleniumOps.run path root SeleniumOps.Base o);
         exact (proj1 (Selenium_base_keeps_options path root _ env w))).
  apply startOf_options.
Qed.

(** Any sequence of calls on an instance of class [f]. *)
Lemma runAll_options (path : PathLib) (root : string) (f : SeleniumOps.Family)
    (env : Eff.Env Selenium.Call) (ops : list SeleniumOps.Op) :
  forall w : Eff.World Selenium.Call Selenium.Driver,
    Selenium.options
      (this (runAll (map (SeleniumOps.run path root f) ops) env w))
    = if existsb isStart ops then afterStart f (Selenium.options (this w))
      else Selenium.options (this w).
Proof.
  induction ops as [|op ops IH]; intros w; cbn [map runAll existsb].
  - reflexivity.
  - rewrite IH, run_options.
    destruct (isStart op), (existsb isStart ops); cbn [orb];
      try reflexivity. apply afterStart_twice.
Qed.

(** C9, amended. Over any sequence of calls on one instance: the base
    WebDriver driver and the DevTools driver never change their options
    record; on a browser subclass of the WebDriver driver the record stays
    as it was until a [start] runs, and from then on it is that record with
    the subclass's own entry holding its defaults overridden by what the
    entry held. No other entry ever changes, whatever runs and however
    often. *)
Theorem options_frame (path : PathLib) (root : string)
    (penv : string -> option string) (f : SeleniumOps.Family)
    (opsA : list SeleniumOps.Op) (opsB : list PlaywrightOps.Op)
    (envA : Eff.Env Selenium.Call) (envB : Eff.Env Playwright.Call)
    (wA : Eff.World Selenium.Call Selenium.Driver)
    (wB : Eff.World Playwright.Call Playwright.Driver) :
  Selenium.options
    (this (runAll (map (SeleniumOps.run path root SeleniumOps.Base) opsA) envA wA))
  = Selenium.options (this wA)
  /\
  Playwright.options
    (this (runAll (map (PlaywrightOps.run path root penv) opsB) envB wB))
  = Playwright.options (this wB)
  /\
  Selenium.options
    (this (runAll (map (SeleniumOps.run path root f) opsA) envA wA))
  = (if existsb isStart opsA
     then afterStart f (Selenium.options (this wA))
     else Selenium.options (this wA)).
Proof.
  split; [|split].
  - apply (keeps_runAll _ _ sameOptions). apply Forall_map, Forall_forall.
    intros op _. apply Selenium_base_keeps_options.
  - apply (keeps_runAll _ _ sameOptionsB). apply Forall_map, Forall_forall.
    intros op _. apply Playwright_keeps_options.
  - apply runAll_options.
Qed.

(** A Chrome driver constructed with an Edge entry keeps that entry through
    a start, and a second start leaves the Chrome entry as the first one
    wrote it. *)
Example options_after_two_starts :
  let w := mkWorld
             (Selenium.constructFor Sample.path Sample.projectRoot "chrome"
                (Selenium.mkUserOptions None None None None None None None None
                   None None None (Some [("disablePlugins", false)])
                   (Some [("enableLogging", true)]) None)) [] in
  let o := Selenium.options
             (this (runAll (map (SeleniumOps.run Sample.path Sample.projectRoot
                                   SeleniumOps.Chrome)
                              [SeleniumOps.Start; SeleniumOps.Quit_;
                               SeleniumOps.Start])
                      Sample.calmSelenium w)) in
  Selenium.chromeSpecific o
  = Some [("disableExtensions", true); ("disablePlugins", false);
          ("disableBackgroundTimer", true);
          ("disableRendererBackgrounding", true);
          ("disableBackgroundNetworking", true)]
  /\ Selenium.edgeSpecific o = Some [("enableLogging", true)]
  /\ Selenium.firefoxSpecific o = None.
Proof. repeat split; reflexivity. Qed.

(** ** Environment-aware acquisition *)

(** In a sandbox without the serverless binary, [start] of a driver that is
    not started and names a supported browser throws the start-up error
    carrying the serverless message, launches nothing and changes no
    field. *)
Lemma start_in_sandbox_fails_fast (path : PathLib) (root : string)
    (penv : string -> option string) (env : Eff.Env Playwright.Call)
    (w : Eff.World Playwright.Call Playwright.Driver)
    (engine : Playwright.Engine) :
  Playwright.isStarted (this w) = false ->
  Playwright.engineOf (Playwright.browser (Playwright.options (this w)))
  = Some engine ->
  Playwright.isLambda penv = true ->
  serverlessUnavailable env ->
  exists w' new,
    Playwright.start path root penv env w
    = (Thrown (Err ("Driver startup failed: "
                    +:+ Playwright.ServerlessBrowserUnavailable)), w') /\
    this w' = this w /\
    trace w' = trace w ++ new /\
    forallb noLaunch new = true.
Proof.
  intros Hs He Hl Hun.
  unfold Playwright.start, Playwright.selectEngine, Playwright.acquire.
  repeat (eff; rewrite ?Hs, ?He, ?Hl).
  destruct Hun as [Hreq|Hexe].
  - match goal with
    | |- context [env _ ?tr Playwright.RequireServerlessChromium] =>
        destruct (Hreq tr) as [e Hreq']; rewrite Hreq'
    end.
    eff. eexists; eexists. split; [reflexivity|]. split; [reflexivity|].
    cbn [trace]. rewrite <- !app_assoc. cbn [app]. split; reflexivity.
  - match goal with
    | |- context [env _ ?tr Playwright.RequireServerlessChromium] =>
        destruct (env _ tr Playwright.RequireServerlessChromium) as [args|e]
    end.
    + eff.
      match goal with
      | |- context [env _ ?tr Playwright.ServerlessExecutablePath] =>
          destruct (Hexe tr) as [e Hexe']; rewrite Hexe'
      end.
      eff. eexists; eexists. split; [reflexivity|]. split; [reflexivity|].
      cbn [trace]. rewrite <- !app_assoc. cbn [app]. split; reflexivity.
    + eff. eexists; eexists. split; [reflexivity|]. split; [reflexivity|].
      cbn [trace]. rewrite <- !app_assoc. cbn [app]. split; reflexivity.
Qed.

#[local] Instance anyFields_refl {St : Type} : Reflexive (@anyFields St).
Proof. intros s. exact I. Qed.

#[local] Instance anyFields_trans {St : Type} : Transitive (@anyFields St).
Proof. intros a b c _ _. exact I. Qed.

(** After a call, whatever follows only adds to the trace. *)
Lemma call_then_grows {Call : Type -> Type} {St A B : Type} (c : Call A)
    (k : A -> Eff.M Call St B) (env : Eff.Env Call) (w : Eff.World Call St) :
  (forall a, keeps anyFields (k a)) ->
  exists out w' rest,
    bind (call c) k env w = (out, w') /\ trace w' = trace w ++ Did c :: rest.
Proof.
  intros Hk. unfold bind at 1. unfold call at 1.
  destruct (env A (trace w) c) as [a|e].
  - destruct (Hk a env (mkWorld (this w) (trace w ++ [Did c]))) as [_ [new Hn]].
    destruct (k a env (mkWorld (this w) (trace w ++ [Did c]))) as [out w'] eqn:E.
    exists out, w', new. split; [reflexivity|].
    cbn [snd trace] in Hn. now rewrite Hn, <- app_assoc.
  - eexists; eexists; exists []. split; [reflexivity|]. reflexivity.
Qed.

(** A handler that only adds to the trace keeps what the body had put
    there. *)
Lemma try_grows {Call : Type -> Type} {St A : Type} (m : Eff.M Call St A)
    (h : Error -> Eff.M Call St A) (env : Eff.Env Call) (w : Eff.World Call St)
    (pre : list (Eff.Event Call)) :
  (forall e, keeps anyFields (h e)) ->
  (exists out w' rest, m env w = (out, w') /\ trace w' = pre ++ rest) ->
  exists out w' rest, try_catch m h env w = (out, w') /\ trace w' = pre ++ rest.
Proof.
  intros Hh (out & w1 & rest & Hm & Ht). unfold try_catch. rewrite Hm.
  destruct out as [a|e].
  - now exists (Returned a), w1, rest.
  - destruct (Hh e env w1) as [_ [new Hn]].
    destruct (h e env w1) as [out' w'] eqn:E.
    exists out', w', (rest ++ new). split; [reflexivity|].
    cbn [snd] in Hn. now rewrite Hn, Ht, app_assoc.
Qed.

(** Outside a sandbox, [start] of a driver that is not started and names a
    supported browser logs its choice and then launches that engine with
    the executable configured for the browser when there is one, and with
    no executable path, hence the engine's own installation, otherwise. *)
Lemma start_outside_sandbox (path : PathLib) (root : string)
    (penv : string -> option string) (env : Eff.Env Playwright.Call)
    (w : Eff.World Playwright.Call Playwright.Driver)
    (engine : Playwright.Engine) :
  Playwright.isStarted (this w) = false ->
  Playwright.engineOf (Playwright.browser (Playwright.options (this w)))
  = Some engine ->
  Playwright.isLambda penv = false ->
  exists out w' rest,
    Playwright.start path root penv env w = (out, w') /\
    trace w'
    = trace w
      ++ Logged Info [startingLine (Playwright.options (this w))]
      :: Logged Info [localChoice penv (Playwright.options (this w))]
      :: Did (Playwright.Launch engine
                (localLaunch penv (Playwright.options (this w))))
      :: rest.
Proof.
  intros Hs He Hl.
  enough (G : exists out w' rest,
             Playwright.start path root penv env w = (out, w') /\
             trace w'
             = (trace w
                ++ [Logged Info [startingLine (Playwright.options (this w))];
                    Logged Info [localChoice penv (Playwright.options (this w))];
                    Did (Playwright.Launch engine
                           (localLaunch penv (Playwright.options (this w))))])
               ++ rest).
  { destruct G as (out & w' & rest & H1 & H2). exists out, w', rest.
    split; [exact H1|]. now rewrite H2, <- app_assoc. }
  unfold Playwright.start.
  unfold bind at 1. unfold get at 1. rewrite Hs. cbv zeta.
  unfold bind at 1. unfold log at 1.
  apply try_grows.
  { intros e. frame. }
  unfold bind at 1. unfold Playwright.selectEngine. rewrite He. unfold ret at 1.
  unfold bind at 1. unfold Playwright.acquire. rewrite Hl.
  unfold localLaunch, localChoice, startingLine, configuredExecutable.
  destruct (Playwright.isChromiumName (Playwright.options (this w))) eqn:Hn;
    destruct (Js.truthy (penv "PLAYWRIGHT_CHROMIUM_EXECUTABLE_PATH")) eqn:Hp;
    cbn [andb Js.truthy];
    unfold bind at 1; unfold log at 1; unfold ret at 1; cbn [this trace];
    match goal with
    | |- exists out w' rest, bind (call ?c) ?k env ?w0 = _ /\ _ =>
        destruct (call_then_grows c k env w0) as (out & w' & rest & Hrun & Ht);
        [ intros b;
          unfold Playwright.buildContextOptions,
                 Playwright.createVideosDirectory;
          frame
        | exists out, w', rest; split; [exact Hrun|];
          rewrite Ht;
          cbn [trace Playwright.lo_headless Playwright.lo_slowMo
               Playwright.lo_args Playwright.lo_executablePath app];
          rewrite <- !app_assoc; reflexivity ]
    end.
Qed.

(** What [start] does by environment, for a driver that is not started and
    names a supported browser: with a sandbox marker set and the serverless
    binary not to be had, it throws the start-up error carrying the
    serverless message, launches no browser and changes no field; with no
    sandbox marker it launches the engine with the launch options of
    [localLaunch], which follow the code's own test of the browser name. *)
Theorem acquisition_by_environment (path : PathLib) (root : string)
    (sandbox local : string -> option string)
    (envL envN : Eff.Env Playwright.Call)
    (w : Eff.World Playwright.Call Playwright.Driver)
    (engine : Playwright.Engine) :
  Playwright.isStarted (this w) = false ->
  Playwright.engineOf (Playwright.browser (Playwright.options (this w)))
  = Some engine ->
  Playwright.isLambda sandbox = true ->
  serverlessUnavailable envL ->
  Playwright.isLambda local = false ->
  (exists w' new,
     Playwright.start path root sandbox envL w
     = (Thrown (Err ("Driver startup failed: "
                     +:+ Playwright.ServerlessBrowserUnavailable)), w') /\
     this w' = this w /\
     trace w' = trace w ++ new /\
     forallb noLaunch new = true)
  /\
  (exists out w' rest,
     Playwright.start path root local envN w = (out, w') /\
     trace w'
     = trace w
       ++ Logged Info [startingLine (Playwright.options (this w))]
       :: Logged Info [localChoice local (Playwright.options (this w))]
       :: Did (Playwright.Launch engine
                 (localLaunch local (Playwright.options (this w))))
       :: rest).
Proof.
  intros Hs He Hsb Hun Hloc. split.
  - now apply (start_in_sandbox_fails_fast path root sandbox envL w engine).
  - now apply (start_outside_sandbox path root local envN w engine).
Qed.

(** The same on a freshly constructed driver with default options, in a
    sandbox and on a machine with a Chromium executable configured. *)
Lemma acquisition_by_environment_witness :
  (exists w' new,
     Playwright.start Sample.path Sample.projectRoot Sample.lambdaEnv
       Sample.deadEnv Sample.freshPlaywright
     = (Thrown (Err ("Driver startup failed: "
                     +:+ Playwright.ServerlessBrowserUnavailable)), w') /\
     this w' = this Sample.freshPlaywright /\
     trace w' = trace Sample.freshPlaywright ++ new /\
     forallb noLaunch new = true)
  /\
  (exists out w' rest,
     Playwright.start Sample.path Sample.projectRoot Sample.customEnv
       Sample.deadEnv Sample.freshPlaywright = (out, w') /\
     trace w'
     = trace Sample.freshPlaywright
       ++ Logged Info
            [startingLine (Playwright.options (this Sample.freshPlaywright))]
       :: Logged Info
            [localChoice Sample.customEnv
               (Playwright.options (this Sample.freshPlaywright))]
       :: Did (Playwright.Launch Playwright.chromium
                 (localLaunch Sample.customEnv
                    (Playwright.options (this Sample.freshPlaywright))))
       :: rest).
Proof.
  apply (acquisition_by_environment Sample.path Sample.projectRoot
           Sample.lambdaEnv Sample.customEnv Sample.deadEnv Sample.deadEnv
           Sample.freshPlaywright Playwright.chromium).
  - reflexivity.
  - reflexivity.
  - reflexivity.
  - left. intros tr. eexists. reflexivity.
  - reflexivity.
Defined.

(** C6. The configured executable is not preferred when the browser name is
    not written in lower case. On a machine with no sandbox marker and with
    [PLAYWRIGHT_CHROMIUM_EXECUTABLE_PATH] set, a driver constructed for
    [Chromium] selects the Chromium engine, since the [switch] lower-cases
    the name, logs that it uses the default installation and launches with
    no executable path and no launch argument, since the two later tests
    compare the name as written; the same driver constructed for [chromium]
    logs the configured executable and launches it. The engine here refuses
    every launch, which ends both runs right after it. *)
Theorem configured_path_ignored_for_capitalised_name :
  Playwright.start Sample.path Sample.projectRoot Sample.customEnv
    Sample.deadEnv (Scenes.playwrightFor "Chromium")
  = (Thrown (Err "Driver startup failed: unavailable"),
     mkWorld (this (Scenes.playwrightFor "Chromium"))
       [Logged Info ["Starting Chromium browser (headless: true)"];
        Logged Info ["Using default Playwright browser installation"];
        Did (Playwright.Launch Playwright.chromium
               (Playwright.mkLaunch true 0%N [] None));
        Logged ErrorLevel ["Failed to start browser driver:"; "unavailable"]])
  /\
  Playwright.start Sample.path Sample.projectRoot Sample.customEnv
    Sample.deadEnv (Scenes.playwrightFor "chromium")
  = (Thrown (Err "Driver startup failed: unavailable"),
     mkWorld (this (Scenes.playwrightFor "chromium"))
       [Logged Info ["Starting chromium browser (headless: true)"];
        Logged Info ["Using custom Chromium executable: /usr/bin/chromium"];
        Did (Playwright.Launch Playwright.chromium
               (Playwright.mkLaunch true 0%N Playwright.chromiumArgs
                  (Some "/usr/bin/chromium")));
        Logged ErrorLevel ["Failed to start browser driver:"; "unavailable"]]).
Proof. split; reflexivity. Qed.

Example start_sandbox_trace :
  Playwright.start Sample.path Sample.projectRoot Sample.lambdaEnv
    Sample.deadEnv Sample.freshPlaywright
  = (Thrown (Err "Driver startup failed: Lambda environment detected but serverless Chromium not available. Install @sparticuz/chromium package."),
     mkWorld (this Sample.freshPlaywright)
       [Logged Info ["Starting chromium browser (headless: true)"];
        Did Playwright.RequireServerlessChromium;
        Logged Warn ["Serverless Chromium not available in Lambda: unavailable"];
        Logged ErrorLevel
          ["Failed to start browser driver:";
           "Lambda environment detected but serverless Chromium not available. Install @sparticuz/chromium package."]]).
Proof. reflexivity. Qed.

Example start_custom_executable :
  localLaunch Sample.customEnv (Playwright.options (this Sample.freshPlaywright))
  = Playwright.mkLaunch true 0%N Playwright.chromiumArgs (Some "/usr/bin/chromium").
Proof. reflexivity. Qed.

Example start_firefox_has_no_configured_path :
  localLaunch Sample.customEnv
    (Playwright.mergeOptions
       (Playwright.mkUserOptions (Some "firefox") None None None None None None
          None None None None None None))
  = Playwright.mkLaunch true 0%N [] None.
Proof. reflexivity. Qed.

Example start_default_installation :
  localLaunch Sample.noEnv (Playwright.options (this Sample.freshPlaywright))
  = Playwright.mkLaunch true 0%N Playwright.chromiumArgs None.
Proof. reflexivity. Qed.

(** ** Re-entrant [start] on the browser subclasses *)

(** Runs a method of the WebDriver driver on a symbolic world: unfolds the
    plumbing, uses what is known of the fields, and splits on every answer
    of the outside and on the headless flag. *)
Ltac crunch env :=
  repeat first
    [ progress eff
    | progress cbn [Selenium.isStarted Selenium.driver Selenium.currentUrl
                    Selenium.options Selenium.set_options Selenium.headless
                    Selenium.set_chromeSpecific Selenium.set_edgeSpecific
                    Selenium.set_firefoxSpecific negb]
    | match goal with
      | H : Selenium.isStarted ?s = _ |- context [Selenium.isStarted ?s] =>
          rewrite H
      | H : Selenium.driver ?s = _ |- context [Selenium.driver ?s] =>
          rewrite H
      end
    | match goal with
      | |- context [env ?A ?tr ?c] => destruct (env A tr c)
      | |- context [match Selenium.driver (this ?w) with _ => _ end] =>
          destruct (Selenium.driver (this w)) eqn:?
      | |- context [Selenium.headless ?o] => destruct (Selenium.headless o)
      end ].

(** On every class of the WebDriver driver, [start] on a started driver
    returns without throwing, logs the warning first, opens no session and
    leaves handle, started flag and current URL as they were. *)
Lemma restart_keeps_session (f : SeleniumOps.Family)
    (env : Eff.Env Selenium.Call) (w : Eff.World Selenium.Call Selenium.Driver) :
  Selenium.isStarted (this w) = true ->
  exists w' new,
    SeleniumOps.startOf f env w = (Returned tt, w') /\
    Selenium.driver (this w') = Selenium.driver (this w) /\
    Selenium.isStarted (this w') = true /\
    Selenium.currentUrl (this w') = Selenium.currentUrl (this w) /\
    trace w' = trace w ++ Logged Warn ["Driver already started"] :: new /\
    forallb noBuild new = true.
Proof.
  intros Hs.
  destruct f; cbn [SeleniumOps.startOf];
    unfold Selenium.chrome_start, Selenium.edge_start, Selenium.firefox_start,
           Selenium._configureChromePerformance,
           Selenium._configureEdgePerformance,
           Selenium._configureFirefoxPerformance,
           Selenium.setViewportUnlessHeadless, Selenium.executeScript,
           Selenium._ensureStarted, Selenium.theDriver, Selenium.start;
    crunch env;
    repeat match goal with u : unit |- _ => destruct u end;
    eexists; eexists; (split; [reflexivity|]);
    cbn [this trace Selenium.isStarted Selenium.driver Selenium.currentUrl
         Selenium.set_options];
    rewrite <- ?app_assoc; cbn [app];
    repeat split; try assumption; try reflexivity.
Qed.

(** C3. The Chrome subclass breaks the idempotence of [start]: on a driver
    that a first [start] has started, a second [start] logs the warning and
    then runs the start-up style script on the page again, where the [start]
    of the base class, on the same driver, logs the warning and returns. The
    override tests [isStarted] only after [super.start()] and so cannot tell
    a start that has just succeeded from one that was refused. *)
Lemma chrome_restart_runs_script :
  Selenium.isStarted (this Sample.startedChrome) = true /\
  SeleniumOps.startOf SeleniumOps.Chrome Sample.calmSelenium Sample.startedChrome
  = (Returned tt,
     mkWorld (this Sample.startedChrome)
       (trace Sample.startedChrome
        ++ [Logged Warn ["Driver already started"];
            Did (Selenium.ExecuteScript 1 Selenium.chromeStyleScript [])])) /\
  SeleniumOps.startOf SeleniumOps.Base Sample.calmSelenium Sample.startedChrome
  = (Returned tt,
     mkWorld (this Sample.startedChrome)
       (trace Sample.startedChrome
        ++ [Logged Warn ["Driver already started"]])).
Proof. repeat split; reflexivity. Qed.

(** What does hold of a repeated [start] and of an early [quit]. [start] on
    a driver that is already started never throws, logs the warning, opens
    no session and leaves handle, started flag and current URL as they
    were, on every class of driver, so the one live session stays the only
    one; on the base WebDriver driver and on the DevTools driver it does
    nothing else and leaves every field unchanged. [quit] on a driver that
    is not started (never started, or already quit) returns without
    throwing, with every field unchanged, after logging a warning. *)
Theorem start_quit_idempotent
    (path : PathLib) (root : string) (penv : string -> option string)
    (f : SeleniumOps.Family)
    (envA : Eff.Env Selenium.Call) (envB : Eff.Env Playwright.Call)
    (wA wA' : Eff.World Selenium.Call Selenium.Driver)
    (wB wB' : Eff.World Playwright.Call Playwright.Driver) :
  Selenium.isStarted (this wA) = true ->
  Playwright.isStarted (this wB) = true ->
  Selenium.isStarted (this wA') = false ->
  Playwright.isStarted (this wB') = false ->
  Selenium.start envA wA
  = (Returned tt,
     mkWorld (this wA) (trace wA ++ [Logged Warn ["Driver already started"]]))
  /\
  Playwright.start path root penv envB wB
  = (Returned tt,
     mkWorld (this wB) (trace wB ++ [Logged Warn ["Driver already started"]]))
  /\
  (exists w' new,
     SeleniumOps.startOf f envA wA = (Returned tt, w') /\
     Selenium.driver (this w') = Selenium.driver (this wA) /\
     Selenium.isStarted (this w') = true /\
     Selenium.currentUrl (this w') = Selenium.currentUrl (this wA) /\
     trace w' = trace wA ++ Logged Warn ["Driver already started"] :: new /\
     forallb noBuild new = true)
  /\
  Selenium.quit envA wA'
  = (Returned tt,
     mkWorld (this wA')
       (trace wA' ++ [Logged Warn ["Driver not started or already quit"]]))
  /\
  Playwright.quit envB wB'
  = (Returned tt,
     mkWorld (this wB')
       (trace wB' ++ [Logged Warn ["Driver not started or already quit"]])).
Proof.
  intros H1 H2 H3 H4. split; [|split; [|split; [|split]]].
  - unfold Selenium.start. eff. now rewrite H1.
  - unfold Playwright.start. eff. now rewrite H2.
  - now apply restart_keeps_session.
  - unfold Selenium.quit. eff. now rewrite H3.
  - unfold Playwright.quit. eff. now rewrite H4.
Qed.

(** The same on started and on freshly constructed drivers. *)
Lemma start_quit_idempotent_witness :
  Selenium.start Sample.calmSelenium Sample.startedSelenium
  = (Returned tt,
     mkWorld (this Sample.startedSelenium)
       (trace Sample.startedSelenium ++ [Logged Warn ["Driver already started"]]))
  /\
  Playwright.start Sample.path Sample.projectRoot Sample.noEnv Sample.deadEnv
    Sample.startedPlaywright
  = (Returned tt,
     mkWorld (this Sample.startedPlaywright)
       (trace Sample.startedPlaywright
        ++ [Logged Warn ["Driver already started"]]))
  /\
  (exists w' new,
     SeleniumOps.startOf SeleniumOps.Edge Sample.calmSelenium
       Sample.startedSelenium = (Returned tt, w') /\
     Selenium.driver (this w') = Selenium.driver (this Sample.startedSelenium) /\
     Selenium.isStarted (this w') = true /\
     Selenium.currentUrl (this w')
     = Selenium.currentUrl (this Sample.startedSelenium) /\
     trace w'
     = trace Sample.startedSelenium
       ++ Logged Warn ["Driver already started"] :: new /\
     forallb noBuild new = true)
  /\
  Selenium.quit Sample.calmSelenium Sample.freshSelenium
  = (Returned tt,
     mkWorld (this Sample.freshSelenium)
       (trace Sample.freshSelenium
        ++ [Logged Warn ["Driver not started or already quit"]]))
  /\
  Playwright.quit Sample.deadEnv Sample.freshPlaywright
  = (Returned tt,
     mkWorld (this Sample.freshPlaywright)
       (trace Sample.freshPlaywright
        ++ [Logged Warn ["Driver not started or already quit"]])).
Proof.
  exact (start_quit_idempotent Sample.path Sample.projectRoot Sample.noEnv
           SeleniumOps.Edge Sample.calmSelenium Sample.deadEnv
           Sample.startedSelenium Sample.freshSelenium
           Sample.startedPlaywright Sample.freshPlaywright
           eq_refl eq_refl eq_refl eq_refl).
Defined.

Example start_then_start :
  Selenium.isStarted (this (snd (Selenium.start Sample.calmSelenium Sample.freshSelenium)))
  = true
  /\ trace (snd (Selenium.start Sample.calmSelenium Sample.freshSelenium))
     = [Logged Info ["Starting chrome browser (headless: true)"];
        Did (Selenium.Mkdir "/app/./downloads");
        Logged Info ["Chrome download directory set to: /app/./downloads"];
        Did (Selenium.Build
               (Selenium.mkBuildSpec "chrome"
                  ["--headless=new"; "--window-size=1920,1080"; "--no-sandbox";
                   "--disable-dev-shm-usage"; "--disable-gpu";
                   "--disable-web-security"; "--allow-running-insecure-content"]
                  [("download.default_directory", Selenium.PStr "/app/./downloads");
                   ("download.prompt_for_download", Selenium.PBool false);
                   ("download.directory_upgrade", Selenium.PBool true);
                   ("safebrowsing.enabled", Selenium.PBool true)]));
        Did (Selenium.SetTimeouts 1 10000%N 30000%N 30000%N);
        Logged Info ["Browser driver started successfully"]].
Proof. split; reflexivity. Qed.

(** ** The form analysers *)

Lemma existsb_orb {A} (f g : A -> bool) (l : list A) :
  existsb (fun x => f x || g x) l = existsb f l || existsb g l.
Proof.
  induction l as [|x l IH]; [reflexivity|]. cbn [existsb]. rewrite IH.
  destruct (f x), (g x), (existsb f l), (existsb g l); reflexivity.
Qed.

(** X1. The purpose detector tries login first. A form with a password field
    and a field whose name contains [email], [username] or [login] is a
    login form, whatever else it holds; so a form classified as
    registration has no such field, has a password field and more than
    three fields, and a form classified as newsletter has no password field
    and at most two fields. *)
Theorem detectFormPurpose_login_first (form : EnhancedBrowserParser.Form) :
  (someFieldName form "password" = true ->
   someFieldName form "email" || someFieldName form "username"
   || someFieldName form "login" = true ->
   EnhancedBrowserParser._detectFormPurpose form = "login")
  /\
  (EnhancedBrowserParser._detectFormPurpose form = "registration" ->
   someFieldName form "password" = true /\
   someFieldName form "email" = false /\
   someFieldName form "username" = false /\
   someFieldName form "login" = false /\
   3 < List.length (EnhancedBrowserParser.fields form))
  /\
  (EnhancedBrowserParser._detectFormPurpose form = "newsletter" ->
   someFieldName form "password" = false /\
   someFieldName form "email" = true /\
   List.length (EnhancedBrowserParser.fields form) <= 2).
Proof.
  unfold EnhancedBrowserParser._detectFormPurpose, someFieldName.
  rewrite !existsb_orb, length_map.
  set (names := map (fun kv => Js.toLowerCase (fst kv))
                    (EnhancedBrowserParser.fields form)).
  set (has := fun needle => existsb (fun name => Js.includes name needle) names).
  change (existsb (fun name => Js.includes name "password") names)
    with (has "password").
  change (existsb (fun name => Js.includes name "email") names)
    with (has "email").
  change (existsb (fun name => Js.includes name "username") names)
    with (has "username").
  change (existsb (fun name => Js.includes name "login") names)
    with (has "login").
  destruct (has "password"), (has "email"), (has "username"), (has "login");
    cbn [andb orb];
    (split; [intros; try reflexivity; discriminate|]);
    repeat match goal with
           | |- context [if ?b then _ else _] => destruct b eqn:?
           end;
    (split; intros H; try discriminate H);
    repeat split; try reflexivity;
    repeat match goal with
           | H : _ && _ = true |- _ => apply andb_prop in H; destruct H
           end;
    try (apply Nat.ltb_lt; assumption);
    try (apply Nat.leb_le; assumption).
Qed.

(** A sign-up form that asks for an e-mail address is classified as a
    login form. *)
Lemma detectFormPurpose_login_first_witness :
  EnhancedBrowserParser._detectFormPurpose
    (EnhancedBrowserParser.mkForm
       [("Email", EnhancedBrowserParser.mkField "email" true);
        ("password", EnhancedBrowserParser.mkField "password" true);
        ("confirm_password", EnhancedBrowserParser.mkField "password" true);
        ("full_name", EnhancedBrowserParser.mkField "text" false)]
       "/signup")
  = "login".
Proof.
  apply (proj1 (detectFormPurpose_login_first _)); reflexivity.
Defined.

Lemma validation_fold (l : list (string * EnhancedBrowserParser.Field))
    (v : EnhancedBrowserParser.Validation) :
  let v' := fold_left EnhancedBrowserParser.validationStep l v in
  EnhancedBrowserParser.requiredFields v'
  = EnhancedBrowserParser.requiredFields v
    ++ map fst (filter (fun kv => EnhancedBrowserParser.required (snd kv)) l)
  /\ EnhancedBrowserParser.patternFields v'
     = EnhancedBrowserParser.patternFields v
       ++ map fst (filter (fun kv => patternType (snd kv)) l)
  /\ EnhancedBrowserParser.lengthFields v'
     = EnhancedBrowserParser.lengthFields v
       ++ map fst (filter (fun kv => lengthType (snd kv)) l)
  /\ EnhancedBrowserParser.hasRequiredFields v'
     = EnhancedBrowserParser.hasRequiredFields v
       || existsb (fun kv => EnhancedBrowserParser.required (snd kv)) l
  /\ EnhancedBrowserParser.hasPatternValidation v'
     = EnhancedBrowserParser.hasPatternValidation v
       || existsb (fun kv => patternType (snd kv)) l
  /\ EnhancedBrowserParser.hasLengthValidation v'
     = EnhancedBrowserParser.hasLengthValidation v
       || existsb (fun kv => lengthType (snd kv)) l.
Proof.
  revert v. induction l as [|[name f] l IH]; intros v; cbn zeta.
  - cbn. rewrite !app_nil_r, !orb_false_r. repeat split; reflexivity.
  - cbn [fold_left].
    destruct (IH (EnhancedBrowserParser.validationStep v (name, f)))
      as (H1 & H2 & H3 & H4 & H5 & H6).
    cbn zeta in *. rewrite H1, H2, H3, H4, H5, H6. clear.
    unfold EnhancedBrowserParser.validationStep, patternType, lengthType.
    cbn [fst snd filter existsb].
    destruct (EnhancedBrowserParser.required f);
      destruct (String.eqb (EnhancedBrowserParser.type_ f) "email"
                || String.eqb (EnhancedBrowserParser.type_ f) "tel"
                || String.eqb (EnhancedBrowserParser.type_ f) "url");
      destruct (String.eqb (EnhancedBrowserParser.type_ f) "password"
                || String.eqb (EnhancedBrowserParser.type_ f) "textarea");
      cbn [EnhancedBrowserParser.requiredFields
           EnhancedBrowserParser.patternFields
           EnhancedBrowserParser.lengthFields
           EnhancedBrowserParser.hasRequiredFields
           EnhancedBrowserParser.hasPatternValidation
           EnhancedBrowserParser.hasLengthValidation map];
      rewrite <- ?app_assoc; cbn [app];
      rewrite ?orb_true_r, ?orb_false_r; cbn [orb];
      repeat split; reflexivity.
Qed.

Lemma map_filter_nil {A B} (f : A -> B) (p : A -> bool) (l : list A) :
  map f (filter p l) = [] <-> existsb p l = false.
Proof.
  induction l as [|x l IH]; cbn; [tauto|].
  destruct (p x); cbn; [split; discriminate|exact IH].
Qed.

(** X2. The validation report lists, in the order of the form, exactly the
    required fields, the fields of type email, tel or url, and the fields
    of type password or textarea; each flag is set exactly when its list is
    not empty, and no field is in both of the last two lists by position:
    a type cannot be of both kinds. *)
Theorem analyzeFormValidation_lists (form : EnhancedBrowserParser.Form) :
  let v := EnhancedBrowserParser._analyzeFormValidation form in
  EnhancedBrowserParser.requiredFields v
  = fieldsWhere EnhancedBrowserParser.required form
  /\ EnhancedBrowserParser.patternFields v = fieldsWhere patternType form
  /\ EnhancedBrowserParser.lengthFields v = fieldsWhere lengthType form
  /\ (EnhancedBrowserParser.hasRequiredFields v = false
      <-> EnhancedBrowserParser.requiredFields v = [])
  /\ (EnhancedBrowserParser.hasPatternValidation v = false
      <-> EnhancedBrowserParser.patternFields v = [])
  /\ (EnhancedBrowserParser.hasLengthValidation v = false
      <-> EnhancedBrowserParser.lengthFields v = [])
  /\ (forall f, patternType f = true -> lengthType f = false).
Proof.
  cbv zeta. unfold EnhancedBrowserParser._analyzeFormValidation, fieldsWhere.
  destruct (validation_fold (EnhancedBrowserParser.fields form)
              (EnhancedBrowserParser.mkValidation false [] false [] false []))
    as (H1 & H2 & H3 & H4 & H5 & H6).
  cbn zeta in *. rewrite H1, H2, H3, H4, H5, H6.
  cbn [EnhancedBrowserParser.requiredFields EnhancedBrowserParser.patternFields
       EnhancedBrowserParser.lengthFields
       EnhancedBrowserParser.hasRequiredFields
       EnhancedBrowserParser.hasPatternValidation
       EnhancedBrowserParser.hasLengthValidation app orb].
  split; [reflexivity|]. split; [reflexivity|]. split; [reflexivity|].
  split; [symmetry; apply map_filter_nil|].
  split; [symmetry; apply map_filter_nil|].
  split; [symmetry; apply map_filter_nil|].
  intros f. unfold patternType, lengthType.
  destruct (String.eqb_spec (EnhancedBrowserParser.type_ f) "email") as [->|];
    [reflexivity|].
  destruct (String.eqb_spec (EnhancedBrowserParser.type_ f) "tel") as [->|];
    [reflexivity|].
  destruct (String.eqb_spec (EnhancedBrowserParser.type_ f) "url") as [->|];
    [reflexivity|].
  discriminate.
Qed.

(** ** The selector analyser of the DevTools utilities *)

(** X3. A selector written [data-testid=<value>] whose value starts with an
    ASCII character [c] (one byte here, one unit of the JavaScript string)
    loses that character: the analyser cuts thirteen characters off a prefix
    that is twelve long, so [data-testid=submit] is rewritten to the
    attribute selector for [ubmit]. The rest of the value may hold any
    character. *)
Theorem getSelectorInfo_testid_drops_first (c : ascii) (rest : string) :
  nat_of_ascii c < 128 ->
  Js.includes ("data-testid=" +:+ String c rest) "text=" = false ->
  PlaywrightUtils.getSelectorInfo ("data-testid=" +:+ String c rest)
  = PlaywrightUtils.mkInfo "testid"
      ("[data-testid=" +:+ Js.dq +:+ rest +:+ Js.dq +:+ "]") "testid".
Proof.
  intros _ H. unfold PlaywrightUtils.getSelectorInfo. rewrite H. reflexivity.
Qed.

Lemma getSelectorInfo_testid_drops_first_witness :
  PlaywrightUtils.getSelectorInfo "data-testid=submit"
  = PlaywrightUtils.mkInfo "testid"
      ("[data-testid=" +:+ Js.dq +:+ "ubmit" +:+ Js.dq +:+ "]") "testid".
Proof.
  apply (getSelectorInfo_testid_drops_first "s" "ubmit").
  - cbn. lia.
  - reflexivity.
Defined.

(** X4. Whatever is not XPath and contains [text=] anywhere is labelled a text
    selector, before the role, label, placeholder and test-id prefixes are
    looked at; and every label but the test-id one hands the selector back
    unchanged. *)
Theorem getSelectorInfo_text_shadows (selector : string) :
  (Js.startsWith selector "//" = false ->
   Js.startsWith selector "(//" = false ->
   Js.includes selector "text=" = true ->
   PlaywrightUtils.type_ (PlaywrightUtils.getSelectorInfo selector) = "text")
  /\
  (PlaywrightUtils.type_ (PlaywrightUtils.getSelectorInfo selector) <> "testid" ->
   PlaywrightUtils.selector (PlaywrightUtils.getSelectorInfo selector)
   = selector).
Proof.
  unfold PlaywrightUtils.getSelectorInfo. split.
  - intros H1 H2 H3. rewrite H1, H2, H3. cbn [orb].
    destruct (Js.startsWith selector "text="); reflexivity.
  - repeat match goal with
           | |- context [if ?b then _ else _] => destruct b
           end; cbn [PlaywrightUtils.type_ PlaywrightUtils.selector];
      intros H; try reflexivity. now contradiction H.
Qed.

Lemma getSelectorInfo_text_shadows_witness :
  PlaywrightUtils.type_
    (PlaywrightUtils.getSelectorInfo "role=button >> text=Save") = "text".
Proof.
  apply (proj1 (getSelectorInfo_text_shadows "role=button >> text=Save"));
    reflexivity.
Defined.

(** ** The timestamp helper against the drivers' file stamp *)

(** X5. For every clock reading whose year has four digits [getTimestamp]
    gives the nineteen characters [YYYY-MM-DDTHH-mm-ss], and the stamp the
    drivers put into artifact file names is this string with the [T]
    replaced by an underscore: the two agree up to that one character. *)
Theorem getTimestamp_matches_file_stamp (path : PathLib) (now : UTCTime)
    (baseName : string) :
  Clock.wellFormed now ->
  SeleniumHelpers.getTimestamp now
  = Clock.pad4 (year now) +:+ "-" +:+ Clock.pad2 (month now) +:+ "-"
    +:+ Clock.pad2 (day now) +:+ "T" +:+ Clock.pad2 (hours now) +:+ "-"
    +:+ Clock.pad2 (minutes now) +:+ "-" +:+ Clock.pad2 (seconds now)
  /\ String.length (SeleniumHelpers.getTimestamp now) = 19
  /\ Clock.replaceFirstT (SeleniumHelpers.getTimestamp now) = Clock.stamp now
  /\ _generateFilename path now baseName true
     = basename path baseName (extname path baseName) +:+ "_"
       +:+ Clock.replaceFirstT (SeleniumHelpers.getTimestamp now)
       +:+ extname path baseName.
Proof.
  intros Hwf.
  assert (Hy : Nat.ltb (year now) (10 * 1000) = true)
    by (apply Nat.ltb_lt; exact (proj1 Hwf)).
  assert (E : SeleniumHelpers.getTimestamp now
              = Clock.pad4 (year now) +:+ "-" +:+ Clock.pad2 (month now)
                +:+ "-" +:+ Clock.pad2 (day now) +:+ "T"
                +:+ Clock.pad2 (hours now) +:+ "-"
                +:+ Clock.pad2 (minutes now) +:+ "-"
                +:+ Clock.pad2 (seconds now)).
  { unfold SeleniumHelpers.getTimestamp, SeleniumHelpers.toISOString.
    rewrite Hy.
    unfold Clock.toISOString, Clock.pad4, Clock.pad3, Clock.pad2.
    cbn [String.append SeleniumHelpers.replaceAll].
    repeat (progress
              (repeat match goal with
                      | |- context [Ascii.eqb (Clock.digit ?d) ":"] =>
                          rewrite (proj1 (digit_plain d))
                      | |- context [Ascii.eqb (Clock.digit ?d) "."] =>
                          rewrite (proj1 (proj2 (digit_plain d)))
                      end);
            cbn [Ascii.eqb Bool.eqb]).
    reflexivity. }
  assert (S : Clock.replaceFirstT (SeleniumHelpers.getTimestamp now)
              = Clock.stamp now).
  { rewrite E. unfold Clock.stamp, Clock.pad4, Clock.pad3, Clock.pad2.
    cbn [String.append Clock.replaceFirstT].
    repeat match goal with
           | |- context [Ascii.eqb (Clock.digit ?d) "T"] =>
               rewrite (proj2 (proj2 (digit_plain d)))
           end.
    cbn [Ascii.eqb Bool.eqb Clock.replaceFirstT]. reflexivity. }
  split; [exact E|]. split; [rewrite E; reflexivity|]. split; [exact S|].
  rewrite S. unfold _generateFilename. now rewrite timestamp_is_stamp.
Qed.

(** X5 at [shot.png] and an instant of 2024. *)
Lemma getTimestamp_matches_file_stamp_witness :
  Clock.wellFormed Sample.t0
  /\ SeleniumHelpers.getTimestamp Sample.t0 = "2024-01-15T10-30-45"
  /\ _generateFilename Sample.path Sample.t0 "shot.png" true
     = basename Sample.path "shot.png" (extname Sample.path "shot.png") +:+ "_"
       +:+ Clock.replaceFirstT (SeleniumHelpers.getTimestamp Sample.t0)
       +:+ extname Sample.path "shot.png".
Proof.
  assert (H0 : Clock.wellFormed Sample.t0) by (unfold Clock.wellFormed; simpl; lia).
  split; [exact H0|].
  destruct (getTimestamp_matches_file_stamp Sample.path Sample.t0 "shot.png" H0)
    as (_ & _ & _ & G).
  split; [reflexivity|exact G].
Defined.

Example getTimestamp_example :
  SeleniumHelpers.getTimestamp Sample.t0 = "2024-01-15T10-30-45".
Proof. reflexivity. Qed.

(** Past the year 9999 the nineteen characters end within the minutes. *)
Example getTimestamp_five_digit_year :
  SeleniumHelpers.getTimestamp (mkUTC (10 * 1000) 1 1 0 0 0 0)
  = "+010000-01-01T00-00".
Proof. reflexivity. Qed.

(** ** The browser-specific flags *)

(** The frame lemmas for [blind]: a method built from steps that never
    look at the three entries is blind to them. *)
Lemma blind_ret {A} (a : A) : blind (ret a).
Proof. intros env s tr. exists (Returned a), s, tr. intros c e f. now exists c, e, f. Qed.

Lemma blind_throw {A} (err : Error) : blind (@throw _ _ A err).
Proof. intros env s tr. exists (Thrown err), s, tr. intros c e f. now exists c, e, f. Qed.

Lemma blind_log (l : Level) (args : list string) : blind (log l args).
Proof.
  intros env s tr. exists (Returned tt), s, (tr ++ [Logged l args]).
  intros c e f. now exists c, e, f.
Qed.

Lemma blind_call {A} (c0 : Selenium.Call A) : blind (call c0).
Proof.
  intros env s tr. exists (env A tr c0), s, (tr ++ [Did c0]).
  intros c e f. now exists c, e, f.
Qed.

Lemma blind_modify (g g' : Selenium.Driver -> Selenium.Driver) :
  (forall c e f s, exists c' e' f',
      g (withFlags c e f s) = withFlags c' e' f' (g' s)) ->
  blind (modify g).
Proof.
  intros H env s tr. exists (Returned tt), (g' s), tr. intros c e f.
  destruct (H c e f s) as (c' & e' & f' & E). exists c', e', f'.
  unfold modify. cbn [this trace]. now rewrite E.
Qed.

Lemma blind_bind {A B} (m : Selenium.M A) (k : A -> Selenium.M B) :
  blind m -> (forall a, blind (k a)) -> blind (bind m k).
Proof.
  intros Hm Hk env s tr. destruct (Hm env s tr) as (out & s1 & tr1 & H1).
  destruct out as [a|err].
  - destruct (Hk a env s1 tr1) as (out2 & s2 & tr2 & H2).
    exists out2, s2, tr2. intros c e f.
    destruct (H1 c e f) as (c1 & e1 & f1 & E1).
    destruct (H2 c1 e1 f1) as (c2 & e2 & f2 & E2).
    exists c2, e2, f2. unfold bind. now rewrite E1.
  - exists (Thrown err), s1, tr1. intros c e f.
    destruct (H1 c e f) as (c1 & e1 & f1 & E1).
    exists c1, e1, f1. unfold bind. now rewrite E1.
Qed.

Lemma blind_try {A} (m : Selenium.M A) (h : Error -> Selenium.M A) :
  blind m -> (forall err, blind (h err)) -> blind (try_catch m h).
Proof.
  intros Hm Hh env s tr. destruct (Hm env s tr) as (out & s1 & tr1 & H1).
  destruct out as [a|err].
  - exists (Returned a), s1, tr1. intros c e f.
    destruct (H1 c e f) as (c1 & e1 & f1 & E1).
    exists c1, e1, f1. unfold try_catch. now rewrite E1.
  - destruct (Hh err env s1 tr1) as (out2 & s2 & tr2 & H2).
    exists out2, s2, tr2. intros c e f.
    destruct (H1 c e f) as (c1 & e1 & f1 & E1).
    destruct (H2 c1 e1 f1) as (c2 & e2 & f2 & E2).
    exists c2, e2, f2. unfold try_catch. now rewrite E1.
Qed.

(** Reading the fields is blind when what follows is the same whatever the
    three entries hold. *)
Lemma blind_get {B} (k : Selenium.Driver -> Selenium.M B) :
  (forall c e f s, k (withFlags c e f s) = k s) ->
  (forall s, blind (k s)) ->
  blind (bind get k).
Proof.
  intros Hsame Hk env s tr. destruct (Hk s env s tr) as (out & s1 & tr1 & H1).
  exists out, s1, tr1. intros c e f.
  destruct (H1 c e f) as (c1 & e1 & f1 & E1). exists c1, e1, f1.
  unfold bind, get. cbn [this]. now rewrite Hsame.
Qed.

Lemma blind_set_driver (v : option Selenium.Handle) :
  blind (modify (Selenium.set_driver v)).
Proof.
  apply (blind_modify _ (Selenium.set_driver v)).
  intros c e f s. now exists c, e, f.
Qed.

Lemma blind_set_isStarted (v : bool) : blind (modify (Selenium.set_isStarted v)).
Proof.
  apply (blind_modify _ (Selenium.set_isStarted v)).
  intros c e f s. now exists c, e, f.
Qed.

(** The first statement of an overriding [start] rewrites one of the three
    entries from what it held, and nothing else. *)
Lemma blind_set_flags (defaults : Selenium.Flags) :
  blind (modify (fun s =>
           Selenium.set_options
             (Selenium.set_chromeSpecific
                (Some (Selenium.spread defaults
                         (Selenium.chromeSpecific (Selenium.options s))))
                (Selenium.options s)) s))
  /\ blind (modify (fun s =>
              Selenium.set_options
                (Selenium.set_edgeSpecific
                   (Some (Selenium.spread defaults
                            (Selenium.edgeSpecific (Selenium.options s))))
                   (Selenium.options s)) s))
  /\ blind (modify (fun s =>
              Selenium.set_options
                (Selenium.set_firefoxSpecific
                   (Some (Selenium.spread defaults
                            (Selenium.firefoxSpecific (Selenium.options s))))
                   (Selenium.options s)) s)).
Proof.
  split; [|split]; apply (blind_modify _ (fun s => s)); intros c e f s.
  - eexists; exists e, f; reflexivity.
  - exists c; eexists; exists f; reflexivity.
  - exists c, e; eexists; reflexivity.
Qed.

Ltac blind_step :=
  first
    [ apply blind_get; [intros ? ? ? ?; reflexivity|intros ?]
    | apply blind_bind; [|intros ?]
    | apply blind_try; [|intros ?]
    | apply blind_ret
    | apply blind_throw
    | apply blind_call
    | apply blind_log
    | apply blind_set_driver
    | apply blind_set_isStarted
    | apply (proj1 (blind_set_flags _))
    | apply (proj1 (proj2 (blind_set_flags _)))
    | apply (proj2 (proj2 (blind_set_flags _)))
    | match goal with
      | |- blind (if ?b then _ else _) => destruct b
      | |- blind (match ?x with _ => _ end) => destruct x
      | |- blind (let _ := _ in _) => cbv zeta
      end ].

Lemma startOf_blind (fam : SeleniumOps.Family) : blind (SeleniumOps.startOf fam).
Proof.
  destruct fam; cbn [SeleniumOps.startOf];
    unfold Selenium.chrome_start, Selenium.edge_start, Selenium.firefox_start,
           Selenium._configureChromePerformance,
           Selenium._configureEdgePerformance,
           Selenium._configureFirefoxPerformance,
           Selenium.setViewportUnlessHeadless, Selenium.executeScript,
           Selenium._ensureStarted, Selenium.theDriver, Selenium.start,
           Selenium.chromeBuild, Selenium.firefoxBuild, Selenium.edgeBuild;
    repeat blind_step.
Qed.

Lemma withFlags_self (s : Selenium.Driver) :
  withFlags (Selenium.chromeSpecific (Selenium.options s))
            (Selenium.edgeSpecific (Selenium.options s))
            (Selenium.firefoxSpecific (Selenium.options s)) s = s.
Proof. destruct s as [d o st url out down shots vids]. now destruct o. Qed.

(** X6. The flags a browser subclass keeps under [chromeSpecific],
    [edgeSpecific] and [firefoxSpecific] never reach the browser: whatever
    the three entries hold before [start], the method settles the same way,
    asks the engine and the file system for exactly the same things, and
    leaves the same handle, started flag and current URL. *)
Theorem browser_flags_never_read (f : SeleniumOps.Family)
    (env : Eff.Env Selenium.Call) (s : Selenium.Driver)
    (tr : list (Eff.Event Selenium.Call))
    (chromeFlags edgeFlags firefoxFlags : option Selenium.Flags) :
  let plain := SeleniumOps.startOf f env (mkWorld s tr) in
  let flagged :=
    SeleniumOps.startOf f env
      (mkWorld (withFlags chromeFlags edgeFlags firefoxFlags s) tr) in
  fst flagged = fst plain /\
  trace (snd flagged) = trace (snd plain) /\
  Selenium.driver (this (snd flagged)) = Selenium.driver (this (snd plain)) /\
  Selenium.isStarted (this (snd flagged))
  = Selenium.isStarted (this (snd plain)) /\
  Selenium.currentUrl (this (snd flagged))
  = Selenium.currentUrl (this (snd plain)).
Proof.
  cbv zeta. destruct (startOf_blind f env s tr) as (out & s' & tr' & H).
  destruct (H chromeFlags edgeFlags firefoxFlags) as (c1 & e1 & f1 & E1).
  destruct (H (Selenium.chromeSpecific (Selenium.options s))
              (Selenium.edgeSpecific (Selenium.options s))
              (Selenium.firefoxSpecific (Selenium.options s)))
    as (c2 & e2 & f2 & E2).
  rewrite withFlags_self in E2. rewrite E1, E2.
  repeat split; reflexivity.
Qed.

(** ** The session across interactions *)

#[local] Instance sameSession_refl : Reflexive sameSession.
Proof. intros s. reflexivity. Qed.

#[local] Instance sameSession_trans : Transitive sameSession.
Proof. intros a b c H1 H2. unfold sameSession in *. congruence. Qed.

#[local] Instance sameSessionB_refl : Reflexive sameSessionB.
Proof. intros s. reflexivity. Qed.

#[local] Instance sameSessionB_trans : Transitive sameSessionB.
Proof. intros a b c H1 H2. unfold sameSessionB in *. congruence. Qed.

Lemma Selenium_interaction_keeps_session (path : PathLib) (root : string)
    (f : SeleniumOps.Family) (op : SeleniumOps.Op) :
  SeleniumOps.isInteraction op = true ->
  keeps sameSession (SeleniumOps.run path root f op).
Proof.
  destruct op; try discriminate; intros _; cbn [SeleniumOps.run];
    unfold Selenium.navigateTo, Selenium.click, Selenium.sendKeys,
           Selenium.clearText, Selenium.getText, Selenium.findElement,
           Selenium.findElements, Selenium.executeScript,
           Selenium.takeScreenshot, Selenium.startVideoRecording,
           Selenium.stopVideoRecording, Selenium.createScreenshotsDirectory,
           Selenium.createVideosDirectory, Selenium._ensureStarted,
           Selenium.theDriver;
    frame.
Qed.

Lemma Playwright_interaction_keeps_session (path : PathLib) (root : string)
    (penv : string -> option string) (op : PlaywrightOps.Op) :
  PlaywrightOps.isInteraction op = true ->
  keeps sameSessionB (PlaywrightOps.run path root penv op).
Proof.
  destruct op; try discriminate; intros _; cbn [PlaywrightOps.run];
    unfold Playwright.navigateTo, Playwright.click, Playwright.sendKeys,
           Playwright.clearText, Playwright.getText, Playwright.findElement,
           Playwright.findElements, Playwright.executeScript,
           Playwright.takeScreenshot, Playwright.startVideoRecording,
           Playwright.stopVideoRecording, Playwright.createScreenshotsDirectory,
           Playwright.createVideosDirectory, Playwright._ensureStarted,
           Playwright.thePage;
    frame.
Qed.

(** X7. Only [start] and [quit] touch the session. Over any sequence of the
    other operations, on any class of the WebDriver driver and on the
    DevTools driver, the handles and the started flag stay as they were,
    whatever the engine answers and whichever calls throw: a failed
    interaction neither stops the driver nor drops its session. *)
Theorem interactions_keep_session (path : PathLib) (root : string)
    (penv : string -> option string) (f : SeleniumOps.Family)
    (opsA : list SeleniumOps.Op) (opsB : list PlaywrightOps.Op)
    (envA : Eff.Env Selenium.Call) (envB : Eff.Env Playwright.Call)
    (wA : Eff.World Selenium.Call Selenium.Driver)
    (wB : Eff.World Playwright.Call Playwright.Driver) :
  forallb SeleniumOps.isInteraction opsA = true ->
  forallb PlaywrightOps.isInteraction opsB = true ->
  let wA' := runAll (map (SeleniumOps.run path root f) opsA) envA wA in
  let wB' := runAll (map (PlaywrightOps.run path root penv) opsB) envB wB in
  Selenium.driver (this wA') = Selenium.driver (this wA) /\
  Selenium.isStarted (this wA') = Selenium.isStarted (this wA) /\
  Playwright.browser_ (this wB') = Playwright.browser_ (this wB) /\
  Playwright.context (this wB') = Playwright.context (this wB) /\
  Playwright.page (this wB') = Playwright.page (this wB) /\
  Playwright.isStarted (this wB') = Playwright.isStarted (this wB).
Proof.
  intros HA HB. cbv zeta.
  assert (GA : sameSession (this wA)
                 (this (runAll (map (SeleniumOps.run path root f) opsA) envA wA))).
  { apply (keeps_runAll _ _ sameSession). apply Forall_map, Forall_forall.
    intros op Hin. apply Selenium_interaction_keeps_session.
    rewrite forallb_forall in HA. now apply HA. }
  assert (GB : sameSessionB (this wB)
                 (this (runAll (map (PlaywrightOps.run path root penv) opsB)
                          envB wB))).
  { apply (keeps_runAll _ _ sameSessionB). apply Forall_map, Forall_forall.
    intros op Hin. apply Playwright_interaction_keeps_session.
    rewrite forallb_forall in HB. now apply HB. }
  unfold sameSession in GA. unfold sameSessionB in GB.
  inversion GA. inversion GB. repeat split; reflexivity.
Qed.

(** A started driver of each kind stays started, with the same handles,
    through a navigation, a click and a lookup that all fail. *)
Lemma interactions_keep_session_witness :
  let opsA := [SeleniumOps.NavigateTo "https://example.com/";
               SeleniumOps.Click_ "#go" None;
               SeleniumOps.FindElement "div" None] in
  let opsB := [PlaywrightOps.NavigateTo "https://example.com/";
               PlaywrightOps.Click_ "#go" None;
               PlaywrightOps.FindElement "div" None] in
  let wA' := runAll (map (SeleniumOps.run Sample.path Sample.projectRoot
                            SeleniumOps.Chrome) opsA)
               Sample.deadEnv Sample.startedSelenium in
  let wB' := runAll (map (PlaywrightOps.run Sample.path Sample.projectRoot
                            Sample.noEnv) opsB)
               Sample.deadEnv Sample.startedPlaywright in
  Selenium.driver (this wA') = Selenium.driver (this Sample.startedSelenium) /\
  Selenium.isStarted (this wA')
  = Selenium.isStarted (this Sample.startedSelenium) /\
  Playwright.browser_ (this wB')
  = Playwright.browser_ (this Sample.startedPlaywright) /\
  Playwright.context (this wB')
  = Playwright.context (this Sample.startedPlaywright) /\
  Playwright.page (this wB') = Playwright.page (this Sample.startedPlaywright) /\
  Playwright.isStarted (this wB')
  = Playwright.isStarted (this Sample.startedPlaywright).
Proof.
  apply (interactions_keep_session Sample.path Sample.projectRoot Sample.noEnv
           SeleniumOps.Chrome
           [SeleniumOps.NavigateTo "https://example.com/";
            SeleniumOps.Click_ "#go" None;
            SeleniumOps.FindElement "div" None]
           [PlaywrightOps.NavigateTo "https://example.com/";
            PlaywrightOps.Click_ "#go" None;
            PlaywrightOps.FindElement "div" None]
           Sample.deadEnv Sample.deadEnv
           Sample.startedSelenium Sample.startedPlaywright); reflexivity.
Defined.

(** ** Shutting down *)

(** X8. [quit] on a started WebDriver driver asks the engine to quit exactly
    once. When the engine complies, the handle, the started flag and the
    current URL are reset; when it throws, the same error is thrown on, and
    every field is left as it was, so the driver is still started and
    [quit] can be tried again. *)
Theorem selenium_quit_resets_or_keeps (env : Eff.Env Selenium.Call)
    (w : Eff.World Selenium.Call Selenium.Driver) (d : Selenium.Handle) :
  Selenium.isStarted (this w) = true ->
  Selenium.driver (this w) = Some d ->
  Selenium.quit env w
  = match env _ (trace w) (Selenium.Quit d) with
    | Returned _ =>
        (Returned tt,
         mkWorld (Selenium.set_currentUrl None
                    (Selenium.set_isStarted false
                       (Selenium.set_driver None (this w))))
           (trace w ++ [Did (Selenium.Quit d);
                        Logged Info ["Browser driver quit successfully"]]))
    | Thrown e =>
        (Thrown e,
         mkWorld (this w)
           (trace w ++ [Did (Selenium.Quit d);
                        Logged ErrorLevel ["Error quitting driver:"; message e]]))
    end.
Proof.
  intros Hs Hd. unfold Selenium.quit. repeat (eff; rewrite ?Hs, ?Hd).
  destruct (env unit (trace w) (Selenium.Quit d)); eff;
    rewrite <- ?app_assoc; reflexivity.
Qed.

Lemma selenium_quit_resets_or_keeps_witness :
  Selenium.quit Sample.deadEnv Sample.startedSelenium
  = (Thrown (Err "unavailable"),
     mkWorld (this Sample.startedSelenium)
       [Did (Selenium.Quit 1);
        Logged ErrorLevel ["Error quitting driver:"; "unavailable"]])
  /\ Selenium.quit Sample.calmSelenium Sample.startedSelenium
     = (Returned tt,
        mkWorld (this Sample.freshSelenium)
          [Did (Selenium.Quit 1);
           Logged Info ["Browser driver quit successfully"]]).
Proof.
  split.
  - exact (selenium_quit_resets_or_keeps Sample.deadEnv Sample.startedSelenium 1
             eq_refl eq_refl).
  - exact (selenium_quit_resets_or_keeps Sample.calmSelenium
             Sample.startedSelenium 1 eq_refl eq_refl).
Defined.

(** X9. [quit] on a started DevTools driver closes page, context and browser
    in that order and stops at the first close that throws. When the page
    closes and the context then refuses, the error is thrown on, the
    browser is never asked to close, the page handle is already cleared
    and the driver still counts as started: from there the lifecycle guard
    rejects every interaction as not started, while [start] only warns
    that the driver is already started and launches nothing. *)
Theorem playwright_quit_stops_midway (path : PathLib) (root : string)
    (penv : string -> option string)
    (env env' : Eff.Env Playwright.Call)
    (w : Eff.World Playwright.Call Playwright.Driver)
    (p : Playwright.PageHandle) (c : Playwright.ContextHandle)
    (b : Playwright.BrowserHandle) (e : Error) :
  Playwright.isStarted (this w) = true ->
  Playwright.page (this w) = Some p ->
  Playwright.context (this w) = Some c ->
  Playwright.browser_ (this w) = Some b ->
  env _ (trace w) (Playwright.PageClose p) = Returned tt ->
  env _ (trace w ++ [Did (Playwright.PageClose p)]) (Playwright.ContextClose c)
  = Thrown e ->
  let w' :=
    mkWorld (Playwright.set_page None (this w))
      (trace w ++ [Did (Playwright.PageClose p);
                   Did (Playwright.ContextClose c);
                   Logged ErrorLevel ["Error quitting driver:"; message e]]) in
  Playwright.quit env w = (Thrown e, w') /\
  Playwright.isStarted (this w') = true /\
  Playwright.browser_ (this w') = Some b /\
  Playwright._ensureStarted env' w' = (Thrown NotStarted, w') /\
  Playwright.start path root penv env' w'
  = (Returned tt,
     mkWorld (this w') (trace w' ++ [Logged Warn ["Driver already started"]])).
Proof.
  intros Hs Hp Hc Hb H1 H2. cbv zeta.
  split; [|split; [|split; [|split]]].
  - unfold Playwright.quit. repeat (eff; rewrite ?Hs, ?Hp, ?Hc, ?Hb; cbn [negb]).
    rewrite H1. eff. rewrite ?Hc. eff. rewrite H2. eff.
    rewrite <- ?app_assoc. reflexivity.
  - cbn. exact Hs.
  - cbn. exact Hb.
  - unfold Playwright._ensureStarted. eff. cbn [Playwright.isStarted
      Playwright.page Playwright.set_page]. now rewrite Hs.
  - unfold Playwright.start. eff. cbn [Playwright.isStarted
      Playwright.set_page]. now rewrite Hs.
Qed.

Lemma playwright_quit_stops_midway_witness :
  Playwright.quit Scenes.stuckContext Sample.startedPlaywright
  = (Thrown (Err "context busy"),
     mkWorld (Playwright.set_page None (this Sample.startedPlaywright))
       [Did (Playwright.PageClose 3); Did (Playwright.ContextClose 2);
        Logged ErrorLevel ["Error quitting driver:"; "context busy"]]).
Proof.
  exact (proj1 (playwright_quit_stops_midway Sample.path Sample.projectRoot
                  Sample.noEnv Scenes.stuckContext Sample.deadEnv
                  Sample.startedPlaywright 3 2 1 (Err "context busy")
                  eq_refl eq_refl eq_refl eq_refl eq_refl eq_refl)).
Defined.

(** ** Starting with a browser the driver does not know *)

(** X10. [start] with a browser name outside the driver's list throws the
    start-up error naming the browser as it was given, after logging two
    lines and before asking anything of the engine or the file system; no
    field changes. The WebDriver driver knows chrome, firefox and edge; the
    DevTools driver knows chromium, chrome, firefox, webkit and safari;
    both compare the name in lower case. *)
Theorem start_unsupported_browser (path : PathLib) (root : string)
    (penv : string -> option string)
    (envA : Eff.Env Selenium.Call) (envB : Eff.Env Playwright.Call)
    (wA : Eff.World Selenium.Call Selenium.Driver)
    (wB : Eff.World Playwright.Call Playwright.Driver) :
  let nameA := Selenium.browser (Selenium.options (this wA)) in
  let nameB := Playwright.browser (Playwright.options (this wB)) in
  Selenium.isStarted (this wA) = false ->
  Playwright.isStarted (this wB) = false ->
  ~ In (Js.toLowerCase nameA) ["chrome"; "firefox"; "edge"] ->
  ~ In (Js.toLowerCase nameB) ["chromium"; "chrome"; "firefox"; "webkit"; "safari"] ->
  Selenium.start envA wA
  = (Thrown (Err ("Driver startup failed: Unsupported browser: " +:+ nameA)),
     mkWorld (this wA)
       (trace wA
        ++ [Logged Info ["Starting " +:+ nameA +:+ " browser (headless: "
                         +:+ boolText (Selenium.headless (Selenium.options (this wA)))
                         +:+ ")"];
            Logged ErrorLevel ["Failed to start browser driver:";
                               "Unsupported browser: " +:+ nameA]]))
  /\
  Playwright.start path root penv envB wB
  = (Thrown (Err ("Driver startup failed: Unsupported browser: " +:+ nameB)),
     mkWorld (this wB)
       (trace wB
        ++ [Logged Info [startingLine (Playwright.options (this wB))];
            Logged ErrorLevel ["Failed to start browser driver:";
                               "Unsupported browser: " +:+ nameB]])).
Proof.
  cbv zeta. intros HsA HsB HnA HnB. split.
  - unfold Selenium.start. repeat (eff; rewrite ?HsA).
    destruct (String.eqb_spec
                (Js.toLowerCase (Selenium.browser (Selenium.options (this wA))))
                "chrome") as [E|_]; [exfalso; apply HnA; rewrite E; cbn; tauto|].
    destruct (String.eqb_spec
                (Js.toLowerCase (Selenium.browser (Selenium.options (this wA))))
                "firefox") as [E|_]; [exfalso; apply HnA; rewrite E; cbn; tauto|].
    destruct (String.eqb_spec
                (Js.toLowerCase (Selenium.browser (Selenium.options (this wA))))
                "edge") as [E|_]; [exfalso; apply HnA; rewrite E; cbn; tauto|].
    eff. rewrite <- ?app_assoc. reflexivity.
  - assert (He : Playwright.engineOf
                   (Playwright.browser (Playwright.options (this wB))) = None).
    { unfold Playwright.engineOf.
      repeat match goal with
             | |- context [String.eqb ?a ?b] =>
                 destruct (String.eqb_spec a b) as [E|_];
                   [exfalso; apply HnB; rewrite E; cbn; tauto|]
             end.
      reflexivity. }
    unfold Playwright.start, Playwright.selectEngine, startingLine.
    repeat (eff; rewrite ?HsB, ?He). rewrite <- ?app_assoc. reflexivity.
Qed.

(** Safari is unknown to the WebDriver driver and Edge to the DevTools
    driver. *)
Lemma start_unsupported_browser_witness :
  Selenium.start Sample.deadEnv (Scenes.seleniumFor "Safari")
  = (Thrown (Err "Driver startup failed: Unsupported browser: Safari"),
     mkWorld (this (Scenes.seleniumFor "Safari"))
       [Logged Info ["Starting Safari browser (headless: true)"];
        Logged ErrorLevel ["Failed to start browser driver:";
                           "Unsupported browser: Safari"]])
  /\
  Playwright.start Sample.path Sample.projectRoot Sample.noEnv Sample.deadEnv
    (Scenes.playwrightFor "Edge")
  = (Thrown (Err "Driver startup failed: Unsupported browser: Edge"),
     mkWorld (this (Scenes.playwrightFor "Edge"))
       [Logged Info ["Starting Edge browser (headless: true)"];
        Logged ErrorLevel ["Failed to start browser driver:";
                           "Unsupported browser: Edge"]]).
Proof.
  apply (start_unsupported_browser Sample.path Sample.projectRoot Sample.noEnv
           Sample.deadEnv Sample.deadEnv (Scenes.seleniumFor "Safari")
           (Scenes.playwrightFor "Edge")).
  - reflexivity.
  - reflexivity.
  - cbn. intros [H|[H|[H|[]]]]; discriminate H.
  - cbn. intros [H|[H|[H|[H|[H|[]]]]]]; discriminate H.
Defined.

(** ** Navigation and the recorded URL *)

(** X11. [navigateTo] records the requested URL as soon as the engine has
    accepted the navigation: if the engine refuses, the method throws the
    navigation error carrying the engine's message and no field changes;
    if the engine accepts, the current URL is the requested one from then
    on, also when reading back the URL or the title fails and the method
    throws after all. This holds on both drivers. *)
Theorem navigateTo_records_url
    (envA : Eff.Env Selenium.Call) (envB : Eff.Env Playwright.Call)
    (wA : Eff.World Selenium.Call Selenium.Driver)
    (wB : Eff.World Playwright.Call Playwright.Driver)
    (d : Selenium.Handle) (p : Playwright.PageHandle) (url : string) :
  Selenium.isStarted (this wA) = true ->
  Selenium.driver (this wA) = Some d ->
  Playwright.isStarted (this wB) = true ->
  Playwright.page (this wB) = Some p ->
  let goA := envA _ (trace wA ++ [Logged Info ["Navigating to: " +:+ url]])
               (Selenium.Get d url) in
  let goB := envB _ (trace wB ++ [Logged Info ["Navigating to: " +:+ url]])
               (Playwright.Goto p url
                  (Playwright.navigationTimeout (Playwright.options (this wB)))) in
  (forall e, goA = Thrown e ->
     exists w', Selenium.navigateTo url envA wA
                = (Thrown (Err ("Failed to navigate to " +:+ url +:+ ": "
                                +:+ message e)), w')
                /\ this w' = this wA)
  /\
  (forall u, goA = Returned u ->
     Selenium.currentUrl (this (snd (Selenium.navigateTo url envA wA)))
     = Some url)
  /\
  (forall e, goB = Thrown e ->
     exists w', Playwright.navigateTo url envB wB
                = (Thrown (Err ("Failed to navigate to " +:+ url +:+ ": "
                                +:+ message e)), w')
                /\ this w' = this wB)
  /\
  (forall r, goB = Returned r ->
     Playwright.currentUrl (this (snd (Playwright.navigateTo url envB wB)))
     = Some url).
Proof.
  intros HsA HdA HsB HpB. cbv zeta. split; [|split; [|split]].
  - intros e H. unfold Selenium.navigateTo, Selenium._ensureStarted,
      Selenium.theDriver.
    repeat (eff; rewrite ?HsA, ?HdA). rewrite H. eff.
    eexists. split; reflexivity.
  - intros u H. unfold Selenium.navigateTo, Selenium._ensureStarted,
      Selenium.theDriver.
    repeat (eff; rewrite ?HsA, ?HdA). rewrite H. eff.
    repeat match goal with
           | |- context [envA ?A ?tr ?c] => destruct (envA A tr c); eff
           end; reflexivity.
  - intros e H. unfold Playwright.navigateTo, Playwright._ensureStarted,
      Playwright.thePage.
    repeat (eff; rewrite ?HsB, ?HpB). rewrite H. eff.
    eexists. split; reflexivity.
  - intros r H. unfold Playwright.navigateTo, Playwright._ensureStarted,
      Playwright.thePage.
    repeat (eff; rewrite ?HsB, ?HpB). rewrite H. eff.
    repeat match goal with
           | |- context [envB ?A ?tr ?c] => destruct (envB A tr c); eff
           end; destruct r; reflexivity.
Qed.

Lemma navigateTo_records_url_witness :
  Selenium.currentUrl
    (this (snd (Selenium.navigateTo "https://example.com/a"
                  Sample.calmSelenium Sample.startedSelenium)))
  = Some "https://example.com/a"
  /\
  exists w',
    Playwright.navigateTo "https://example.com/a" Sample.deadEnv
      Sample.startedPlaywright
    = (Thrown (Err ("Failed to navigate to " +:+ "https://example.com/a"
                    +:+ ": " +:+ message (Err "unavailable"))), w')
    /\ this w' = this Sample.startedPlaywright.
Proof.
  pose proof (navigateTo_records_url Sample.calmSelenium Sample.deadEnv
                Sample.startedSelenium Sample.startedPlaywright 1 3
                "https://example.com/a" eq_refl eq_refl eq_refl eq_refl)
    as (_ & HA & HB & _).
  split.
  - exact (HA tt eq_refl).
  - exact (HB (Err "unavailable") eq_refl).
Defined.

(** ** What an interaction tells about a missing element *)

(** X12. On the WebDriver driver, when the element cannot be located, [click],
    [sendKeys], [clearText] and [getText] throw their own error wrapped
    around the not-found error, and the message is the same whatever the
    engine's reason was: the reason only reaches the log. No field
    changes. *)
Theorem interactions_hide_locate_reason
    (env : Eff.Env Selenium.Call) (w : Eff.World Selenium.Call Selenium.Driver)
    (d : Selenium.Handle) (selector text : string) (timeout_ : option N) :
  Selenium.isStarted (this w) = true ->
  Selenium.driver (this w) = Some d ->
  (forall tr, exists reason,
      env _ tr (Selenium.WaitLocated d (DriverLocators.findElement_by selector)
                  (timeoutOr timeout_ (Selenium.timeout (Selenium.options (this w)))))
      = Thrown reason) ->
  let notFound := "Element not found: " +:+ selector in
  (exists w', Selenium.click selector timeout_ env w
              = (Thrown (Err ("Failed to click " +:+ selector +:+ ": "
                              +:+ notFound)), w')
              /\ this w' = this w)
  /\
  (exists w', Selenium.sendKeys selector text timeout_ env w
              = (Thrown (Err ("Failed to send keys to " +:+ selector +:+ ": "
                              +:+ notFound)), w')
              /\ this w' = this w)
  /\
  (exists w', Selenium.clearText selector timeout_ env w
              = (Thrown (Err ("Failed to clear text from " +:+ selector +:+ ": "
                              +:+ notFound)), w')
              /\ this w' = this w)
  /\
  (exists w', Selenium.getText selector timeout_ env w
              = (Thrown (Err ("Failed to get text from " +:+ selector +:+ ": "
                              +:+ notFound)), w')
              /\ this w' = this w).
Proof.
  intros Hs Hd Hno. cbv zeta.
  split; [|split; [|split]];
    unfold Selenium.click, Selenium.sendKeys, Selenium.clearText,
           Selenium.getText, Selenium.findElement, Selenium._ensureStarted,
           Selenium.theDriver;
    repeat (eff; rewrite ?Hs, ?Hd);
    match goal with
    | |- context [env _ ?tr (Selenium.WaitLocated d ?loc ?t)] =>
        destruct (Hno tr) as [reason Hr]; rewrite Hr
    end;
    eff; eexists; split; reflexivity.
Qed.

Lemma interactions_hide_locate_reason_witness :
  exists w',
    Selenium.click "#go" None Sample.deadEnv Sample.startedSelenium
    = (Thrown (Err "Failed to click #go: Element not found: #go"), w')
    /\ this w' = this Sample.startedSelenium.
Proof.
  apply (interactions_hide_locate_reason Sample.deadEnv Sample.startedSelenium
           1 "#go" "" None eq_refl eq_refl).
  intros tr. eexists. reflexivity.
Defined.

(** ** Screenshots when the directory cannot be made *)

(** X13. With a file name given and a file system that refuses to create the
    screenshots directory, both drivers throw the screenshot error wrapped
    around the directory error and write nothing, and no field changes. The
    WebDriver driver has by then already taken the screenshot, which is
    lost; the DevTools driver makes the directory first and never asks the
    page for a screenshot. *)
Theorem takeScreenshot_unwritable_directory (path : PathLib) (root : string)
    (envA : Eff.Env Selenium.Call) (envB : Eff.Env Playwright.Call)
    (wA : Eff.World Selenium.Call Selenium.Driver)
    (wB : Eff.World Playwright.Call Playwright.Driver)
    (d : Selenium.Handle) (p : Playwright.PageHandle) (now : UTCTime)
    (filename : string) (includeTimestamp : bool) (data : string) (e : Error) :
  Selenium.isStarted (this wA) = true ->
  Selenium.driver (this wA) = Some d ->
  Playwright.isStarted (this wB) = true ->
  Playwright.page (this wB) = Some p ->
  filename <> "" ->
  envA _ (trace wA) (Selenium.TakeScreenshot d) = Returned data ->
  (forall tr dir, envA _ tr (Selenium.Mkdir dir) = Thrown e) ->
  (forall tr dir, envB _ tr (Playwright.Mkdir dir) = Thrown e) ->
  let failure :=
    Err ("Failed to take screenshot: Failed to create screenshots directory: "
         +:+ message e) in
  Selenium.takeScreenshot path root now (Some filename) includeTimestamp
    None None envA wA
  = (Thrown failure,
     mkWorld (this wA)
       (trace wA
        ++ Did (Selenium.TakeScreenshot d)
        :: Did (Selenium.Mkdir
                  (resolve path
                     (Selenium.anchored path root
                        (Selenium.outputDirectoryBasePath (this wA)))
                     (Selenium.screenshotsDirectory (this wA))))
        :: [Logged ErrorLevel ["Screenshots directory creation failed:";
                               message e];
            Logged ErrorLevel ["Screenshot failed:";
                               "Failed to create screenshots directory: "
                               +:+ message e]]))
  /\
  Playwright.takeScreenshot path root now (Some filename) includeTimestamp
    None None envB wB
  = (Thrown failure,
     mkWorld (this wB)
       (trace wB
        ++ Did (Playwright.Mkdir
                  (resolve path
                     (Playwright.anchored path root
                        (Playwright.outputDirectoryBasePath (this wB)))
                     (Playwright.screenshotsDirectory (this wB))))
        :: [Logged ErrorLevel ["Screenshots directory creation failed:";
                               message e];
            Logged ErrorLevel ["Screenshot failed:";
                               "Failed to create screenshots directory: "
                               +:+ message e]])).
Proof.
  intros HsA HdA HsB HpB Hfn HshotA HmkA HmkB. cbv zeta.
  assert (Ht : Js.truthy (Some filename) = true)
    by (destruct filename; [contradiction|reflexivity]).
  split.
  - unfold Selenium.takeScreenshot, Selenium.createScreenshotsDirectory,
      Selenium._ensureStarted, Selenium.theDriver.
    repeat (eff; rewrite ?HsA, ?HdA). rewrite HshotA. eff. rewrite Ht. eff.
    cbn [stringOr Js.truthy]. rewrite HmkA. eff.
    rewrite <- ?app_assoc. reflexivity.
  - unfold Playwright.takeScreenshot, Playwright.createScreenshotsDirectory,
      Playwright._ensureStarted, Playwright.thePage.
    repeat (eff; rewrite ?HsB, ?HpB). rewrite Ht. eff.
    cbn [stringOr Js.truthy]. rewrite HmkB. eff.
    rewrite <- ?app_assoc. reflexivity.
Qed.

Lemma takeScreenshot_unwritable_directory_witness :
  Selenium.takeScreenshot Sample.path Sample.projectRoot Sample.t0
    (Some "home.png") true None None Scenes.readOnlyDiskSelenium
    Sample.startedSelenium
  = (Thrown (Err "Failed to take screenshot: Failed to create screenshots directory: EROFS: read-only file system"),
     mkWorld (this Sample.startedSelenium)
       [Did (Selenium.TakeScreenshot 1);
        Did (Selenium.Mkdir "/app/./output/screenshots");
        Logged ErrorLevel ["Screenshots directory creation failed:";
                           "EROFS: read-only file system"];
        Logged ErrorLevel ["Screenshot failed:";
                           "Failed to create screenshots directory: EROFS: read-only file system"]])
  /\
  Playwright.takeScreenshot Sample.path Sample.projectRoot Sample.t0
    (Some "home.png") true None None Sample.deadEnv Sample.startedPlaywright
  = (Thrown (Err "Failed to take screenshot: Failed to create screenshots directory: unavailable"),
     mkWorld (this Sample.startedPlaywright)
       [Did (Playwright.Mkdir "/app/./output/screenshots");
        Logged ErrorLevel ["Screenshots directory creation failed:";
                           "unavailable"];
        Logged ErrorLevel ["Screenshot failed:";
                           "Failed to create screenshots directory: unavailable"]]).
Proof.
  split.
  - refine (proj1 (takeScreenshot_unwritable_directory Sample.path
                     Sample.projectRoot Scenes.readOnlyDiskSelenium
                     (fun _ _ _ => Thrown (Err "EROFS: read-only file system"))
                     Sample.startedSelenium Sample.startedPlaywright 1 3
                     Sample.t0 "home.png" true "iVBORw0KGgo="
                     (Err "EROFS: read-only file system")
                     eq_refl eq_refl eq_refl eq_refl _ eq_refl _ _));
      [discriminate|reflexivity|reflexivity].
  - refine (proj2 (takeScreenshot_unwritable_directory Sample.path
                     Sample.projectRoot
                     (fun A _ c =>
                        match c in Selenium.Call T return Outcome T with
                        | Selenium.TakeScreenshot _ => Returned "iVBORw0KGgo="
                        | _ => Thrown (Err "unavailable")
                        end)
                     Sample.deadEnv
                     Sample.startedSelenium Sample.startedPlaywright 1 3
                     Sample.t0 "home.png" true "iVBORw0KGgo="
                     (Err "unavailable")
                     eq_refl eq_refl eq_refl eq_refl _ eq_refl _ _));
      [discriminate|reflexivity|reflexivity].
Defined.

(** ** A browser name in capitals *)

(** X14. The DevTools driver picks the engine from the lower-cased browser name
    but decides on the Chromium launch flags and on the configured
    executable from the name as given. Outside a sandbox, a driver whose
    name selects Chromium without being spelled [chromium] or [chrome]
    launches Chromium with no launch argument and no executable path, also
    when an executable is configured in the environment. *)
Theorem capitalised_chromium_launches_bare (path : PathLib) (root : string)
    (penv : string -> option string) (env : Eff.Env Playwright.Call)
    (w : Eff.World Playwright.Call Playwright.Driver) :
  let o := Playwright.options (this w) in
  Playwright.isStarted (this w) = false ->
  Playwright.engineOf (Playwright.browser o) = Some Playwright.chromium ->
  Playwright.isChromiumName o = false ->
  Playwright.isLambda penv = false ->
  exists out w' rest,
    Playwright.start path root penv env w = (out, w') /\
    trace w'
    = trace w
      ++ Logged Info [startingLine o]
      :: Logged Info ["Using default Playwright browser installation"]
      :: Did (Playwright.Launch Playwright.chromium
                (Playwright.mkLaunch (Playwright.headless o)
                   (Playwright.slowMo o) [] None))
      :: rest.
Proof.
  cbv zeta. intros Hs He Hn Hl.
  destruct (start_outside_sandbox path root penv env w Playwright.chromium
              Hs He Hl) as (out & w' & rest & Hrun & Ht).
  exists out, w', rest. split; [exact Hrun|]. rewrite Ht.
  unfold localLaunch, localChoice, configuredExecutable. rewrite Hn.
  reflexivity.
Qed.

Lemma capitalised_chromium_launches_bare_witness :
  exists out w' rest,
    Playwright.start Sample.path Sample.projectRoot Sample.customEnv
      Sample.deadEnv (Scenes.playwrightFor "Chromium") = (out, w') /\
    trace w'
    = [] ++ Logged Info ["Starting Chromium browser (headless: true)"]
      :: Logged Info ["Using default Playwright browser installation"]
      :: Did (Playwright.Launch Playwright.chromium
                (Playwright.mkLaunch true 0%N [] None))
      :: rest.
Proof.
  apply (capitalised_chromium_launches_bare Sample.path Sample.projectRoot
           Sample.customEnv Sample.deadEnv (Scenes.playwrightFor "Chromium"));
    reflexivity.
Defined.

(** ** Started means connected *)

(** Runs a method of the WebDriver driver on a symbolic world: unfolds the
    plumbing, computes the fields that were just written, and splits on the
    fields, the string tests and the answers of the outside that a [match]
    or an [if] looks at. *)
Ltac split_run :=
  repeat first
    [ progress eff
    | progress cbn [Selenium.isStarted Selenium.driver Selenium.currentUrl
                    Selenium.options Selenium.set_options Selenium.set_driver
                    Selenium.set_isStarted Selenium.set_currentUrl
                    Selenium.headless Selenium.set_chromeSpecific
                    Selenium.set_edgeSpecific Selenium.set_firefoxSpecific
                    negb]
    | match goal with
      | H : Selenium.isStarted ?s = _ |- context [Selenium.isStarted ?s] =>
          rewrite H
      | H : Selenium.driver ?s = _ |- context [Selenium.driver ?s] =>
          rewrite H
      | H : forall tr, ?e _ tr ?c = _ |- context [?e _ ?tr0 ?c] =>
          rewrite (H tr0)
      end
    | match goal with
      | |- context [match ?e ?A ?tr ?c with _ => _ end] =>
          is_var e; destruct (e A tr c)
      | |- context [match Selenium.isStarted ?s with _ => _ end] =>
          destruct (Selenium.isStarted s) eqn:?
      | |- context [match Selenium.driver ?s with _ => _ end] =>
          destruct (Selenium.driver s) eqn:?
      | |- context [Selenium.headless ?o] => destruct (Selenium.headless o)
      | |- context [if String.eqb ?a ?b then _ else _] =>
          destruct (String.eqb a b)
      | |- context [if nonEmpty ?a then _ else _] => destruct (nonEmpty a)
      end ].

Lemma startOf_keeps_invariant (f : SeleniumOps.Family)
    (env : Eff.Env Selenium.Call) (w : Eff.World Selenium.Call Selenium.Driver) :
  hasSessionIfStarted (this w) ->
  hasSessionIfStarted (this (snd (SeleniumOps.startOf f env w))).
Proof.
  unfold hasSessionIfStarted. intros Hinv.
  destruct f; cbn [SeleniumOps.startOf];
    unfold Selenium.chrome_start, Selenium.edge_start, Selenium.firefox_start,
           Selenium._configureChromePerformance,
           Selenium._configureEdgePerformance,
           Selenium._configureFirefoxPerformance,
           Selenium.setViewportUnlessHeadless, Selenium.executeScript,
           Selenium._ensureStarted, Selenium.theDriver, Selenium.start,
           Selenium.chromeBuild, Selenium.firefoxBuild, Selenium.edgeBuild;
    split_run;
    cbn [this snd Selenium.isStarted Selenium.driver Selenium.set_options];
    try discriminate; try assumption; try (intros _; discriminate).
Qed.

Lemma quit_keeps_invariant (env : Eff.Env Selenium.Call)
    (w : Eff.World Selenium.Call Selenium.Driver) :
  hasSessionIfStarted (this w) ->
  hasSessionIfStarted (this (snd (Selenium.quit env w))).
Proof.
  unfold hasSessionIfStarted. intros Hinv. unfold Selenium.quit.
  split_run; cbn [this snd Selenium.isStarted Selenium.driver];
    try discriminate; try assumption; try (intros _; discriminate).
  all: intros H; exfalso; revert H;
    match goal with
    | H : Selenium.isStarted _ = false |- _ => rewrite H; discriminate
    | H1 : Selenium.isStarted _ = true, H2 : Selenium.driver _ = None |- _ =>
        intros _; now apply Hinv
    end.
Qed.

Lemma run_keeps_invariant (path : PathLib) (root : string)
    (f : SeleniumOps.Family) (op : SeleniumOps.Op)
    (env : Eff.Env Selenium.Call) (w : Eff.World Selenium.Call Selenium.Driver) :
  hasSessionIfStarted (this w) ->
  hasSessionIfStarted (this (snd (SeleniumOps.run path root f op env w))).
Proof.
  intros Hinv.
  destruct (SeleniumOps.isInteraction op) eqn:Hi.
  - destruct (Selenium_interaction_keeps_session path root f op Hi env w)
      as [Hsame _].
    unfold sameSession in Hsame. inversion Hsame as [[Hd Hs]].
    unfold hasSessionIfStarted in *. rewrite Hd, Hs. exact Hinv.
  - destruct op; try discriminate; cbn [SeleniumOps.run].
    + now apply startOf_keeps_invariant.
    + now apply quit_keeps_invariant.
Qed.

(** X15. On every class of the WebDriver driver, from the constructor on and
    over any sequence of operations, whatever the engine answers and
    whichever calls throw: a driver that counts as started holds a session
    handle. So the guard's second test, for a missing handle, never decides
    anything: the guard throws exactly when the started flag is off.
    (The DevTools driver does not keep the like for its page handle, as a
    [quit] that stops midway shows.) *)
Theorem started_implies_session (path : PathLib) (root : string)
    (f : SeleniumOps.Family) (u : Selenium.UserOptions)
    (ops : list SeleniumOps.Op) (env env' : Eff.Env Selenium.Call) :
  let w := runAll (map (SeleniumOps.run path root f) ops) env
             (mkWorld (Selenium.construct path root u) []) in
  (Selenium.isStarted (this w) = true -> Selenium.driver (this w) <> None)
  /\
  Selenium._ensureStarted env' w
  = if Selenium.isStarted (this w) then (Returned tt, w)
    else (Thrown NotStarted, w).
Proof.
  cbv zeta.
  assert (G : forall w0,
             hasSessionIfStarted (this w0) ->
             hasSessionIfStarted
               (this (runAll (map (SeleniumOps.run path root f) ops) env w0))).
  { induction ops as [|op ops IH]; intros w0 H0; cbn [map runAll].
    - exact H0.
    - apply IH. now apply run_keeps_invariant. }
  specialize (G (mkWorld (Selenium.construct path root u) [])
                ltac:(intros H; discriminate H)).
  split; [exact G|].
  unfold Selenium._ensureStarted. eff.
  destruct (Selenium.isStarted (this _)) eqn:Hs; [|reflexivity].
  destruct (Selenium.driver (this _)) eqn:Hd; [reflexivity|].
  exfalso. now apply (G Hs).
Qed.

(** ** A start that fails half-way *)

(** X16. When the engine opens a session and configuring it then fails, [start]
    throws the start-up error and leaves the driver not started but
    holding the handle of the session it opened. [quit] then takes the
    driver for one that never started: it logs its warning and returns
    without asking the engine to close anything, so the session stays
    open. This holds on every class of the WebDriver driver. *)
Theorem failed_start_leaks_session (f : SeleniumOps.Family)
    (env env' : Eff.Env Selenium.Call)
    (w : Eff.World Selenium.Call Selenium.Driver)
    (d : Selenium.Handle) (e : Error) :
  Selenium.isStarted (this w) = false ->
  In (Js.toLowerCase (Selenium.browser (Selenium.options (this w))))
     ["chrome"; "firefox"; "edge"] ->
  (forall tr dir, env _ tr (Selenium.Mkdir dir) = Returned tt) ->
  (forall tr spec, env _ tr (Selenium.Build spec) = Returned d) ->
  (forall tr implicit pageLoad script,
      env _ tr (Selenium.SetTimeouts d implicit pageLoad script) = Thrown e) ->
  exists w',
    SeleniumOps.startOf f env w
    = (Thrown (Err ("Driver startup failed: " +:+ message e)), w') /\
    Selenium.driver (this w') = Some d /\
    Selenium.isStarted (this w') = false /\
    Selenium.quit env' w'
    = (Returned tt,
       mkWorld (this w')
         (trace w' ++ [Logged Warn ["Driver not started or already quit"]])).
Proof.
  intros Hs Hin HMk HB HT.
  assert (Hq : forall w' : Eff.World Selenium.Call Selenium.Driver,
             Selenium.isStarted (this w') = false ->
             Selenium.quit env' w'
             = (Returned tt,
                mkWorld (this w')
                  (trace w'
                   ++ [Logged Warn ["Driver not started or already quit"]]))).
  { intros w' H. unfold Selenium.quit. eff. now rewrite H. }
  destruct f; cbn [SeleniumOps.startOf];
    unfold Selenium.chrome_start, Selenium.edge_start, Selenium.firefox_start,
           Selenium.start, Selenium.chromeBuild, Selenium.firefoxBuild,
           Selenium.edgeBuild;
    repeat (eff; cbn [Selenium.isStarted Selenium.options Selenium.set_options
                      Selenium.browser Selenium.set_chromeSpecific
                      Selenium.set_edgeSpecific Selenium.set_firefoxSpecific
                      Selenium.downloadsPath];
            rewrite ?Hs);
    destruct Hin as [H|[H|[H|[]]]]; rewrite <- H;
    repeat match goal with
           | |- context [String.eqb ?a ?b] =>
               let v := eval vm_compute in (String.eqb a b) in
               change (String.eqb a b) with v
           end;
    cbv iota;
    destruct (nonEmpty (Selenium.downloadsPath (Selenium.options (this w))));
    repeat (eff; rewrite ?HMk, ?HB, ?HT);
    (eexists; split; [reflexivity|]);
    (split; [reflexivity|]); (split; [cbn; exact Hs|]);
    apply Hq; cbn; exact Hs.
Qed.

Lemma failed_start_leaks_session_witness :
  exists w',
    SeleniumOps.startOf SeleniumOps.Chrome Scenes.brokenTimeouts
      Sample.freshChrome
    = (Thrown (Err ("Driver startup failed: "
                    +:+ message (Err "session not created"))), w') /\
    Selenium.driver (this w') = Some 1 /\
    Selenium.isStarted (this w') = false /\
    Selenium.quit Sample.calmSelenium w'
    = (Returned tt,
       mkWorld (this w')
         (trace w' ++ [Logged Warn ["Driver not started or already quit"]])).
Proof.
  apply (failed_start_leaks_session SeleniumOps.Chrome Scenes.brokenTimeouts
           Sample.calmSelenium Sample.freshChrome 1
           (Err "session not created")).
  - reflexivity.
  - cbn. tauto.
  - reflexivity.
  - reflexivity.
  - reflexivity.
Defined.

(** X17. On the DevTools driver the like happens one step later. Outside a
    sandbox, when the browser launches and creating the context then
    fails, [start] throws the start-up error and leaves the driver not
    started but holding the browser it launched; [quit] then logs its
    warning and returns without closing that browser. *)
Theorem failed_start_leaks_browser (path : PathLib) (root : string)
    (penv : string -> option string) (env env' : Eff.Env Playwright.Call)
    (w : Eff.World Playwright.Call Playwright.Driver)
    (engine : Playwright.Engine) (b : Playwright.BrowserHandle) (e : Error) :
  Playwright.isStarted (this w) = false ->
  Playwright.engineOf (Playwright.browser (Playwright.options (this w)))
  = Some engine ->
  Playwright.isLambda penv = false ->
  (forall tr dir, env _ tr (Playwright.Mkdir dir) = Returned tt) ->
  (forall tr eng opts, env _ tr (Playwright.Launch eng opts) = Returned b) ->
  (forall tr opts, env _ tr (Playwright.NewContext b opts) = Thrown e) ->
  exists w',
    Playwright.start path root penv env w
    = (Thrown (Err ("Driver startup failed: " +:+ message e)), w') /\
    Playwright.browser_ (this w') = Some b /\
    Playwright.isStarted (this w') = false /\
    Playwright.quit env' w'
    = (Returned tt,
       mkWorld (this w')
         (trace w' ++ [Logged Warn ["Driver not started or already quit"]])).
Proof.
  intros Hs He Hl HMk HL HC.
  assert (Hq : forall w' : Eff.World Playwright.Call Playwright.Driver,
             Playwright.isStarted (this w') = false ->
             Playwright.quit env' w'
             = (Returned tt,
                mkWorld (this w')
                  (trace w'
                   ++ [Logged Warn ["Driver not started or already quit"]]))).
  { intros w' H. unfold Playwright.quit. eff. now rewrite H. }
  unfold Playwright.start, Playwright.selectEngine, Playwright.acquire,
         Playwright.buildContextOptions, Playwright.createVideosDirectory.
  repeat (eff; rewrite ?Hs, ?He, ?Hl).
  destruct (Js.truthy (penv "PLAYWRIGHT_CHROMIUM_EXECUTABLE_PATH")
            && Playwright.isChromiumName (Playwright.options (this w)));
    repeat (eff; rewrite ?HL);
    destruct (Playwright.recordVideo (Playwright.options (this w)));
    repeat (eff; rewrite ?HMk);
    destruct (nonEmpty (Playwright.downloadsPath (Playwright.options (this w))));
    repeat (eff; rewrite ?HMk, ?HC);
    (eexists; split; [reflexivity|]);
    (split; [reflexivity|]); (split; [cbn; exact Hs|]);
    apply Hq; cbn; exact Hs.
Qed.

Lemma failed_start_leaks_browser_witness :
  exists w',
    Playwright.start Sample.path Sample.projectRoot Sample.noEnv
      Scenes.noContext Sample.freshPlaywright
    = (Thrown (Err ("Driver startup failed: " +:+ message (Err "no memory"))),
       w') /\
    Playwright.browser_ (this w') = Some 1 /\
    Playwright.isStarted (this w') = false /\
    Playwright.quit Sample.deadEnv w'
    = (Returned tt,
       mkWorld (this w')
         (trace w' ++ [Logged Warn ["Driver not started or already quit"]])).
Proof.
  apply (failed_start_leaks_browser Sample.path Sample.projectRoot Sample.noEnv
           Scenes.noContext Sample.deadEnv Sample.freshPlaywright
           Playwright.chromium 1 (Err "no memory")); reflexivity.
Defined.

(** ** The retrying click of the DevTools utilities *)

(** Unfolds the plumbing of the utility modules as well. *)
Ltac eff2 :=
  unfold SeleniumHelpers.M, PlaywrightHelpers.M, SeleniumHelpers.wait in *;
  eff.

Lemma ltNumber_below (i : nat) (x : Js.Number) :
  Js.ltNumber i x = Nat.ltb i (Js.wholeBelow x).
Proof.
  destruct x as [n|below printed|]; cbn [Js.ltNumber Js.wholeBelow].
  - destruct (Z.ltb_spec (Z.of_nat i) n), (Nat.ltb_spec i (Z.to_nat n));
      try reflexivity; lia.
  - destruct (Z.leb_spec (Z.of_nat i) below),
             (Nat.ltb_spec i (Z.to_nat (below + 1)));
      try reflexivity; lia.
  - reflexivity.
Qed.

Lemma ltPredecessor_below (i : nat) (x : Js.Number) :
  Js.ltPredecessor i x = Nat.ltb i (Js.wholeBelow x - 1).
Proof.
  destruct x as [n|below printed|]; cbn [Js.ltPredecessor Js.wholeBelow].
  - destruct (Z.ltb_spec (Z.of_nat i) (n - 1)),
             (Nat.ltb_spec i (Z.to_nat n - 1));
      try reflexivity; lia.
  - destruct (Z.leb_spec (Z.of_nat i) (below - 1)),
             (Nat.ltb_spec i (Z.to_nat (below + 1) - 1));
      try reflexivity; lia.
  - reflexivity.
Qed.

Lemma smartClickLoop_settles (St : Type) (p : Playwright.PageHandle)
    (sel : string) (x : Js.Number) (delay t : N) (force : bool)
    (env : Eff.Env PlaywrightHelpers.Call) :
  let n := Js.wholeBelow x in
  forall fuel i (w : Eff.World PlaywrightHelpers.Call St),
    i + fuel = n ->
    exists out w' new,
      PlaywrightHelpers.smartClickLoop St p sel x delay t force fuel i env w
      = (out, w') /\
      this w' = this w /\
      trace w' = trace w ++ new /\
      pausesAfterWarnings pauseP new
      = repeat delay (List.length (filter clicksP new) - 1) /\
      match out with
      | Returned (Some c) =>
          PlaywrightHelpers.clicked c = true /\
          PlaywrightHelpers.attempts c = i + List.length (filter clicksP new) /\
          1 <= List.length (filter clicksP new) <= fuel
      | Returned None => fuel = 0 /\ new = []
      | Thrown e =>
          List.length (filter clicksP new) = fuel /\ 0 < fuel /\
          exists front,
            new = front ++ [Did (PlaywrightHelpers.Click p sel t force);
                            Logged Warn [PlaywrightHelpers.clickWarning sel (n - 1) e]]
            /\ env _ (trace w ++ front) (PlaywrightHelpers.Click p sel t force)
               = Thrown e
      end.
Proof.
  intros n. induction fuel as [|fuel IH]; intros i w Hsum.
  - exists (Returned None), w, []. cbn. rewrite app_nil_r.
    repeat split; reflexivity.
  - cbn [PlaywrightHelpers.smartClickLoop].
    assert (Hlt : Js.ltNumber i x = true)
      by (rewrite ltNumber_below; apply Nat.ltb_lt; lia).
    rewrite Hlt. eff2.
    destruct (env unit (trace w) (PlaywrightHelpers.Click p sel t force))
      as [u|e] eqn:Hclick.
    + eexists; eexists;
        exists [Did (PlaywrightHelpers.Click p sel t force);
                Logged Info ["Smart click successful: " +:+ sel]].
      split; [reflexivity|]. cbn [this trace].
      split; [reflexivity|]. split; [now rewrite <- app_assoc|].
      split; [reflexivity|]. cbn. repeat split; lia.
    + destruct fuel as [|fuel].
      * assert (Hl : Js.ltPredecessor i x = false)
          by (rewrite ltPredecessor_below; apply Nat.ltb_ge; lia).
        rewrite Hl. eff2.
        eexists; eexists;
          exists [Did (PlaywrightHelpers.Click p sel t force);
                  Logged Warn [PlaywrightHelpers.clickWarning sel i e]].
        split; [reflexivity|]. cbn [this trace].
        split; [reflexivity|]. split; [now rewrite <- app_assoc|].
        split; [reflexivity|]. split; [reflexivity|]. split; [lia|].
        exists []. replace (n - 1) with i by lia.
        split; [reflexivity|]. now rewrite app_nil_r.
      * assert (Hl : Js.ltPredecessor i x = true)
          by (rewrite ltPredecessor_below; apply Nat.ltb_lt; lia).
        rewrite Hl. eff2.
        match goal with
        | |- context [PlaywrightHelpers.smartClickLoop St p sel x delay t force
                        (S fuel) (S i) env ?w2] =>
            destruct (IH (S i) w2 ltac:(lia))
              as (out & w' & new & Hrun & Hthis & Htr & Hp & Hout)
        end.
        rewrite Hrun. cbn [this trace] in Hthis, Htr, Hout.
        exists out, w',
          (Did (PlaywrightHelpers.Click p sel t force)
           :: Logged Warn [PlaywrightHelpers.clickWarning sel i e]
           :: Did (PlaywrightHelpers.Sleep delay) :: new).
        split; [reflexivity|]. split; [exact Hthis|].
        split; [rewrite Htr, <- !app_assoc; reflexivity|].
        cbn [filter clicksP List.length pausesAfterWarnings isWarn pauseP].
        rewrite Hp.
        destruct out as [[c|]|e'].
        -- destruct Hout as (Hc & Ha & Hn1 & Hn2).
           split; [|repeat split; try assumption; lia].
           destruct (List.length (filter clicksP new)) as [|k]; [lia|].
           cbn. now rewrite Nat.sub_0_r.
        -- destruct Hout as (Hfuel & _). discriminate Hfuel.
        -- destruct Hout as (Hcount & Hpos & front & Hnew & Henv).
           split.
           { rewrite Hcount. cbn. now rewrite Nat.sub_0_r. }
           split; [lia|]. split; [lia|].
           exists (Did (PlaywrightHelpers.Click p sel t force)
                   :: Logged Warn [PlaywrightHelpers.clickWarning sel i e]
                   :: Did (PlaywrightHelpers.Sleep delay) :: front).
           split; [now rewrite Hnew|].
           rewrite <- Henv, <- !app_assoc. reflexivity.
Qed.

(** X18. [smartClick] takes as its retry count any finite number or [NaN]: a
    count that is missing, zero or [NaN] means three, and the loop admits as
    many attempts as there are whole numbers from 0 below the count, so a
    fractional count is rounded up. When the count admits an attempt, the
    method settles by a click result or by an error, never by falling out
    of its loop: whatever the page answers, it clicks at most that many
    times, pauses for the configured delay (1000 ms when missing or zero)
    between one failed click and the next, and touches no field; when it
    returns, the attempt count it reports is the number of clicks it made;
    when it throws, it has made all its clicks and throws what the page
    answered to the last one, unwrapped. When the count admits no attempt,
    which is so exactly for a negative count, the method does nothing, logs
    nothing and resolves to [undefined]. *)
Theorem smartClick_settles (St : Type) (p : Playwright.PageHandle)
    (sel : string) (retries : option Js.Number) (retryDelay timeout : option N)
    (force : option bool) (env : Eff.Env PlaywrightHelpers.Call)
    (w : Eff.World PlaywrightHelpers.Call St) :
  let count := Js.numberOr retries (Js.Whole 3) in
  let n := Js.wholeBelow count in
  let click := PlaywrightHelpers.Click p sel (timeoutOr timeout 30000%N)
                 (orDefault force false) in
  (n = 0 <-> (exists z, count = Js.Whole z /\ (z < 0)%Z)
             \/ (exists z printed, count = Js.Between z printed /\ (z < 0)%Z))
  /\
  exists out w' new,
    PlaywrightHelpers.smartClick St p sel retries retryDelay timeout force env w
    = (out, w') /\
    this w' = this w /\
    trace w' = trace w ++ new /\
    pausesAfterWarnings pauseP new
    = repeat (timeoutOr retryDelay 1000%N)
        (List.length (filter clicksP new) - 1) /\
    match out with
    | Returned (Some c) =>
        PlaywrightHelpers.clicked c = true /\
        PlaywrightHelpers.attempts c = List.length (filter clicksP new) /\
        1 <= PlaywrightHelpers.attempts c <= n
    | Returned None => n = 0 /\ new = []
    | Thrown e =>
        0 < n /\
        List.length (filter clicksP new) = n /\
        exists front,
          new = front ++ [Did click;
                          Logged Warn [PlaywrightHelpers.clickWarning sel (n - 1) e]]
          /\ env _ (trace w ++ front) click = Thrown e
    end.
Proof.
  cbv zeta. split.
  - destruct retries as [[[|q|q]|below printed|]|];
      cbn [Js.numberOr Js.wholeBelow]; split;
      try (intros H; exfalso; lia);
      try (intros [(z & Hz & Hneg)|(z & pr & Hz & Hneg)]; try discriminate;
           inversion Hz; subst; lia).
    + intros _. left. exists (Zneg q). split; [reflexivity|lia].
    + intros H. right. exists below, printed. split; [reflexivity|lia].
  - unfold PlaywrightHelpers.smartClick.
    destruct (smartClickLoop_settles St p sel
                (Js.numberOr retries (Js.Whole 3))
                (timeoutOr retryDelay 1000%N) (timeoutOr timeout 30000%N)
                (orDefault force false) env
                (Js.wholeBelow (Js.numberOr retries (Js.Whole 3))) 0 w eq_refl)
      as (out & w' & new & Hrun & Hthis & Htr & Hp & Hout).
    exists out, w', new. repeat (split; [assumption|]).
    destruct out as [[c|]|e].
    + destruct Hout as (Hc & Ha & Hn). cbn in Ha. rewrite Ha. auto.
    + exact Hout.
    + destruct Hout as (Hcount & Hpos & Hfront). auto.
Qed.

Example smartClick_zero_retries :
  PlaywrightHelpers.smartClick unit 3 "#buy" (Some (Js.Whole 0)) (Some 0%N)
    None None Sample.deadEnv (mkWorld tt [])
  = (Thrown (Err "unavailable"),
     mkWorld tt
       [Did (PlaywrightHelpers.Click 3 "#buy" 30000%N false);
        Logged Warn ["Click attempt 1 failed for #buy: unavailable"];
        Did (PlaywrightHelpers.Sleep 1000%N);
        Did (PlaywrightHelpers.Click 3 "#buy" 30000%N false);
        Logged Warn ["Click attempt 2 failed for #buy: unavailable"];
        Did (PlaywrightHelpers.Sleep 1000%N);
        Did (PlaywrightHelpers.Click 3 "#buy" 30000%N false);
        Logged Warn ["Click attempt 3 failed for #buy: unavailable"]]).
Proof. reflexivity. Qed.

(** With a count of -1 nothing is clicked and the result is [undefined];
    with a count of 2.5 three clicks are made and the third failure is
    thrown. *)
Example smartClick_negative_retries :
  PlaywrightHelpers.smartClick unit 3 "#buy" (Some (Js.Whole (-1))) None None
    None Sample.deadEnv (mkWorld tt [])
  = (Returned None, mkWorld tt []).
Proof. reflexivity. Qed.

Example smartClick_fractional_retries :
  PlaywrightHelpers.smartClick unit 3 "#buy" (Some (Js.Between 2 "2.5")) None
    None None Sample.deadEnv (mkWorld tt [])
  = (Thrown (Err "unavailable"),
     mkWorld tt
       [Did (PlaywrightHelpers.Click 3 "#buy" 30000%N false);
        Logged Warn ["Click attempt 1 failed for #buy: unavailable"];
        Did (PlaywrightHelpers.Sleep 1000%N);
        Did (PlaywrightHelpers.Click 3 "#buy" 30000%N false);
        Logged Warn ["Click attempt 2 failed for #buy: unavailable"];
        Did (PlaywrightHelpers.Sleep 1000%N);
        Did (PlaywrightHelpers.Click 3 "#buy" 30000%N false);
        Logged Warn ["Click attempt 3 failed for #buy: unavailable"]]).
Proof. reflexivity. Qed.

(** ** Fallback selectors *)



Example findElementWithFallback_last_returns_null :
  PlaywrightHelpers.findElementWithFallback unit 3 ["#a"; "#b"] None
    (Some "hidden")
    (fun A tr c =>
       match c in PlaywrightHelpers.Call T return Outcome T with
       | PlaywrightHelpers.WaitForSelector _ sel _ _ =>
           if String.eqb sel "#a" then Thrown (Err "Timeout 15000ms exceeded")
           else Returned None
       | _ => Thrown (Err "unavailable")
       end)
    (mkWorld tt [])
  = (Returned None,
     mkWorld tt
       [Did (PlaywrightHelpers.WaitForSelector 3 "#a"
               (PlaywrightHelpers.mkQuotient 30000%N 2) "hidden");
        Logged Warn ["Selector 1/2 failed: #a - Timeout 15000ms exceeded"];
        Did (PlaywrightHelpers.WaitForSelector 3 "#b"
               (PlaywrightHelpers.mkQuotient 30000%N 2) "hidden")]).
Proof. reflexivity. Qed.

(** ** The validated fill *)

(** X20. [smartFill] reports success only for the text it was given and touches
    no field. With validation asked for, it returns only when the value the
    page reports after filling equals the text exactly, and reading that
    value is the last thing it asked of the page; without, it never reads
    the value back. *)
Theorem smartFill_validates (St : Type) (p : Playwright.PageHandle)
    (sel text : string) (clear : option bool) (timeout : option N)
    (validate : option bool) (env : Eff.Env PlaywrightHelpers.Call)
    (w w' : Eff.World PlaywrightHelpers.Call St) (r : PlaywrightHelpers.Filled) :
  PlaywrightHelpers.smartFill St p sel text clear timeout validate env w
  = (Returned r, w') ->
  r = PlaywrightHelpers.mkFilled true text (orDefault validate false) /\
  this w' = this w /\
  exists new,
    trace w' = trace w ++ new /\
    if orDefault validate false then
      exists front,
        new = front ++ [Did (PlaywrightHelpers.InputValue p sel);
                        Logged Info ["Smart fill successful: " +:+ sel]] /\
        env _ (trace w ++ front) (PlaywrightHelpers.InputValue p sel)
        = Returned text
    else filter readsValue new = [].
Proof.
  unfold PlaywrightHelpers.smartFill. intros H. eff2.
  destruct clear as [[|]|]; eff2;
    repeat match type of H with
           | context [env ?A ?tr ?c] => destruct (env A tr c) eqn:?; eff2
           end;
    destruct (orDefault validate false) eqn:Hv; eff2;
    repeat match type of H with
           | context [env ?A ?tr ?c] => destruct (env A tr c) eqn:?; eff2
           end;
    try discriminate H;
    try (match type of H with
         | context [String.eqb ?a ?b] =>
             destruct (String.eqb_spec a b) as [->|]; cbn [negb] in H; eff2
         end);
    try discriminate H;
    inversion H; subst; clear H; cbn [this trace];
    (split; [reflexivity|]); (split; [reflexivity|]);
    rewrite <- ?app_assoc; cbn [app];
    (eexists; split; [reflexivity|]);
    try reflexivity.
  all: match goal with
       | |- exists front, [?a; ?b; _; _] = _ /\ _ => exists [a; b]
       | |- exists front, [?a; _; _] = _ /\ _ => exists [a]
       end; (split; [reflexivity|]);
         rewrite <- ?app_assoc in *; cbn [app] in *; assumption.
Qed.

Lemma smartFill_validates_witness :
  exists new,
    new = [Did (PlaywrightHelpers.Fill 3 "#email" "" None);
           Did (PlaywrightHelpers.Fill 3 "#email" "ada@example.com"
                  (Some 30000%N));
           Did (PlaywrightHelpers.InputValue 3 "#email");
           Logged Info ["Smart fill successful: #email"]]
    /\ exists front,
         new = front ++ [Did (PlaywrightHelpers.InputValue 3 "#email");
                         Logged Info ["Smart fill successful: " +:+ "#email"]]
         /\ Scenes.filledPage "ada@example.com" _ ([] ++ front)
              (PlaywrightHelpers.InputValue 3 "#email")
            = Returned "ada@example.com".
Proof.
  destruct (smartFill_validates unit 3 "#email" "ada@example.com" None None
              (Some true) (Scenes.filledPage "ada@example.com") (mkWorld tt [])
              (mkWorld tt
                 [Did (PlaywrightHelpers.Fill 3 "#email" "" None);
                  Did (PlaywrightHelpers.Fill 3 "#email" "ada@example.com"
                         (Some 30000%N));
                  Did (PlaywrightHelpers.InputValue 3 "#email");
                  Logged Info ["Smart fill successful: #email"]])
              (PlaywrightHelpers.mkFilled true "ada@example.com" true)
              eq_refl) as (_ & _ & new & Hn & Hv).
  exists new. split; [symmetry; exact Hn|exact Hv].
Defined.

(** ** Typing with retries *)





(** X22. The check after typing is lenient. When the engine does all it is
    asked and the field reports no value, an empty value, or any value
    that contains the text, [safeSendKeys] with a count of at least one
    returns [true] after a single attempt: it locates the field, waits
    until it is enabled, scrolls to it, clears it and pauses 100 ms if
    asked to (the default), types, reads the value back once, and logs the
    success. *)
Theorem safeSendKeys_accepts (St : Type) (d : Selenium.Handle)
    (sel text : string) (clearFirst : option bool) (maxRetries : option nat)
    (env : Eff.Env SeleniumHelpers.Call)
    (w : Eff.World SeleniumHelpers.Call St)
    (el : Selenium.Element) (value : option string) :
  0 < orDefault maxRetries 3 ->
  (forall tr, env _ tr (SeleniumHelpers.WaitLocated d
                          (SeleniumUtils.getSmartSelector sel) 5000%N)
              = Returned el) ->
  (forall tr t, env _ tr (SeleniumHelpers.WaitEnabled d el t) = Returned tt) ->
  (forall tr script args, exists r,
      env _ tr (SeleniumHelpers.ExecuteScript d script args) = Returned r) ->
  (forall tr, env _ tr (SeleniumHelpers.Clear el) = Returned tt) ->
  (forall tr, env _ tr (SeleniumHelpers.SendKeys el text) = Returned tt) ->
  (forall tr, env _ tr (SeleniumHelpers.GetAttribute el "value")
              = Returned value) ->
  (value = None \/ value = Some "" \/
   exists v, value = Some v /\ Js.includes v text = true) ->
  SeleniumHelpers.safeSendKeys St d sel text clearFirst maxRetries env w
  = (Returned true,
     mkWorld (this w)
       (trace w
        ++ [Did (SeleniumHelpers.WaitLocated d
                   (SeleniumUtils.getSmartSelector sel) 5000%N);
            Did (SeleniumHelpers.WaitEnabled d el 5000%N);
            Did (SeleniumHelpers.ExecuteScript d
                   SeleniumUtils.scrollIntoViewScript [Selenium.ArgElement el])]
        ++ (if orDefault clearFirst true
            then [Did (SeleniumHelpers.Clear el);
                  Did (SeleniumHelpers.Sleep 100%N)]
            else [])
        ++ [Did (SeleniumHelpers.SendKeys el text);
            Did (SeleniumHelpers.GetAttribute el "value");
            Logged Info ["Successfully sent keys to element: " +:+ sel]])).
Proof.
  intros Hpos Hloc Hen Hscr Hclr Hsend Hval Hok.
  assert (Hcheck : Js.truthy value
                   && negb (Js.includes (Js.templ value) text) = false).
  { destruct Hok as [->|[->|(v & -> & Hv)]]; [reflexivity|reflexivity|].
    cbn [Js.templ]. rewrite Hv. apply andb_false_r. }
  unfold SeleniumHelpers.safeSendKeys.
  destruct (orDefault maxRetries 3) as [|k] eqn:Hn; [lia|].
  cbn [SeleniumHelpers.safeSendKeysLoop Nat.leb].
  unfold SeleniumHelpers.sendKeysAttempt, SeleniumHelpers.smartWaitForElement.
  eff2. rewrite Hloc. eff2. rewrite Hen. eff2.
  match goal with
  | |- context [env _ ?tr (SeleniumHelpers.ExecuteScript d ?s ?a)] =>
      destruct (Hscr tr s a) as [r Hr]; rewrite Hr
  end.
  eff2. destruct (orDefault clearFirst true); eff2;
    rewrite ?Hclr; eff2; rewrite Hsend; eff2; rewrite Hval; eff2;
    rewrite Hcheck; eff2; rewrite <- ?app_assoc; reflexivity.
Qed.

Lemma safeSendKeys_accepts_witness :
  SeleniumHelpers.safeSendKeys unit 1 "#name" "Ada" None None
    (Scenes.reportingField None) (mkWorld tt [])
  = (Returned true,
     mkWorld tt
       ([Did (SeleniumHelpers.WaitLocated 1 (By_id "name") 5000%N);
         Did (SeleniumHelpers.WaitEnabled 1 7 5000%N);
         Did (SeleniumHelpers.ExecuteScript 1
                SeleniumUtils.scrollIntoViewScript [Selenium.ArgElement 7])]
        ++ [Did (SeleniumHelpers.Clear 7); Did (SeleniumHelpers.Sleep 100%N)]
        ++ [Did (SeleniumHelpers.SendKeys 7 "Ada");
            Did (SeleniumHelpers.GetAttribute 7 "value");
            Logged Info ["Successfully sent keys to element: " +:+ "#name"]])).
Proof.
  apply (safeSendKeys_accepts unit 1 "#name" "Ada" None None
           (Scenes.reportingField None) (mkWorld tt []) 7 None).
  - cbn. lia.
  - reflexivity.
  - reflexivity.
  - intros tr script args. eexists. reflexivity.
  - reflexivity.
  - reflexivity.
  - reflexivity.
  - now left.
Defined.

(** ** Probes that never throw *)

(** X23. [elementExists], [isElementVisible], [scrollToElement] and
    [getElementText] never throw and touch no field, whatever the engine
    does: they return. [elementExists] returns [true] exactly when the
    engine located the element within the timeout (5000 ms when none is
    given); and when the element cannot be located, the other three return
    [false], [false] and the empty string. *)
Theorem probes_never_throw (St : Type) (d : Selenium.Handle) (sel : string)
    (timeout : option N) (env : Eff.Env SeleniumHelpers.Call)
    (w : Eff.World SeleniumHelpers.Call St) :
  let locate t :=
    env _ (trace w)
      (SeleniumHelpers.WaitLocated d (SeleniumUtils.getSmartSelector sel) t) in
  (exists b w',
     SeleniumHelpers.elementExists St d sel timeout env w = (Returned b, w') /\
     this w' = this w /\
     (b = true <-> exists el, locate (orDefault timeout 5000%N) = Returned el))
  /\
  (exists b w',
     SeleniumHelpers.isElementVisible St d sel env w = (Returned b, w') /\
     this w' = this w /\
     ((exists e, locate 5000%N = Thrown e) -> b = false))
  /\
  (exists b w',
     SeleniumHelpers.scrollToElement St d sel env w = (Returned b, w') /\
     this w' = this w /\
     ((exists e, locate 5000%N = Thrown e) -> b = false))
  /\
  (exists s w',
     SeleniumHelpers.getElementText St d sel env w = (Returned s, w') /\
     this w' = this w /\
     ((exists e, locate 5000%N = Thrown e) -> s = "")).
Proof.
  cbv zeta. split; [|split; [|split]].
  - unfold SeleniumHelpers.elementExists, SeleniumHelpers.smartWaitForElement.
    eff2.
    destruct (env _ (trace w) (SeleniumHelpers.WaitLocated d _ _)) as [el|e];
      eff2; eexists; eexists; (split; [reflexivity|]);
      (split; [reflexivity|]).
    + split; [intros _; now exists el|reflexivity].
    + split; [discriminate|intros [el H]; discriminate H].
  - unfold SeleniumHelpers.isElementVisible,
      SeleniumHelpers.smartWaitForElement.
    eff2.
    destruct (env _ (trace w) (SeleniumHelpers.WaitLocated d _ _)) as [el|e];
      eff2;
      repeat match goal with
             | |- context [env ?A ?tr ?c] => destruct (env A tr c); eff2
             end;
      eexists; eexists; (split; [reflexivity|]); (split; [reflexivity|]);
      try reflexivity; intros [e' H]; discriminate H.
  - unfold SeleniumHelpers.scrollToElement,
      SeleniumHelpers.smartWaitForElement.
    eff2.
    destruct (env _ (trace w) (SeleniumHelpers.WaitLocated d _ _)) as [el|e];
      eff2;
      repeat match goal with
             | |- context [env ?A ?tr ?c] => destruct (env A tr c); eff2
             end;
      eexists; eexists; (split; [reflexivity|]); (split; [reflexivity|]);
      try reflexivity; intros [e' H]; discriminate H.
  - unfold SeleniumHelpers.getElementText,
      SeleniumHelpers.smartWaitForElement.
    eff2.
    destruct (env _ (trace w) (SeleniumHelpers.WaitLocated d _ _)) as [el|e];
      eff2;
      repeat match goal with
             | |- context [env ?A ?tr ?c] => destruct (env A tr c); eff2
             | |- context [if ?b then _ else _] => destruct b; eff2
             end;
      eexists; eexists; (split; [reflexivity|]); (split; [reflexivity|]);
      try reflexivity; intros [e' H]; discriminate H.
Qed.

Example getElementText_falls_back :
  SeleniumHelpers.getElementText unit 1 ".price"
    (fun A _ c =>
       match c in SeleniumHelpers.Call T return Outcome T with
       | SeleniumHelpers.WaitLocated _ _ _ => Returned 7
       | SeleniumHelpers.GetText _ => Returned "   "
       | SeleniumHelpers.GetAttribute _ _ => Returned (Some " <b>12</b> ")
       | _ => Thrown (Err "unavailable")
       end)
    (mkWorld tt [])
  = (Returned "<b>12</b>",
     mkWorld tt
       [Did (SeleniumHelpers.WaitLocated 1 (By_className "price") 5000%N);
        Did (SeleniumHelpers.GetText 7);
        Did (SeleniumHelpers.GetAttribute 7 "innerHTML")]).
Proof. reflexivity. Qed.

(** ** Alerts *)

(** X24. [handleAlert] never throws and touches no field. It returns the
    alert's text only after it accepted or dismissed the alert. With an
    action other than accept, dismiss and sendkeys (compared in lower
    case) it returns nothing and closes nothing, also when an alert is
    open and its text was read: the missing result does not tell that
    there was no alert. *)
Theorem handleAlert_never_throws (St : Type) (d : Selenium.Handle)
    (action text : option string) (env : Eff.Env SeleniumHelpers.Call)
    (w : Eff.World SeleniumHelpers.Call St) :
  exists r w' new,
    SeleniumHelpers.handleAlert St d action text env w = (Returned r, w') /\
    this w' = this w /\
    trace w' = trace w ++ new /\
    (r <> None -> filter closesAlert new <> []) /\
    (~ In (Js.toLowerCase (orDefault action "accept"))
          ["accept"; "dismiss"; "sendkeys"] ->
     r = None /\ filter closesAlert new = []).
Proof.
  unfold SeleniumHelpers.handleAlert. eff2.
  destruct (env _ (trace w) (SeleniumHelpers.SwitchToAlert d)) as [a|e]; eff2.
  2: { exists None; eexists; eexists. split; [reflexivity|].
       split; [reflexivity|]. split; [reflexivity|].
       split; [intros H; now contradiction H|]. intros _. now split. }
  destruct (env _ _ (SeleniumHelpers.AlertGetText a)) as [t|e]; eff2.
  2: { exists None; eexists; eexists. split; [reflexivity|].
       split; [reflexivity|]. cbn [trace]. rewrite <- !app_assoc.
       split; [reflexivity|].
       split; [intros H; now contradiction H|]. intros _. now split. }
  destruct (String.eqb_spec (Js.toLowerCase (orDefault action "accept"))
              "accept") as [Ea|Na]; eff2.
  { destruct (env _ _ (SeleniumHelpers.AlertAccept a)); eff2;
      eexists; eexists; eexists; (split; [reflexivity|]);
      (split; [reflexivity|]); cbn [trace]; rewrite <- !app_assoc;
      (split; [reflexivity|]); cbn [app filter closesAlert];
      (split; [discriminate || (intros H; now contradiction H)|]);
      intros H; exfalso; apply H; rewrite Ea; cbn; tauto. }
  destruct (String.eqb_spec (Js.toLowerCase (orDefault action "accept"))
              "dismiss") as [Ed|Nd]; eff2.
  { destruct (env _ _ (SeleniumHelpers.AlertDismiss a)); eff2;
      eexists; eexists; eexists; (split; [reflexivity|]);
      (split; [reflexivity|]); cbn [trace]; rewrite <- !app_assoc;
      (split; [reflexivity|]); cbn [app filter closesAlert];
      (split; [discriminate || (intros H; now contradiction H)|]);
      intros H; exfalso; apply H; rewrite Ed; cbn; tauto. }
  destruct (String.eqb_spec (Js.toLowerCase (orDefault action "accept"))
              "sendkeys") as [Es|Ns]; eff2.
  { destruct (Js.truthy text); eff2;
      repeat match goal with
             | |- context [env ?A ?tr ?c] => destruct (env A tr c); eff2
             end;
      eexists; eexists; eexists; (split; [reflexivity|]);
      (split; [reflexivity|]); cbn [trace]; rewrite <- !app_assoc;
      (split; [reflexivity|]); cbn [app filter closesAlert];
      (split; [discriminate || (intros H; now contradiction H)|]);
      intros H; exfalso; apply H; rewrite Es; cbn; tauto. }
  exists None; eexists; eexists. split; [reflexivity|].
  split; [reflexivity|]. cbn [trace]. rewrite <- !app_assoc.
  split; [reflexivity|]. cbn [app filter closesAlert].
  split; [intros H; now contradiction H|]. intros _. now split.
Qed.

Example handleAlert_unknown_action :
  SeleniumHelpers.handleAlert unit 1 (Some "cancel") None
    (Scenes.reportingField None) (mkWorld tt [])
  = (Returned None,
     mkWorld tt
       [Did (SeleniumHelpers.SwitchToAlert 1);
        Did (SeleniumHelpers.AlertGetText 9)]).
Proof. reflexivity. Qed.

(** ** Waiting for an element *)

(** X25. On a started driver of either kind, [waitForElement] and
    [waitForVisible] (and, on the WebDriver driver, [waitForClickable])
    either return the success object naming the selector or throw their
    own error, which names the timeout in force, the one passed or, when
    that is missing or zero, the driver's, and the selector. Whatever the
    engine threw is never thrown on, and no field changes. *)
Theorem waits_settle (envA : Eff.Env Selenium.Call)
    (envB : Eff.Env Playwright.Call)
    (wA : Eff.World Selenium.Call Selenium.Driver)
    (wB : Eff.World Playwright.Call Playwright.Driver)
    (d : Selenium.Handle) (p : Playwright.PageHandle)
    (selector : string) (timeout_ : option N) :
  Selenium.isStarted (this wA) = true ->
  Selenium.driver (this wA) = Some d ->
  Playwright.isStarted (this wB) = true ->
  Playwright.page (this wB) = Some p ->
  let tA := timeoutOr timeout_ (Selenium.timeout (Selenium.options (this wA))) in
  let tB := timeoutOr timeout_ (Playwright.timeout (Playwright.options (this wB))) in
  let settles {C St} (fields : St) (what : string) (t : N)
        (r : Outcome Done * Eff.World C St) :=
    this (snd r) = fields /\
    (fst r = Returned (mkDone true selector) \/
     fst r = Thrown (Err (what +:+ " within " +:+ Js.num t +:+ "ms: "
                          +:+ selector))) in
  settles (this wA) "Element not found" tA
    (SeleniumWaits.waitForElement selector timeout_ envA wA) /\
  settles (this wA) "Element not visible" tA
    (SeleniumWaits.waitForVisible selector timeout_ envA wA) /\
  settles (this wA) "Element not clickable" tA
    (SeleniumWaits.waitForClickable selector timeout_ envA wA) /\
  settles (this wB) "Element not found" tB
    (PlaywrightWaits.waitForElement selector timeout_ envB wB) /\
  settles (this wB) "Element not visible" tB
    (PlaywrightWaits.waitForVisible selector timeout_ envB wB).
Proof.
  intros HsA HdA HsB HpB. cbv zeta.
  repeat split;
    unfold SeleniumWaits.waitForElement, SeleniumWaits.waitForVisible,
           SeleniumWaits.waitForClickable, PlaywrightWaits.waitForElement,
           PlaywrightWaits.waitForVisible, Selenium.findElement,
           Selenium._ensureStarted, Selenium.theDriver,
           Playwright._ensureStarted, Playwright.thePage;
    repeat (eff; rewrite ?HsA, ?HdA, ?HsB, ?HpB);
    repeat match goal with
           | |- context [envA ?A ?tr ?c] =>
               destruct (envA A tr c); repeat (eff; rewrite ?HdA)
           | |- context [envB ?A ?tr ?c] =>
               destruct (envB A tr c); repeat (eff; rewrite ?HpB)
           end;
    try reflexivity; (left; reflexivity) || (right; reflexivity).
Qed.

Lemma waits_settle_witness :
  (this (snd (SeleniumWaits.waitForVisible "#banner" (Some 0%N) Sample.deadEnv
                Sample.startedSelenium))
   = this Sample.startedSelenium /\
   (fst (SeleniumWaits.waitForVisible "#banner" (Some 0%N) Sample.deadEnv
           Sample.startedSelenium)
    = Returned (mkDone true "#banner") \/
    fst (SeleniumWaits.waitForVisible "#banner" (Some 0%N) Sample.deadEnv
           Sample.startedSelenium)
    = Thrown (Err ("Element not visible" +:+ " within " +:+ Js.num 30000%N
                   +:+ "ms: " +:+ "#banner"))))
  /\
  (this (snd (PlaywrightWaits.waitForElement "#banner" (Some 0%N)
                Sample.deadEnv Sample.startedPlaywright))
   = this Sample.startedPlaywright /\
   (fst (PlaywrightWaits.waitForElement "#banner" (Some 0%N) Sample.deadEnv
           Sample.startedPlaywright)
    = Returned (mkDone true "#banner") \/
    fst (PlaywrightWaits.waitForElement "#banner" (Some 0%N) Sample.deadEnv
           Sample.startedPlaywright)
    = Thrown (Err ("Element not found" +:+ " within " +:+ Js.num 30000%N
                   +:+ "ms: " +:+ "#banner")))).
Proof.
  pose proof (waits_settle Sample.deadEnv Sample.deadEnv Sample.startedSelenium
                Sample.startedPlaywright 1 3 "#banner" (Some 0%N)
                eq_refl eq_refl eq_refl eq_refl) as (_ & HA & _ & HB & _).
  split; [exact HA|exact HB].
Defined.

Example waitForVisible_zero_timeout :
  SeleniumWaits.waitForVisible "#banner" (Some 0%N) Sample.deadEnv
    Sample.startedSelenium
  = (Thrown (Err "Element not visible within 30000ms: #banner"),
     mkWorld (this Sample.startedSelenium)
       [Did (Selenium.WaitLocated 1 (By_id "banner") 30000%N);
        Logged ErrorLevel ["Element not found: #banner"; "unavailable"]]).
Proof. reflexivity. Qed.

(** ** The directories of a driver *)

#[local] Instance sameDirectories_refl : Reflexive sameDirectories.
Proof. intros s. reflexivity. Qed.

#[local] Instance sameDirectories_trans : Transitive sameDirectories.
Proof. intros a b c H1 H2. unfold sameDirectories in *. congruence. Qed.

#[local] Instance sameDirectoriesB_refl : Reflexive sameDirectoriesB.
Proof. intros s. reflexivity. Qed.

#[local] Instance sameDirectoriesB_trans : Transitive sameDirectoriesB.
Proof. intros a b c H1 H2. unfold sameDirectoriesB in *. congruence. Qed.

Lemma Selenium_keeps_directories (path : PathLib) (root : string)
    (f : SeleniumOps.Family) (op : SeleniumOps.Op) :
  keeps sameDirectories (SeleniumOps.run path root f op).
Proof.
  destruct op; cbn [SeleniumOps.run]; try destruct f;
    cbn [SeleniumOps.startOf];
    unfold Selenium.chrome_start, Selenium.edge_start, Selenium.firefox_start,
           Selenium._configureChromePerformance,
           Selenium._configureEdgePerformance,
           Selenium._configureFirefoxPerformance,
           Selenium.setViewportUnlessHeadless,
           Selenium.start, Selenium.chromeBuild, Selenium.firefoxBuild,
           Selenium.edgeBuild,
           Selenium.quit, Selenium.navigateTo, Selenium.click, Selenium.sendKeys,
           Selenium.clearText, Selenium.getText, Selenium.findElement,
           Selenium.findElements, Selenium.executeScript,
           Selenium.takeScreenshot, Selenium.startVideoRecording,
           Selenium.stopVideoRecording, Selenium.createScreenshotsDirectory,
           Selenium.createVideosDirectory, Selenium._ensureStarted,
           Selenium.theDriver;
    frame.
Qed.

Lemma Playwright_keeps_directories (path : PathLib) (root : string)
    (penv : string -> option string) (op : PlaywrightOps.Op) :
  keeps sameDirectoriesB (PlaywrightOps.run path root penv op).
Proof.
  destruct op; cbn [PlaywrightOps.run];
    unfold Playwright.start, Playwright.selectEngine, Playwright.acquire,
           Playwright.buildContextOptions, Playwright.quit,
           Playwright.navigateTo, Playwright.click, Playwright.sendKeys,
           Playwright.clearText, Playwright.getText, Playwright.findElement,
           Playwright.findElements, Playwright.executeScript,
           Playwright.takeScreenshot, Playwright.startVideoRecording,
           Playwright.stopVideoRecording, Playwright.createScreenshotsDirectory,
           Playwright.createVideosDirectory, Playwright._ensureStarted,
           Playwright.thePage;
    frame.
Qed.

(** X26. The directories of a driver are fixed by its constructor. On every
    class of the WebDriver driver and on the DevTools driver, over any
    sequence of operations, the output and download directories stay the
    configured paths resolved against the project root, and the
    screenshots and videos directory names stay the defaults; so at any
    time [getDownloadDirectory()] asked not to create anything answers
    with the download directory of the constructor and calls nothing. *)
Theorem directories_fixed_at_construction (path : PathLib) (root : string)
    (penv : string -> option string) (f : SeleniumOps.Family)
    (uA : Selenium.UserOptions) (uB : Playwright.UserOptions)
    (opsA : list SeleniumOps.Op) (opsB : list PlaywrightOps.Op)
    (envA envA' : Eff.Env Selenium.Call)
    (envB envB' : Eff.Env Playwright.Call) :
  let wA := runAll (map (SeleniumOps.run path root f) opsA) envA
              (mkWorld (Selenium.construct path root uA) []) in
  let wB := runAll (map (PlaywrightOps.run path root penv) opsB) envB
              (mkWorld (Playwright.construct path root uB) []) in
  let downloadsA :=
    Selenium.anchored path root
      (Selenium.downloadsPath (Selenium.mergeOptions uA)) in
  let downloadsB :=
    Playwright.anchored path root
      (Playwright.downloadsPath (Playwright.mergeOptions uB)) in
  (Selenium.outputDirectoryBasePath (this wA)
   = Selenium.anchored path root
       (Selenium.outputPath (Selenium.mergeOptions uA)) /\
   Selenium.downloadDirectoryBasePath (this wA) = downloadsA /\
   Selenium.screenshotsDirectory (this wA) = "screenshots" /\
   Selenium.videosDirectory (this wA) = "videos" /\
   SeleniumWaits.getDownloadDirectory path root None (Some false) envA' wA
   = (Returned downloadsA, wA))
  /\
  (Playwright.outputDirectoryBasePath (this wB)
   = Playwright.anchored path root
       (Playwright.outputPath (Playwright.mergeOptions uB)) /\
   Playwright.downloadDirectoryBasePath (this wB) = downloadsB /\
   Playwright.screenshotsDirectory (this wB) = "screenshots" /\
   Playwright.videosDirectory (this wB) = "videos" /\
   PlaywrightWaits.getDownloadDirectory path root None (Some false) envB' wB
   = (Returned downloadsB, wB)).
Proof.
  cbv zeta. split.
  - assert (G : sameDirectories (Selenium.construct path root uA)
                  (this (runAll (map (SeleniumOps.run path root f) opsA) envA
                           (mkWorld (Selenium.construct path root uA) [])))).
    { apply (keeps_runAll _ _ sameDirectories
               (map (SeleniumOps.run path root f) opsA)
               ltac:(apply Forall_map, Forall_forall; intros op _;
                     apply Selenium_keeps_directories)
               envA (mkWorld (Selenium.construct path root uA) [])). }
    unfold sameDirectories in G. inversion G as [[H1 H2 H3 H4]].
    split; [exact H1|]. split; [exact H2|]. split; [exact H3|].
    split; [exact H4|].
    unfold SeleniumWaits.getDownloadDirectory. eff. cbn [Js.truthy orDefault].
    eff. rewrite H2.
    destruct (runAll _ envA _). reflexivity.
  - assert (G : sameDirectoriesB (Playwright.construct path root uB)
                  (this (runAll (map (PlaywrightOps.run path root penv) opsB)
                           envB
                           (mkWorld (Playwright.construct path root uB) [])))).
    { apply (keeps_runAll _ _ sameDirectoriesB
               (map (PlaywrightOps.run path root penv) opsB)
               ltac:(apply Forall_map, Forall_forall; intros op _;
                     apply Playwright_keeps_directories)
               envB (mkWorld (Playwright.construct path root uB) [])). }
    unfold sameDirectoriesB in G. inversion G as [[H1 H2 H3 H4]].
    split; [exact H1|]. split; [exact H2|]. split; [exact H3|].
    split; [exact H4|].
    unfold PlaywrightWaits.getDownloadDirectory. eff. cbn [Js.truthy orDefault].
    eff. rewrite H2.
    destruct (runAll _ envB _). reflexivity.
Qed.

(** ** Filling a form *)

Ltac eff3 :=
  unfold PlaywrightForms.M, PlaywrightParser.M in *; eff.




Example fillForm_unknown_type :
  PlaywrightForms.fillForm unit 3
    [("email", PlaywrightForms.mkFieldData None
                 (PlaywrightForms.VText "ada@example.com") (Some "email"));
     ("birthday", PlaywrightForms.mkFieldData (Some "#dob")
                    (PlaywrightForms.VText "1815-12-10") (Some "date"));
     ("terms", PlaywrightForms.mkFieldData None (PlaywrightForms.VFlag true)
                 (Some "checkbox"))]
    None
    Scenes.willingForm
    (mkWorld tt [])
  = (Thrown (Err "Unknown field type: date"),
     mkWorld tt
       [Logged Info ["Filling form field: email"];
        Did (PlaywrightForms.Fill 3 ("[name=" +:+ Js.dq +:+ "email" +:+ Js.dq +:+ "]")
               (PlaywrightForms.VText "ada@example.com") 30000%N);
        Logged Info ["Filling form field: birthday"];
        Logged ErrorLevel ["Form filling failed: Unknown field type: date"]]).
Proof. reflexivity. Qed.

(** ** Extracting texts and attributes *)

Lemma textsLoop_settles (St : Type) (page : Playwright.PageHandle)
    (sel : string) (trimming : bool) (env : Eff.Env PlaywrightParser.Call) :
  forall fuel i texts (w : Eff.World PlaywrightParser.Call St),
    exists out w' new,
      PlaywrightParser.textsLoop page St sel trimming fuel i texts env w
      = (out, w') /\
      this w' = this w /\
      trace w' = trace w ++ new /\
      filter isInfo new = [] /\
      forall l, out = Returned l -> List.length l = List.length texts + fuel.
Proof.
  induction fuel as [|fuel IH]; intros i texts w.
  - exists (Returned texts), w, []. cbn. rewrite app_nil_r.
    repeat split; try reflexivity. intros l H. inversion H. lia.
  - cbn [PlaywrightParser.textsLoop]. eff3.
    destruct (env _ (trace w) (PlaywrightParser.NthTextContent page sel i))
      as [text|e].
    + match goal with
      | |- context [PlaywrightParser.textsLoop page St sel trimming fuel (S i)
                      ?acc env ?w2] =>
          destruct (IH (S i) acc w2)
            as (out & w' & new & Hrun & Hthis & Htr & Hinfo & Hlen)
      end.
      rewrite Hrun. cbn [this trace] in Hthis, Htr.
      exists out, w', (Did (PlaywrightParser.NthTextContent page sel i) :: new).
      split; [reflexivity|]. split; [exact Hthis|].
      split; [rewrite Htr, <- app_assoc; reflexivity|].
      split; [exact Hinfo|].
      intros l H. rewrite (Hlen l H), length_app. cbn. lia.
    + eexists; eexists; exists [Did (PlaywrightParser.NthTextContent page sel i)].
      split; [reflexivity|]. split; [reflexivity|]. split; [reflexivity|].
      split; [reflexivity|]. discriminate.
Qed.

Lemma withoutNulls_length (l : list (option string)) :
  List.length (PlaywrightParser.withoutNulls l) <= List.length l.
Proof. induction l as [|[a|] l IH]; cbn; lia. Qed.

Lemma attributesLoop_settles (St : Type) (page : Playwright.PageHandle)
    (sel name : string) (env : Eff.Env PlaywrightParser.Call) :
  forall fuel i attributes (w : Eff.World PlaywrightParser.Call St),
    exists out w' new,
      PlaywrightParser.attributesLoop page St sel name fuel i attributes env w
      = (out, w') /\
      this w' = this w /\
      trace w' = trace w ++ new /\
      forall l, out = Returned l ->
                List.length l = List.length attributes + fuel.
Proof.
  induction fuel as [|fuel IH]; intros i attributes w.
  - exists (Returned attributes), w, []. cbn. rewrite app_nil_r.
    repeat split; try reflexivity. intros l H. inversion H. lia.
  - cbn [PlaywrightParser.attributesLoop]. eff3.
    destruct (env _ (trace w) (PlaywrightParser.NthGetAttribute page sel i name))
      as [attribute|e].
    + match goal with
      | |- context [PlaywrightParser.attributesLoop page St sel name fuel (S i)
                      ?acc env ?w2] =>
          destruct (IH (S i) acc w2)
            as (out & w' & new & Hrun & Hthis & Htr & Hlen)
      end.
      rewrite Hrun. cbn [this trace] in Hthis, Htr.
      exists out, w',
        (Did (PlaywrightParser.NthGetAttribute page sel i name) :: new).
      split; [reflexivity|]. split; [exact Hthis|].
      split; [rewrite Htr, <- app_assoc; reflexivity|].
      intros l H. rewrite (Hlen l H), length_app. cbn. lia.
    + eexists; eexists;
        exists [Did (PlaywrightParser.NthGetAttribute page sel i name)].
      split; [reflexivity|]. split; [reflexivity|]. split; [reflexivity|].
      discriminate.
Qed.

(** X28. [extractTexts] and [extractAttributes] touch no field, and with
    [throwOnError: false] they never throw. What they return is
    either the default (the [defaultValue] option, or the empty list), or,
    when the page counted [n >= 1] matches and answered for each,
    [extractTexts] returns exactly [n] texts and [extractAttributes] at
    most [n] attributes, the missing ones dropped. So a failure swallowed
    by [throwOnError: false] gives the same result as a selector without
    matches. *)
Theorem extractors_settle (St : Type) (page : Playwright.PageHandle)
    (sel name : string) (options : PlaywrightParser.Options)
    (env : Eff.Env PlaywrightParser.Call)
    (w : Eff.World PlaywrightParser.Call St) :
  let dflt := orDefault (PlaywrightParser.defaultValue options) [] in
  let counted n :=
    env _ (trace w) (PlaywrightParser.Count page sel) = Returned n /\ 1 <= n in
  (exists out w',
     PlaywrightParser.extractTexts page St sel options env w = (out, w') /\
     this w' = this w /\
     match out with
     | Returned l => l = dflt \/ exists n, counted n /\ List.length l = n
     | Thrown e =>
         PlaywrightParser.throwOnError options <> Some false
     end)
  /\
  (exists out w',
     PlaywrightParser.extractAttributes page St sel name options env w
     = (out, w') /\
     this w' = this w /\
     match out with
     | Returned l => l = dflt \/ exists n, counted n /\ List.length l <= n
     | Thrown e =>
         PlaywrightParser.throwOnError options <> Some false
     end).
Proof.
  cbv zeta. split.
  - unfold PlaywrightParser.extractTexts. eff3.
    destruct (env _ (trace w) (PlaywrightParser.Count page sel)) as [n|e] eqn:Hc.
    + destruct n as [|n]; cbn [Nat.eqb]; eff3.
      * eexists; eexists. split; [reflexivity|]. split; [reflexivity|].
        now left.
      * match goal with
        | |- context [PlaywrightParser.textsLoop page St sel ?t (S n) 0 [] env
                        ?w2] =>
            destruct (textsLoop_settles St page sel t env (S n) 0 [] w2)
              as (out & w' & new & Hrun & Hthis & Htr & Hinfo & Hlen)
        end.
        rewrite Hrun. cbn [this] in Hthis.
        destruct out as [l|e]; eff3.
        -- eexists; eexists. split; [reflexivity|]. split; [exact Hthis|].
           right. exists (S n). split; [split; [reflexivity|lia]|].
           now rewrite (Hlen l eq_refl).
        -- destruct (PlaywrightParser.throwOnError options) as [[|]|];
             cbn [PlaywrightParser.notFalse]; eff3;
             eexists; eexists; (split; [reflexivity|]);
             (split; [exact Hthis|]); try discriminate. now left.
    + eff3.
      destruct (PlaywrightParser.throwOnError options) as [[|]|];
        cbn [PlaywrightParser.notFalse]; eff3;
        eexists; eexists; (split; [reflexivity|]);
        (split; [reflexivity|]); try discriminate. now left.
  - unfold PlaywrightParser.extractAttributes. eff3.
    destruct (env _ (trace w) (PlaywrightParser.Count page sel)) as [n|e] eqn:Hc.
    + destruct n as [|n]; cbn [Nat.eqb]; eff3.
      * eexists; eexists. split; [reflexivity|]. split; [reflexivity|].
        now left.
      * match goal with
        | |- context [PlaywrightParser.attributesLoop page St sel name (S n) 0
                        [] env ?w2] =>
            destruct (attributesLoop_settles St page sel name env (S n) 0 [] w2)
              as (out & w' & new & Hrun & Hthis & Htr & Hlen)
        end.
        rewrite Hrun. cbn [this] in Hthis.
        destruct out as [l|e]; eff3.
        -- eexists; eexists. split; [reflexivity|]. split; [exact Hthis|].
           right. exists (S n). split; [split; [reflexivity|lia]|].
           pose proof (withoutNulls_length l) as Hle.
           rewrite (Hlen l eq_refl) in Hle. exact Hle.
        -- destruct (PlaywrightParser.throwOnError options) as [[|]|];
             cbn [PlaywrightParser.notFalse]; eff3;
             eexists; eexists; (split; [reflexivity|]);
             (split; [exact Hthis|]); try discriminate. now left.
    + eff3.
      destruct (PlaywrightParser.throwOnError options) as [[|]|];
        cbn [PlaywrightParser.notFalse]; eff3;
        eexists; eexists; (split; [reflexivity|]);
        (split; [reflexivity|]); try discriminate. now left.
Qed.

Example extractTexts_swallowed_failure :
  fst (PlaywrightParser.extractTexts 3 unit "li.item"
         (PlaywrightParser.mkOptions None None (Some false))
         (Scenes.twoItems (Thrown (Err "Target closed"))) (mkWorld tt []))
  = Returned []
  /\
  fst (PlaywrightParser.extractTexts 3 unit "li.item"
         (PlaywrightParser.mkOptions None None None)
         (Scenes.twoItems (Returned None)) (mkWorld tt []))
  = Returned ["milk"; ""].
Proof. split; reflexivity. Qed.
